(** * Biryani Club: pricing, promotions, loyalty and the order lifecycle

    A shallow embedding of the order-pricing pipeline of the Biryani Club
    web application ([models.py], [utils.py], [routes.py]) and the
    properties of it that the design document states.

    Conventions of the embedding.
    - Monetary amounts are SQL [Float] columns and Python floats in the
      source.  They are modelled as exact rationals [Q], and equality of
      amounts is [==].  Rounding is outside that model; the module
      [Float64] writes the discount and the two totals of the coupon
      preview and the checkout over binary64, for the one property on
      which rounding shows.
    - Integer columns are [Z]; a nullable column is an [option].
    - A [datetime] is a point on a totally ordered time line, modelled as
      [Z] (microseconds).  The clock ([get_ist_now], [datetime.utcnow]) is
      an explicit argument [now] of every function that reads it.
    - Python truthiness is written out where the source relies on it:
      [if self.usage_limit:] is false for [None] and for [0].
    - Strings are [string]; [upper], [lower] and [strip] act on the ASCII
      range, and a property that composes the case maps is stated for
      ASCII text ([Py.isascii]).
    - The SQLAlchemy session is a pair of database states, the committed
      one and the working one; [commit] and [rollback] copy one onto the
      other. *)

From Stdlib Require Import ZArith QArith Qround Qminmax Lia Lqa.
From Stdlib Require Import String Ascii List Bool.
From Stdlib Require PrimFloat.
From stdpp Require Import gmap strings.

Import ListNotations.
Local Open Scope string_scope.
Local Open Scope Z_scope.

(* ===================================================================== *)
(** ** Python primitives used by the source                              *)
(* ===================================================================== *)

Module Py.

(** [bool(x)] for an [Integer] column value that may be [None]. *)
Definition truthy_int (x : option Z) : bool :=
  match x with
  | Some n => negb (n =? 0)
  | None => false
  end.

(** [bool(x)] for a [Float] column value that may be [None]. *)
Definition truthy_float (x : option Q) : bool :=
  match x with
  | Some q => negb (Qeq_bool q 0)
  | None => false
  end.

(** [bool(s)] for a string: the empty string is false. *)
Definition truthy_str (s : string) : bool :=
  match s with
  | EmptyString => false
  | String _ _ => true
  end.

(** [a < b] and [a >= b] on amounts. *)
Definition Qltb (a b : Q) : bool := negb (Qle_bool b a).
Definition Qgeb (a b : Q) : bool := Qle_bool b a.

(** [min(a, b)]: the first argument unless the second is strictly
    smaller, which is [Qmin]. *)
Definition min (a b : Q) : Q := Qmin a b.

(** [int(x // k)] for a float [x]: the floor of the quotient. *)
Definition floordiv (x : Q) (k : Z) : Z := Qfloor (x / inject_Z k).

(** [sum(...)] over amounts, starting from [0]. *)
Definition sum (l : list Q) : Q := fold_left Qplus l 0%Q.

Definition upper_ascii (c : ascii) : ascii :=
  let n := N_of_ascii c in
  if ((97 <=? n) && (n <=? 122))%N then ascii_of_N (n - 32) else c.

Definition lower_ascii (c : ascii) : ascii :=
  let n := N_of_ascii c in
  if ((65 <=? n) && (n <=? 90))%N then ascii_of_N (n + 32) else c.

Fixpoint map_str (f : ascii -> ascii) (s : string) : string :=
  match s with
  | EmptyString => EmptyString
  | String c r => String (f c) (map_str f r)
  end.

Definition upper : string -> string := map_str upper_ascii.
Definition lower : string -> string := map_str lower_ascii.

(** [s.isascii()]: every character is below 128.  On such strings
    [str.upper], [str.lower] and [str.strip] are the functions of this
    module; outside the ASCII range Python also maps and strips Unicode
    characters (['ß'.upper()] is ['SS']). *)
Fixpoint isascii (s : string) : bool :=
  match s with
  | EmptyString => true
  | String c r => (N_of_ascii c <? 128)%N && isascii r
  end.

(** The ASCII characters [str.strip()] removes. *)
Definition is_space (c : ascii) : bool :=
  let n := N_of_ascii c in
  (((9 <=? n) && (n <=? 13)) || ((28 <=? n) && (n <=? 32)))%N.

Fixpoint lstrip (s : string) : string :=
  match s with
  | EmptyString => EmptyString
  | String c r => if is_space c then lstrip r else s
  end.

Fixpoint rstrip (s : string) : string :=
  match s with
  | EmptyString => EmptyString
  | String c r =>
      match rstrip r with
      | EmptyString => if is_space c then EmptyString else String c EmptyString
      | r' => String c r'
      end
  end.

Definition strip (s : string) : string := rstrip (lstrip s).

Definition is_digit (c : ascii) : bool :=
  let n := N_of_ascii c in ((48 <=? n) && (n <=? 57))%N.

(** [re.sub(r'\D', '', s)]: keep the digits. *)
Fixpoint digits_only (s : string) : string :=
  match s with
  | EmptyString => EmptyString
  | String c r => if is_digit c then String c (digits_only r) else digits_only r
  end.

(** [sum(...)] over integers, starting from [0]. *)
Definition sum_int (l : list Z) : Z := fold_left Z.add l 0.

(** The slices [s[:n]] and [s[n:]] for a non-negative literal [n]. *)
Fixpoint take (n : nat) (s : string) : string :=
  match n, s with
  | S k, String c r => String c (take k r)
  | _, _ => EmptyString
  end.

Fixpoint drop (n : nat) (s : string) : string :=
  match n, s with
  | S k, String _ r => drop k r
  | _, _ => s
  end.

End Py.

(* ===================================================================== *)
(** ** models.py                                                         *)
(* ===================================================================== *)

(** *** class Promotion *)
Module Promotion.

Record t := mk {
  code : string;
  discount_type : string;          (* 'percentage' or 'fixed' *)
  discount_value : Q;
  min_order_amount : Q;
  max_discount : option Q;         (* for percentage discounts *)
  usage_limit : option Z;          (* max number of uses *)
  used_count : Z;
  is_active : bool;
  expires_at : option Z
}.

(** [is_expired]: a [datetime] is always true as a condition. *)
Definition is_expired (now : Z) (p : t) : bool :=
  match expires_at p with
  | Some e => now >? e
  | None => false
  end.

(** [is_usage_exceeded]: [if self.usage_limit:] is a truth test. *)
Definition is_usage_exceeded (p : t) : bool :=
  if Py.truthy_int (usage_limit p) then
    match usage_limit p with
    | Some l => used_count p >=? l
    | None => false
    end
  else false.

Definition is_valid (now : Z) (p : t) : bool :=
  is_active p && negb (is_expired now p) && negb (is_usage_exceeded p).

Definition calculate_discount (now : Z) (p : t) (subtotal : Q) : Q :=
  if negb (is_valid now p) || Py.Qltb subtotal (min_order_amount p) then 0%Q
  else if String.eqb (discount_type p) "percentage" then
    let discount := (subtotal * (discount_value p / 100))%Q in
    if Py.truthy_float (max_discount p) then
      match max_discount p with
      | Some c => Py.min discount c
      | None => discount
      end
    else discount
  else Py.min (discount_value p) subtotal.

(** [use_promotion]: the update [self.used_count += 1]; its
    [db.session.commit()] is performed on the session by the caller
    ([Session.use_promotion] below). *)
Definition use_promotion (p : t) : t :=
  mk (code p) (discount_type p) (discount_value p) (min_order_amount p)
     (max_discount p) (usage_limit p) (used_count p + 1) (is_active p)
     (expires_at p).

End Promotion.

(** *** class User (the fields the pricing and loyalty code reads) *)
Module User.

(** The primary key [id] is the key of the [users] table below. *)
Record t := mk {
  username : string;
  role : string;                   (* customer, admin, delivery *)
  loyalty_points : Z;
  loyalty_tier : string;           (* bronze, silver, gold, platinum *)
  is_active : bool
}.

Definition set_loyalty_points (v : Z) (u : t) : t :=
  mk (username u) (role u) v (loyalty_tier u) (is_active u).

Definition set_loyalty_tier (v : string) (u : t) : t :=
  mk (username u) (role u) (loyalty_points u) v (is_active u).

Definition is_admin (u : t) : bool := String.eqb (role u) "admin".
Definition is_delivery_person (u : t) : bool := String.eqb (role u) "delivery".

(** The keys of the [tiers] dictionary of [get_loyalty_tier_info], in
    the order the literal lists them (the order [tiers.items()] yields). *)
Inductive tier := bronze | silver | gold | platinum.

Definition tier_order : list tier := [bronze; silver; gold; platinum].

Definition tier_name (k : tier) : string :=
  match k with
  | bronze => "bronze"
  | silver => "silver"
  | gold => "gold"
  | platinum => "platinum"
  end.

(** One entry of [tiers]; [max_points = None] is [float('inf')]. *)
Record tier_info := mk_tier {
  min_points : Z;
  max_points : option Z;
  conversion_rate : Z;
  color : string
}.

(** [tiers[k]]. *)
Definition tiers (k : tier) : tier_info :=
  match k with
  | bronze => mk_tier 0 (Some 999) 5 "#CD7F32"
  | silver => mk_tier 1000 (Some 2499) 4 "#C0C0C0"
  | gold => mk_tier 2500 (Some 4999) 3 "#FFD700"
  | platinum => mk_tier 5000 None 2 "#E5E4E2"
  end.

(** [info['min_points'] <= points <= info['max_points']]. *)
Definition in_band (points : Z) (info : tier_info) : bool :=
  (min_points info <=? points) &&
  match max_points info with
  | Some m => points <=? m
  | None => true
  end.

(** The [for ... break] loop: the first tier whose band holds the
    balance, ['bronze'] when no band does. *)
Definition current_tier (points : Z) : tier :=
  match List.find (fun k => in_band points (tiers k)) tier_order with
  | Some k => k
  | None => bronze
  end.

(** [get_loyalty_tier_info]: the user after the call (the cached label
    may have been overwritten) and the returned entry. *)
Definition get_loyalty_tier_info (u : t) : t * tier_info :=
  let k := current_tier (loyalty_points u) in
  let u' := if negb (String.eqb (loyalty_tier u) (tier_name k))
            then set_loyalty_tier (tier_name k) u else u in
  (u', tiers k).

Definition get_redeemable_amount (u : t) : t * Z :=
  if loyalty_points u <? 100 then (u, 0)
  else
    let '(u', info) := get_loyalty_tier_info u in
    (u', loyalty_points u' / conversion_rate info).

(** The pair [redeem_points] returns: [(False, message)] or
    [(True, redeemed_amount)]. *)
Inductive redeem_result :=
| Refused (message : string)
| Redeemed (redeemed_amount : Z).

Definition redeem_points (u : t) (points_to_redeem : Z) : t * redeem_result :=
  if points_to_redeem <? 100 then
    (u, Refused "Minimum redemption is 100 points")
  else if points_to_redeem >? loyalty_points u then
    (u, Refused "Insufficient points")
  else
    let '(u', info) := get_loyalty_tier_info u in
    let redeemed_amount := points_to_redeem / conversion_rate info in
    (set_loyalty_points (loyalty_points u' - points_to_redeem) u',
     Redeemed redeemed_amount).

Definition set_is_active (v : bool) (u : t) : t :=
  mk (username u) (role u) (loyalty_points u) (loyalty_tier u) v.

End User.

(** *** class MenuItem *)
Module MenuItem.
Record t := mk {
  id : Z;
  name : string;
  price : Q;
  in_stock : bool
}.
Definition set_in_stock (v : bool) (m : t) : t :=
  mk (id m) (name m) (price m) v.
End MenuItem.

(** *** class CartItem *)
Module CartItem.
Record t := mk {
  user_id : Z;
  menu_item_id : Z;
  quantity : Z
}.
End CartItem.

(** *** class Order *)
Module Order.

(** The primary key [id] is the key of the [orders] table below. *)
Record t := mk {
  user_id : option Z;              (* nullable for guest orders *)
  guest_name : option string;
  guest_phone : option string;
  customer_name : string;
  customer_phone : string;
  customer_address : string;
  subtotal : Q;
  delivery_charges : Q;
  discount : Q;
  total_amount : Q;
  payment_method : string;         (* cash, upi *)
  payment_status : string;         (* pending, confirmed, failed *)
  coupon_code : option string;
  status : string;
  created_at : Z;
  confirmed_at : option Z;
  delivery_time : option Z;
  delivery_person_id : option Z;
  order_number : string
}.

Definition set_guest (n p : option string) (o : t) : t :=
  mk (user_id o) n p (customer_name o) (customer_phone o)
     (customer_address o) (subtotal o) (delivery_charges o) (discount o)
     (total_amount o) (payment_method o) (payment_status o) (coupon_code o)
     (status o) (created_at o) (confirmed_at o) (delivery_time o)
     (delivery_person_id o) (order_number o).

Definition set_payment_status (v : string) (o : t) : t :=
  mk (user_id o) (guest_name o) (guest_phone o) (customer_name o)
     (customer_phone o) (customer_address o) (subtotal o)
     (delivery_charges o) (discount o) (total_amount o) (payment_method o)
     v (coupon_code o) (status o) (created_at o) (confirmed_at o)
     (delivery_time o) (delivery_person_id o) (order_number o).

Definition set_status (v : string) (o : t) : t :=
  mk (user_id o) (guest_name o) (guest_phone o) (customer_name o)
     (customer_phone o) (customer_address o) (subtotal o)
     (delivery_charges o) (discount o) (total_amount o) (payment_method o)
     (payment_status o) (coupon_code o) v (created_at o) (confirmed_at o)
     (delivery_time o) (delivery_person_id o) (order_number o).

Definition set_confirmed_at (v : option Z) (o : t) : t :=
  mk (user_id o) (guest_name o) (guest_phone o) (customer_name o)
     (customer_phone o) (customer_address o) (subtotal o)
     (delivery_charges o) (discount o) (total_amount o) (payment_method o)
     (payment_status o) (coupon_code o) (status o) (created_at o) v
     (delivery_time o) (delivery_person_id o) (order_number o).

Definition set_delivery_time (v : option Z) (o : t) : t :=
  mk (user_id o) (guest_name o) (guest_phone o) (customer_name o)
     (customer_phone o) (customer_address o) (subtotal o)
     (delivery_charges o) (discount o) (total_amount o) (payment_method o)
     (payment_status o) (coupon_code o) (status o) (created_at o)
     (confirmed_at o) v (delivery_person_id o) (order_number o).

Definition set_delivery_person_id (v : option Z) (o : t) : t :=
  mk (user_id o) (guest_name o) (guest_phone o) (customer_name o)
     (customer_phone o) (customer_address o) (subtotal o)
     (delivery_charges o) (discount o) (total_amount o) (payment_method o)
     (payment_status o) (coupon_code o) (status o) (created_at o)
     (confirmed_at o) (delivery_time o) v (order_number o).

(** [generate_order_number]: the prefix and six random decimal digits,
    the digits being the caller's choice. *)
Definition generate_order_number (random_part : string) : string :=
  "BC" ++ random_part.

End Order.

(** *** class OrderItem *)
Module OrderItem.
Record t := mk {
  order_id : Z;
  menu_item_id : Z;
  quantity : Z;
  unit_price : Q;
  total_price : Q
}.
End OrderItem.

(* ===================================================================== *)
(** ** The database and the SQLAlchemy session                           *)
(* ===================================================================== *)

Module Db.

(** The tables.  [users] and [orders] are keyed by primary key;
    [order_seq] is the last primary key the [order] table handed out.
    A [StoreSettings] row has a nullable [value]. *)
Record t := mk {
  users : gmap Z User.t;
  menu_items : gmap Z MenuItem.t;
  cart_items : list CartItem.t;
  orders : gmap Z Order.t;
  order_seq : Z;
  order_items : list OrderItem.t;
  promotions : list Promotion.t;
  settings : gmap string (option string)
}.

Definition set_users (v : gmap Z User.t) (d : t) : t :=
  mk v (menu_items d) (cart_items d) (orders d) (order_seq d)
     (order_items d) (promotions d) (settings d).

Definition set_cart_items (v : list CartItem.t) (d : t) : t :=
  mk (users d) (menu_items d) v (orders d) (order_seq d)
     (order_items d) (promotions d) (settings d).

Definition set_orders (v : gmap Z Order.t) (d : t) : t :=
  mk (users d) (menu_items d) (cart_items d) v (order_seq d)
     (order_items d) (promotions d) (settings d).

Definition set_order_seq (v : Z) (d : t) : t :=
  mk (users d) (menu_items d) (cart_items d) (orders d) v
     (order_items d) (promotions d) (settings d).

Definition set_order_items (v : list OrderItem.t) (d : t) : t :=
  mk (users d) (menu_items d) (cart_items d) (orders d) (order_seq d)
     v (promotions d) (settings d).

Definition set_promotions (v : list Promotion.t) (d : t) : t :=
  mk (users d) (menu_items d) (cart_items d) (orders d) (order_seq d)
     (order_items d) v (settings d).

(** [Promotion.query.filter_by(code=c).first()]. *)
Definition find_promotion (c : string) (d : t) : option Promotion.t :=
  List.find (fun p => String.eqb (Promotion.code p) c) (promotions d).

(** Writing to the row [find_promotion] returned: the first row with
    that code. *)
Fixpoint update_first (c : string) (f : Promotion.t -> Promotion.t)
    (l : list Promotion.t) : list Promotion.t :=
  match l with
  | [] => []
  | p :: r =>
      if String.eqb (Promotion.code p) c then f p :: r
      else p :: update_first c f r
  end.

(** The unique constraint on [Order.order_number]. *)
Definition order_number_taken (n : string) (d : t) : bool :=
  existsb (fun kv => String.eqb (Order.order_number (snd kv)) n)
          (map_to_list (orders d)).

(** [CartItem.query.filter_by(user_id=uid).delete()]. *)
Definition delete_cart (uid : Z) (d : t) : t :=
  set_cart_items
    (List.filter (fun c => negb (CartItem.user_id c =? uid)) (cart_items d)) d.

Definition set_menu_items (v : gmap Z MenuItem.t) (d : t) : t :=
  mk (users d) v (cart_items d) (orders d) (order_seq d)
     (order_items d) (promotions d) (settings d).

Definition set_settings (v : gmap string (option string)) (d : t) : t :=
  mk (users d) (menu_items d) (cart_items d) (orders d) (order_seq d)
     (order_items d) (promotions d) v.

(** [CartItem.query.filter_by(user_id=uid, menu_item_id=item).first()]. *)
Definition find_cart_item (uid item : Z) (d : t) : option CartItem.t :=
  List.find (fun c => (CartItem.user_id c =? uid) && (CartItem.menu_item_id c =? item))
            (cart_items d).

(** Writing to, or deleting, the row [find_cart_item] returned: [f]
    answers the new row, or [None] for [db.session.delete]. *)
Fixpoint update_cart_row (uid item : Z) (f : CartItem.t -> option CartItem.t)
    (l : list CartItem.t) : list CartItem.t :=
  match l with
  | [] => []
  | c :: r =>
      if (CartItem.user_id c =? uid) && (CartItem.menu_item_id c =? item) then
        match f c with
        | Some c' => c' :: r
        | None => r
        end
      else c :: update_cart_row uid item f r
  end.

End Db.

Module Session.

(** What is persisted and what the running request sees. *)
Record t := mk {
  committed : Db.t;
  working : Db.t
}.

Definition start (d : Db.t) : t := mk d d.
Definition commit (s : t) : t := mk (working s) (working s).
Definition rollback (s : t) : t := mk (committed s) (committed s).
Definition modify (f : Db.t -> Db.t) (s : t) : t :=
  mk (committed s) (f (working s)).

(** [promotion.use_promotion()] on the row with code [c]: the counter
    update followed by [db.session.commit()]. *)
Definition use_promotion (c : string) (s : t) : t :=
  commit (modify (fun d =>
    Db.set_promotions
      (Db.update_first c Promotion.use_promotion (Db.promotions d)) d) s).

End Session.

(** *** class StoreSettings *)
Module StoreSettings.

(** [get_setting(key, default_value)]: the row's value, which may be
    null, or the default when there is no row. *)
Definition get_setting (key : string) (default_value : option string) (d : Db.t)
    : option string :=
  match Db.settings d !! key with
  | Some value => value
  | None => default_value
  end.

(** [set_setting(key, value)]: update the row or add it, and commit. *)
Definition set_setting (key value : string) (d : Db.t) : Db.t :=
  Db.set_settings (<[key := Some value]> (Db.settings d)) d.

End StoreSettings.

(** The two clocks the routes read. *)
Record clock := mk_clock {
  ist_now : Z;                       (* models.get_ist_now() *)
  utc_now : Z                        (* datetime.utcnow() *)
}.

(* ===================================================================== *)
(** ** utils.py                                                          *)
(* ===================================================================== *)

Module Utils.

(** [is_store_open]: the setting defaults to ['true'] when the row is
    missing; a row with a null or empty value closes the store. *)
Definition is_store_open (d : Db.t) : bool :=
  match Db.settings d !! "store_open" with
  | None => String.eqb (Py.lower "true") "true"
  | Some None => false
  | Some (Some v) => Py.truthy_str v && String.eqb (Py.lower v) "true"
  end.

(** One dictionary of the list [get_cart_items] returns. *)
Record cart_row := mk_row {
  id : Z;
  name : string;
  price : Q;
  quantity : Z;
  total : Q
}.

(** [get_cart_items(user_id)] for a true [user_id]: the user's cart rows
    joined with their menu items; [total] is [quantity * price]. *)
Definition get_cart_items (user_id : Z) (d : Db.t) : list cart_row :=
  flat_map (fun c : CartItem.t =>
    if CartItem.user_id c =? user_id then
      match Db.menu_items d !! CartItem.menu_item_id c with
      | Some m =>
          [mk_row (CartItem.menu_item_id c) (MenuItem.name m) (MenuItem.price m)
                  (CartItem.quantity c)
                  (inject_Z (CartItem.quantity c) * MenuItem.price m)%Q]
      | None => []
      end
    else []) (Db.cart_items d).

Definition clear_user_cart (user_id : Z) (s : Session.t) : Session.t :=
  Session.commit (Session.modify (Db.delete_cart user_id) s).

Definition validate_phone (phone : string) : bool :=
  if negb (Py.truthy_str phone) then false
  else
    let cleaned := Py.digits_only phone in
    let n := Z.of_nat (String.length cleaned) in
    (10 <=? n) && (n <=? 15).

Definition calculate_delivery_charges (subtotal : Q) : Q :=
  if Py.Qgeb subtotal 200 then 0%Q
  else if Py.Qgeb subtotal 150 then 15%Q
  else if Py.Qgeb subtotal 100 then 25%Q
  else 25%Q.

(** [get_cart_items(user_id)] as called: a false [user_id] is replaced
    by the session's, and a false result of that gives the empty list. *)
Definition get_cart_items_of (user_id sess_user : option Z) (d : Db.t)
    : list cart_row :=
  let user_id :=
    if negb (Py.truthy_int user_id) then
      match sess_user with
      | Some _ => sess_user
      | None => user_id
      end
    else user_id in
  match user_id with
  | Some uid => if Py.truthy_int user_id then get_cart_items uid d else []
  | None => []
  end.

Definition get_cart_total (user_id sess_user : option Z) (d : Db.t) : Q :=
  Py.sum (List.map total (get_cart_items_of user_id sess_user d)).

Definition get_cart_count (user_id sess_user : option Z) (d : Db.t) : Z :=
  Py.sum_int (List.map quantity (get_cart_items_of user_id sess_user d)).

Definition apply_coupon (clk : clock) (coupon_code : string) (subtotal : Q)
    (d : Db.t) : Q :=
  if negb (Py.truthy_str coupon_code) then 0%Q
  else
    match Db.find_promotion (Py.strip (Py.upper coupon_code)) d with
    | None => 0%Q
    | Some promotion =>
        if negb (Promotion.is_valid (ist_now clk) promotion) then 0%Q
        else if Py.Qltb subtotal (Promotion.min_order_amount promotion) then 0%Q
        else Promotion.calculate_discount (ist_now clk) promotion subtotal
    end.

Definition format_phone_display (phone : string) : string :=
  if negb (Py.truthy_str phone) then ""
  else
    let cleaned := Py.digits_only phone in
    if (String.length cleaned =? 10)%nat then
      "(" ++ Py.take 3 cleaned ++ ") " ++ Py.take 3 (Py.drop 3 cleaned)
          ++ "-" ++ Py.drop 6 cleaned
    else phone.

(** The dictionary of [get_order_progress_percentage]. *)
Definition status_progress : list (string * Z) :=
  [("pending", 10); ("confirmed", 25); ("preparing", 50);
   ("out_for_delivery", 75); ("delivered", 100); ("cancelled", 0)].

(** [dict.get(key, default)]. *)
Fixpoint dict_get (l : list (string * Z)) (key : string) (default : Z) : Z :=
  match l with
  | [] => default
  | (k, v) :: r => if String.eqb k key then v else dict_get r key default
  end.

Definition get_order_progress_percentage (status : string) : Z :=
  dict_get status_progress status 0.

End Utils.

(* ===================================================================== *)
(** ** routes.py                                                         *)
(* ===================================================================== *)

Module Routes.

(** [flash(message, category)]. *)
Definition flash := option (string * string).

(** What a route answers: a redirect to an endpoint (with the
    [order_id] argument of [url_for] when there is one) after an optional
    flash message, or the 404 of [get_or_404]. *)
Inductive response :=
| Redirect (endpoint : string) (order_id : option Z) (msg : flash)
| NotFound.

(** [get_current_user()]: ['user_id' in session] is [sess_user <> None]. *)
Definition get_current_user (sess_user : option Z) (d : Db.t) : option User.t :=
  match sess_user with
  | Some uid => Db.users d !! uid
  | None => None
  end.

(** *** process_checkout *)

(** The fields of [request.form], each with the default the route gives
    to [request.form.get]. *)
Record checkout_form := mk_form {
  f_customer_name : string;
  f_customer_phone : string;
  f_customer_address : string;
  f_payment_method : string;
  f_coupon_code : string
}.

(** Lines 250-262, "Validate and apply coupon".  [None] is the redirect
    for an invalid coupon; otherwise the discount and the session after
    [use_promotion], which commits. *)
Definition checkout_coupon (clk : clock) (coupon_code : string) (subtotal : Q)
    (s : Session.t) : option (Q * Session.t) :=
  if Py.truthy_str coupon_code then
    let c := Py.strip (Py.upper coupon_code) in
    match Db.find_promotion c (Session.working s) with
    | Some promotion =>
        if Promotion.is_valid (ist_now clk) promotion
           && Py.Qgeb subtotal (Promotion.min_order_amount promotion)
        then
          Some (Promotion.calculate_discount (ist_now clk) promotion subtotal,
                Session.use_promotion c s)
        else None
    | None => None
    end
  else Some (0%Q, s).

Definition order_item_of (order_id : Z) (r : Utils.cart_row) : OrderItem.t :=
  OrderItem.mk order_id (Utils.id r) (Utils.quantity r) (Utils.price r)
               (Utils.total r).

(** Lines 266-322, the [try] block.  The statement that can raise in
    this model is [db.session.flush()], on the unique constraint of
    [order_number]; the [except] branch rolls back. *)
Definition place_order (clk : clock) (random_part : string)
    (user_id : option Z) (customer_name customer_phone customer_address : string)
    (payment_method coupon_code : string) (cart_items : list Utils.cart_row)
    (subtotal delivery_charges discount total : Q)
    (s : Session.t) : Session.t * response :=
  let order :=
    Order.mk user_id None None customer_name customer_phone customer_address
             subtotal delivery_charges discount total payment_method
             "pending"
             (if Py.truthy_str coupon_code then Some coupon_code else None)
             "pending" (ist_now clk) None None None
             (Order.generate_order_number random_part) in
  let order :=
    if negb (Py.truthy_int user_id)
    then Order.set_guest (Some customer_name) (Some customer_phone) order
    else order in
  if Db.order_number_taken (Order.order_number order) (Session.working s) then
    (Session.rollback s,
     Redirect "checkout" None
       (Some ("An error occurred while processing your order. Please try again.",
              "error")))
  else
    let oid := Db.order_seq (Session.working s) + 1 in
    let s := Session.modify (fun d =>
               Db.set_order_seq oid (Db.set_orders (<[oid := order]> (Db.orders d)) d)) s in
    let s := Session.modify (fun d =>
               Db.set_order_items
                 (Db.order_items d ++ List.map (order_item_of oid) cart_items) d) s in
    let s := match user_id with
             | Some uid => if Py.truthy_int user_id
                           then Utils.clear_user_cart uid s else s
             | None => s
             end in
    let s := Session.commit s in
    if String.eqb payment_method "upi" then
      (s, Redirect "upi_payment" (Some oid) None)
    else
      let order := Order.set_confirmed_at (Some (utc_now clk))
                     (Order.set_payment_status "confirmed" order) in
      let s := Session.commit (Session.modify (fun d =>
                 Db.set_orders (<[oid := order]> (Db.orders d)) d) s) in
      (s, Redirect "order_confirmation" (Some oid)
            (Some ("Order placed successfully!", "success"))).

(** [process_checkout]: the database the request leaves behind and its
    answer.  [random_part] is the outcome of [random.choices]. *)
Definition process_checkout (clk : clock) (random_part : string)
    (sess_user : option Z) (form : checkout_form) (d : Db.t) : Db.t * response :=
  let s := Session.start d in
  if negb (Utils.is_store_open (Session.working s)) then
    (Session.committed s,
     Redirect "cart" None (Some ("Sorry, we are currently closed", "error")))
  else
    let customer_name := Py.strip (f_customer_name form) in
    let customer_phone := Py.strip (f_customer_phone form) in
    let customer_address := Py.strip (f_customer_address form) in
    let payment_method := f_payment_method form in
    let coupon_code := Py.strip (f_coupon_code form) in
    if negb (Py.truthy_str customer_name && Py.truthy_str customer_phone
             && Py.truthy_str customer_address) then
      (Session.committed s,
       Redirect "checkout" None (Some ("Please fill in all required fields", "error")))
    else if negb (Utils.validate_phone customer_phone) then
      (Session.committed s,
       Redirect "checkout" None (Some ("Please enter a valid phone number", "error")))
    else
      let user_id := sess_user in
      let cart_items :=
        match user_id with
        | Some uid => if Py.truthy_int user_id
                      then Utils.get_cart_items uid (Session.working s) else []
        | None => []
        end in
      match cart_items with
      | [] =>
          (Session.committed s,
           Redirect "menu" None (Some ("Your cart is empty", "warning")))
      | _ :: _ =>
          let subtotal := Py.sum (List.map Utils.total cart_items) in
          let delivery_charges := Utils.calculate_delivery_charges subtotal in
          match checkout_coupon clk coupon_code subtotal s with
          | None =>
              (Session.committed s,
               Redirect "checkout" None
                 (Some ("Invalid or expired coupon code", "error")))
          | Some (discount, s) =>
              let total := (subtotal + delivery_charges - discount)%Q in
              let '(s, r) :=
                place_order clk random_part user_id customer_name customer_phone
                  customer_address payment_method coupon_code cart_items
                  subtotal delivery_charges discount total s in
              (Session.committed s, r)
          end
      end.

(** *** update_order_status (admin) *)
Definition update_order_status (clk : clock) (sess_user : option Z)
    (order_id : Z) (new_status : string) (d : Db.t) : Db.t * response :=
  match sess_user with
  | None => (d, Redirect "login" None (Some ("Please log in as admin", "warning")))
  | Some _ =>
      match get_current_user sess_user d with
      | None => (d, Redirect "home" None (Some ("Access denied", "error")))
      | Some user =>
          if negb (User.is_admin user) then
            (d, Redirect "home" None (Some ("Access denied", "error")))
          else
            match Db.orders d !! order_id with
            | None => (d, NotFound)
            | Some order =>
                let order := Order.set_status new_status order in
                let order :=
                  if String.eqb new_status "delivered"
                  then Order.set_delivery_time (Some (utc_now clk)) order
                  else order in
                (Db.set_orders (<[order_id := order]> (Db.orders d)) d,
                 Redirect "admin_orders" None
                   (Some ("Order " ++ Order.order_number order
                          ++ " status updated to " ++ new_status, "success")))
            end
      end
  end.

(** *** The delivery routes *)

(** [order.delivery_person_id == user.id]; the routes test its negation. *)
Definition assigned_to (uid : Z) (o : Order.t) : bool :=
  match Order.delivery_person_id o with
  | Some k => k =? uid
  | None => false
  end.

Definition assign_order (sess_user : option Z) (order_id : Z) (d : Db.t)
    : Db.t * response :=
  match sess_user with
  | None => (d, Redirect "login" None None)
  | Some uid =>
      match get_current_user sess_user d with
      | None => (d, Redirect "home" None (Some ("Access denied", "error")))
      | Some user =>
          if negb (User.is_delivery_person user) then
            (d, Redirect "home" None (Some ("Access denied", "error")))
          else
            match Db.orders d !! order_id with
            | None => (d, NotFound)
            | Some order =>
                if Py.truthy_int (Order.delivery_person_id order) then
                  (d, Redirect "delivery_dashboard" None
                        (Some ("Order already assigned to another delivery person",
                               "warning")))
                else
                  let order := Order.set_delivery_person_id (Some uid) order in
                  let order :=
                    if String.eqb (Order.status order) "confirmed"
                    then Order.set_status "preparing" order else order in
                  (Db.set_orders (<[order_id := order]> (Db.orders d)) d,
                   Redirect "delivery_dashboard" None
                     (Some ("Order #" ++ Order.order_number order
                            ++ " assigned to you", "success")))
            end
      end
  end.

Definition pickup_order (sess_user : option Z) (order_id : Z) (d : Db.t)
    : Db.t * response :=
  match sess_user with
  | None => (d, Redirect "login" None None)
  | Some uid =>
      match get_current_user sess_user d with
      | None => (d, Redirect "home" None (Some ("Access denied", "error")))
      | Some user =>
          if negb (User.is_delivery_person user) then
            (d, Redirect "home" None (Some ("Access denied", "error")))
          else
            match Db.orders d !! order_id with
            | None => (d, NotFound)
            | Some order =>
                if negb (assigned_to uid order) then
                  (d, Redirect "delivery_dashboard" None
                        (Some ("You can only pick up orders assigned to you", "error")))
                else
                  let order := Order.set_status "out_for_delivery" order in
                  (Db.set_orders (<[order_id := order]> (Db.orders d)) d,
                   Redirect "delivery_dashboard" None
                     (Some ("Order #" ++ Order.order_number order
                            ++ " marked as out for delivery", "success")))
            end
      end
  end.

(** Lines 1032-1037: the loyalty credit of [complete_delivery]. *)
Definition credit_points (order : Order.t) (users : gmap Z User.t)
    : gmap Z User.t :=
  match Order.user_id order with
  | Some cid =>
      if Py.truthy_int (Order.user_id order) then
        match users !! cid with
        | Some customer =>
            let points_earned := Py.floordiv (Order.total_amount order) 10 in
            <[cid := User.set_loyalty_points
                       (User.loyalty_points customer + points_earned) customer]> users
        | None => users
        end
      else users
  | None => users
  end.

Definition complete_delivery (clk : clock) (sess_user : option Z)
    (order_id : Z) (d : Db.t) : Db.t * response :=
  match sess_user with
  | None => (d, Redirect "login" None None)
  | Some uid =>
      match get_current_user sess_user d with
      | None => (d, Redirect "home" None (Some ("Access denied", "error")))
      | Some user =>
          if negb (User.is_delivery_person user) then
            (d, Redirect "home" None (Some ("Access denied", "error")))
          else
            match Db.orders d !! order_id with
            | None => (d, NotFound)
            | Some order =>
                if negb (assigned_to uid order) then
                  (d, Redirect "delivery_dashboard" None
                        (Some ("You can only deliver orders assigned to you", "error")))
                else
                  let order :=
                    Order.set_payment_status "confirmed"
                      (Order.set_delivery_time (Some (ist_now clk))
                         (Order.set_status "delivered" order)) in
                  let users := credit_points order (Db.users d) in
                  (Db.set_users users
                     (Db.set_orders (<[order_id := order]> (Db.orders d)) d),
                   Redirect "delivery_dashboard" None
                     (Some ("Order #" ++ Order.order_number order
                            ++ " marked as delivered!", "success")))
            end
      end
  end.

(** *** api_validate_coupon *)

(** The [message] of the JSON answer; the constructors stand for the
    route's texts, with the number each text formats. *)
Inductive coupon_message :=
| EnterCode                        (* 'Please enter a coupon code' *)
| CodeNotFound                     (* 'Coupon code not found' *)
| NoLongerActive                   (* 'This coupon is no longer active' *)
| HasExpired                       (* 'This coupon has expired' *)
| UsageLimitReached                (* 'This coupon has reached its usage limit' *)
| MinimumOrder (amount : Q)        (* 'Minimum order amount is ...' *)
| PercentApplied (value : Q)       (* 'Success! ...% discount applied ...' *)
| AmountApplied (discount : Q).    (* 'Success! ... discount applied ...' *)

(** [{valid, message, discount?, new_total?, code?}]. *)
Record coupon_reply := mk_reply {
  valid : bool;
  message : coupon_message;
  discount : option Q;
  new_total : option Q;
  code : option string
}.

Definition reject (m : coupon_message) : coupon_reply :=
  mk_reply false m None None None.

Definition api_validate_coupon (clk : clock) (raw_code : string) (subtotal : Q)
    (d : Db.t) : coupon_reply :=
  let coupon_code := Py.strip (Py.upper raw_code) in
  if negb (Py.truthy_str coupon_code) then reject EnterCode
  else
    match Db.find_promotion coupon_code d with
    | None => reject CodeNotFound
    | Some promotion =>
        let early :=
          if negb (Promotion.is_valid (ist_now clk) promotion) then
            if negb (Promotion.is_active promotion) then Some NoLongerActive
            else if Promotion.is_expired (ist_now clk) promotion then Some HasExpired
            else if Promotion.is_usage_exceeded promotion then Some UsageLimitReached
            else None
          else None in
        match early with
        | Some m => reject m
        | None =>
            if Py.Qltb subtotal (Promotion.min_order_amount promotion) then
              reject (MinimumOrder (Promotion.min_order_amount promotion))
            else
              let discount :=
                Promotion.calculate_discount (ist_now clk) promotion subtotal in
              mk_reply true
                (if String.eqb (Promotion.discount_type promotion) "percentage"
                 then PercentApplied (Promotion.discount_value promotion)
                 else AmountApplied discount)
                (Some discount) (Some (subtotal - discount)%Q) (Some coupon_code)
        end
    end.

(** *** Sequences of delivery and admin requests *)

(** One request against an order's lifecycle, with the session user
    that makes it. *)
Inductive request :=
| Assign (actor : Z) (order_id : Z)
| Pickup (actor : Z) (order_id : Z)
| Complete (actor : Z) (order_id : Z)
| AdminUpdate (actor : Z) (order_id : Z) (new_status : string).

Definition handle (clk : clock) (r : request) (d : Db.t) : Db.t :=
  match r with
  | Assign a o => fst (assign_order (Some a) o d)
  | Pickup a o => fst (pickup_order (Some a) o d)
  | Complete a o => fst (complete_delivery clk (Some a) o d)
  | AdminUpdate a o st => fst (update_order_status clk (Some a) o st d)
  end.

(** Requests are served one after the other. *)
Definition serve (clk : clock) (rs : list request) (d : Db.t) : Db.t :=
  fold_left (fun d r => handle clk r d) rs d.

(** *** Pages *)

(** What a view function answers when it may render a template: the
    template with the flash message shown on it and the values handed to
    it, or a plain [response]. *)
Inductive page (V : Type) :=
| Rendered (template : string) (msg : flash) (v : V)
| Answered (r : response).
Arguments Rendered {V} template msg v.
Arguments Answered {V} r.

(** *** checkout (GET) *)

Record checkout_view := mk_checkout_view {
  v_cart_items : list Utils.cart_row;
  v_subtotal : Q;
  v_delivery_charges : Q;
  v_discount : Q;
  v_total : Q;
  v_coupon_code : option string;
  v_available_promotions : list Promotion.t
}.

(** [coupon] is [request.args.get('coupon')]. *)
Definition checkout (clk : clock) (sess_user : option Z) (coupon : option string)
    (d : Db.t) : page checkout_view :=
  let cart_items :=
    match sess_user with
    | Some _ => Utils.get_cart_items_of None sess_user d
    | None => []
    end in
  let subtotal :=
    match sess_user with
    | Some _ => Py.sum (List.map Utils.total cart_items)
    | None => 0%Q
    end in
  match cart_items with
  | [] => Answered (Redirect "menu" None (Some ("Your cart is empty", "warning")))
  | _ :: _ =>
      if negb (Utils.is_store_open d) then
        Answered (Redirect "cart" None (Some ("Sorry, we are currently closed", "error")))
      else
        let delivery_charges := Utils.calculate_delivery_charges subtotal in
        let discount :=
          match coupon with
          | Some c => if Py.truthy_str c then Utils.apply_coupon clk c subtotal d else 0%Q
          | None => 0%Q
          end in
        let total := (subtotal + delivery_charges - discount)%Q in
        let available_promotions :=
          firstn 8 (List.filter (fun p =>
            Promotion.is_active p &&
            match Promotion.expires_at p with
            | None => true
            | Some e => e >? utc_now clk
            end) (Db.promotions d)) in
        Rendered "checkout.html" None
          (mk_checkout_view cart_items subtotal delivery_charges discount total
                            coupon available_promotions)
  end.

(** *** The cart routes *)

(** [item_id] and [quantity] are the form fields as numbers. *)
Definition add_to_cart (sess_user : option Z) (item_id quantity : Z) (d : Db.t)
    : Db.t * response :=
  match sess_user with
  | None => (d, Redirect "login" None
                  (Some ("Please log in to add items to cart", "warning")))
  | Some uid =>
      if negb (Utils.is_store_open d) then
        (d, Redirect "menu" None (Some ("Sorry, we are currently closed", "error")))
      else if (quantity <? 1) || (quantity >? 10) then
        (d, Redirect "menu" None (Some ("Invalid quantity", "error")))
      else
        match Db.menu_items d !! item_id with
        | None => (d, Redirect "menu" None (Some ("Item not available", "error")))
        | Some menu_item =>
            if negb (MenuItem.in_stock menu_item) then
              (d, Redirect "menu" None (Some ("Item not available", "error")))
            else
              let cart :=
                match Db.find_cart_item uid item_id d with
                | Some _ =>
                    Db.update_cart_row uid item_id (fun existing_item =>
                      let q := CartItem.quantity existing_item + quantity in
                      Some (CartItem.mk (CartItem.user_id existing_item)
                                        (CartItem.menu_item_id existing_item)
                                        (if q >? 10 then 10 else q)))
                      (Db.cart_items d)
                | None => (Db.cart_items d ++ [CartItem.mk uid item_id quantity])%list
                end in
              (Db.set_cart_items cart d,
               Redirect "menu" None
                 (Some (MenuItem.name menu_item ++ " added to cart!", "success")))
        end
  end.

Definition update_cart (sess_user : option Z) (item_id quantity : Z) (d : Db.t)
    : Db.t * response :=
  match sess_user with
  | None => (d, Redirect "login" None (Some ("Please log in first", "warning")))
  | Some uid =>
      match Db.find_cart_item uid item_id d with
      | Some _ =>
          if quantity <=? 0 then
            (Db.set_cart_items
               (Db.update_cart_row uid item_id (fun _ => None) (Db.cart_items d)) d,
             Redirect "cart" None (Some ("Item removed from cart", "info")))
          else
            (Db.set_cart_items
               (Db.update_cart_row uid item_id (fun cart_item =>
                  Some (CartItem.mk (CartItem.user_id cart_item)
                                    (CartItem.menu_item_id cart_item)
                                    (Z.min quantity 10)))
                  (Db.cart_items d)) d,
             Redirect "cart" None (Some ("Cart updated", "success")))
      | None => (d, Redirect "cart" None None)
      end
  end.

Definition clear_cart (sess_user : option Z) (d : Db.t) : Db.t * response :=
  match sess_user with
  | Some uid =>
      (Session.committed (Utils.clear_user_cart uid (Session.start d)),
       Redirect "cart" None (Some ("Cart cleared", "info")))
  | None => (d, Redirect "cart" None None)
  end.

(** One cart request of a session user. *)
Inductive cart_request :=
| AddToCart (uid item_id quantity : Z)
| UpdateCart (uid item_id quantity : Z)
| ClearCart (uid : Z).

Definition handle_cart (r : cart_request) (d : Db.t) : Db.t :=
  match r with
  | AddToCart u i q => fst (add_to_cart (Some u) i q d)
  | UpdateCart u i q => fst (update_cart (Some u) i q d)
  | ClearCart u => fst (clear_cart (Some u) d)
  end.

Definition serve_cart (rs : list cart_request) (d : Db.t) : Db.t :=
  fold_left (fun d r => handle_cart r d) rs d.

(** *** confirm_payment *)
Definition confirm_payment (clk : clock) (order_id : Z) (d : Db.t)
    : Db.t * response :=
  match Db.orders d !! order_id with
  | None => (d, NotFound)
  | Some order =>
      let order := Order.set_confirmed_at (Some (utc_now clk))
                     (Order.set_payment_status "confirmed" order) in
      (Db.set_orders (<[order_id := order]> (Db.orders d)) d,
       Redirect "order_confirmation" (Some order_id)
         (Some ("Payment confirmed! Your order is being prepared.", "success")))
  end.

(** *** Admin switches *)

Definition toggle_store (sess_user : option Z) (d : Db.t) : Db.t * response :=
  match sess_user with
  | None => (d, Redirect "login" None (Some ("Please log in as admin", "warning")))
  | Some _ =>
      match get_current_user sess_user d with
      | None => (d, Redirect "home" None (Some ("Access denied", "error")))
      | Some user =>
          if negb (User.is_admin user) then
            (d, Redirect "home" None (Some ("Access denied", "error")))
          else
            let current_status := Utils.is_store_open d in
            let new_status := if current_status then "false" else "true" in
            let status_text :=
              if String.eqb new_status "true" then "opened" else "closed" in
            (StoreSettings.set_setting "store_open" new_status d,
             Redirect "admin" None
               (Some ("Store has been " ++ status_text, "success")))
      end
  end.

Definition toggle_user_status (sess_user : option Z) (user_id : Z) (d : Db.t)
    : Db.t * response :=
  match sess_user with
  | None => (d, Redirect "login" None (Some ("Please log in as admin", "warning")))
  | Some uid =>
      match get_current_user sess_user d with
      | None => (d, Redirect "home" None (Some ("Access denied", "error")))
      | Some current_user =>
          if negb (User.is_admin current_user) then
            (d, Redirect "home" None (Some ("Access denied", "error")))
          else
            match Db.users d !! user_id with
            | None => (d, NotFound)
            | Some user_to_toggle =>
                if user_id =? uid then
                  (d, Redirect "admin_users" None
                        (Some ("You cannot deactivate your own account", "error")))
                else
                  let user_to_toggle :=
                    User.set_is_active (negb (User.is_active user_to_toggle))
                                       user_to_toggle in
                  let status_text :=
                    if User.is_active user_to_toggle
                    then "activated" else "deactivated" in
                  (Db.set_users (<[user_id := user_to_toggle]> (Db.users d)) d,
                   Redirect "admin_users" None
                     (Some ("User " ++ User.username user_to_toggle
                            ++ " has been " ++ status_text, "success")))
            end
      end
  end.

Definition toggle_menu_item_stock (sess_user : option Z) (item_id : Z) (d : Db.t)
    : Db.t * response :=
  match sess_user with
  | None => (d, Redirect "login" None (Some ("Please log in as admin", "warning")))
  | Some _ =>
      match get_current_user sess_user d with
      | None => (d, Redirect "home" None (Some ("Access denied", "error")))
      | Some user =>
          if negb (User.is_admin user) then
            (d, Redirect "home" None (Some ("Access denied", "error")))
          else
            match Db.menu_items d !! item_id with
            | None => (d, NotFound)
            | Some menu_item =>
                let menu_item :=
                  MenuItem.set_in_stock (negb (MenuItem.in_stock menu_item)) menu_item in
                let status_text :=
                  if MenuItem.in_stock menu_item then "listed" else "delisted" in
                (Db.set_menu_items (<[item_id := menu_item]> (Db.menu_items d)) d,
                 Redirect "admin_menu" None
                   (Some (MenuItem.name menu_item ++ " has been " ++ status_text,
                          "success")))
            end
      end
  end.

(** *** add_promotion *)

(** The outcome of [float(...)], [int(...)] or [strptime(...)] on a form
    field: the value, or the exception a malformed field raises. *)
Inductive parsed (A : Type) :=
| Parsed (a : A)
| Malformed.
Arguments Parsed {A} a.
Arguments Malformed {A}.

(** The form of [add_promotion].  An optional field that is empty parses
    to [None]; [pf_discount_type] is [None] when the field is absent. *)
Record promotion_form := mk_promotion_form {
  pf_code : string;
  pf_discount_type : option string;
  pf_discount_value : parsed Q;
  pf_min_order_amount : parsed Q;
  pf_max_discount : parsed (option Q);
  pf_usage_limit : parsed (option Z);
  pf_expires_at : parsed (option Z)
}.

(** The [Promotion(...)] the route builds, or [None] when a field raises
    or the non-null column [discount_type] is missing. *)
Definition build_promotion (code : string) (f : promotion_form) : option Promotion.t :=
  match pf_expires_at f, pf_discount_type f, pf_discount_value f,
        pf_min_order_amount f, pf_max_discount f, pf_usage_limit f with
  | Parsed expires_at, Some discount_type, Parsed discount_value,
    Parsed min_order_amount, Parsed max_discount, Parsed usage_limit =>
      Some (Promotion.mk code discount_type discount_value min_order_amount
                         max_discount usage_limit 0 true expires_at)
  | _, _, _, _, _, _ => None
  end.

(** [form] is [None] for a GET request. *)
Definition add_promotion (sess_user : option Z) (form : option promotion_form)
    (d : Db.t) : Db.t * page unit :=
  match sess_user with
  | None => (d, Answered (Redirect "login" None
                            (Some ("Please log in as admin", "warning"))))
  | Some _ =>
      match get_current_user sess_user d with
      | None => (d, Answered (Redirect "home" None (Some ("Access denied", "error"))))
      | Some user =>
          if negb (User.is_admin user) then
            (d, Answered (Redirect "home" None (Some ("Access denied", "error"))))
          else
            match form with
            | None => (d, Rendered "admin_add_promotion.html" None tt)
            | Some f =>
                let code := Py.strip (Py.upper (pf_code f)) in
                match Db.find_promotion code d with
                | Some _ =>
                    (d, Rendered "admin_add_promotion.html"
                          (Some ("Promotion code already exists", "error")) tt)
                | None =>
                    match build_promotion code f with
                    | Some new_promotion =>
                        (Db.set_promotions (Db.promotions d ++ [new_promotion])%list d,
                         Answered (Redirect "admin_promotions" None
                           (Some ("Promotion " ++ Promotion.code new_promotion
                                  ++ " created successfully", "success"))))
                    | None =>
                        (d, Rendered "admin_add_promotion.html"
                              (Some ("Error creating promotion. Please try again.",
                                     "error")) tt)
                    end
                end
            end
      end
  end.

(** *** The loyalty routes *)

Record loyalty_view := mk_loyalty_view {
  v_user : User.t;
  v_tier_info : User.tier_info;
  v_redeemable_amount : Z;
  v_next_tier_points : Z
}.

Definition loyalty_dashboard (sess_user : option Z) (d : Db.t) : page loyalty_view :=
  match sess_user with
  | None => Answered (Redirect "login" None
                        (Some ("Please log in to view your loyalty points", "warning")))
  | Some _ =>
      match get_current_user sess_user d with
      | None => Answered (Redirect "home" None (Some ("User not found", "error")))
      | Some user =>
          let '(user, tier_info) := User.get_loyalty_tier_info user in
          let '(user, redeemable_amount) := User.get_redeemable_amount user in
          let next_tier_points :=
            if String.eqb (User.loyalty_tier user) "bronze"
            then 1000 - User.loyalty_points user
            else if String.eqb (User.loyalty_tier user) "silver"
            then 2500 - User.loyalty_points user
            else if String.eqb (User.loyalty_tier user) "gold"
            then 5000 - User.loyalty_points user
            else 0 in
          Rendered "loyalty_dashboard.html" None
            (mk_loyalty_view user tier_info redeemable_amount
                             (Z.max 0 next_tier_points))
      end
  end.

(** What [redeem_loyalty_points] answers: the redirect to the login
    page, or the flash it shows before redirecting (to the home page for
    a missing user, to the loyalty dashboard otherwise). *)
Inductive redeem_answer :=
| RedeemLogin
| RedeemNoUser                       (* 'User not found' *)
| RedeemDone (points amount : Z)     (* 'Successfully redeemed ... points for ...!' *)
| RedeemRefused (message : string)
| RedeemInvalid.                     (* 'Invalid points amount' *)

(** [points_to_redeem] is [int(request.form.get('points_to_redeem', 0))]. *)
Definition redeem_loyalty_points (sess_user : option Z) (points_to_redeem : parsed Z)
    (d : Db.t) : Db.t * redeem_answer :=
  match sess_user with
  | None => (d, RedeemLogin)
  | Some uid =>
      match get_current_user sess_user d with
      | None => (d, RedeemNoUser)
      | Some user =>
          match points_to_redeem with
          | Malformed => (d, RedeemInvalid)
          | Parsed n =>
              match User.redeem_points user n with
              | (user, User.Redeemed result) =>
                  (Db.set_users (<[uid := user]> (Db.users d)) d, RedeemDone n result)
              | (_, User.Refused result) => (d, RedeemRefused result)
              end
          end
      end
  end.

(** *** The queries of delivery_dashboard *)

(** [order_by(Order.created_at ...)], by insertion; [before a b] says
    that [a] may come before [b]. *)
Fixpoint insert_by (before : Order.t -> Order.t -> bool) (x : Z * Order.t)
    (l : list (Z * Order.t)) : list (Z * Order.t) :=
  match l with
  | [] => [x]
  | y :: r => if before (snd x) (snd y) then x :: l else y :: insert_by before x r
  end.

Definition order_by (before : Order.t -> Order.t -> bool)
    (l : list (Z * Order.t)) : list (Z * Order.t) :=
  fold_right (insert_by before) [] l.

(** Lines 942: the orders assigned to the delivery person, newest first. *)
Definition assigned_orders (uid : Z) (d : Db.t) : list (Z * Order.t) :=
  order_by (fun a b => Order.created_at b <=? Order.created_at a)
    (List.filter (fun kv =>
       match Order.delivery_person_id (snd kv) with
       | Some k => k =? uid
       | None => false
       end) (map_to_list (Db.orders d))).

(** Lines 945-948: the unassigned orders that are confirmed or being
    prepared, oldest first. *)
Definition available_orders (d : Db.t) : list (Z * Order.t) :=
  order_by (fun a b => Order.created_at a <=? Order.created_at b)
    (List.filter (fun kv =>
       (String.eqb (Order.status (snd kv)) "confirmed"
        || String.eqb (Order.status (snd kv)) "preparing")
       && match Order.delivery_person_id (snd kv) with
          | Some _ => false
          | None => true
          end) (map_to_list (Db.orders d))).

(** Every order in the database is a guest order. *)
Definition guests_only (d : Db.t) : Prop :=
  forall oid o, Db.orders d !! oid = Some o -> Order.user_id o = None.

(** *** Invariants of the tables *)

(** The cart is well formed: every quantity lies in 1..10 and a user has
    at most one row per menu item. *)
Definition cart_key (c : CartItem.t) : Z * Z :=
  (CartItem.user_id c, CartItem.menu_item_id c).

Definition cart_ok (d : Db.t) : Prop :=
  Forall (fun c => 1 <= CartItem.quantity c <= 10) (Db.cart_items d) /\
  List.NoDup (List.map cart_key (Db.cart_items d)).

(** The quantity of a menu item in a user's cart, 0 when it has no row. *)
Definition cart_quantity (uid item : Z) (d : Db.t) : Z :=
  match Db.find_cart_item uid item d with
  | Some c => CartItem.quantity c
  | None => 0
  end.

(** No promotion with a (non-zero) usage limit has been used more often
    than the limit. *)
Definition limits_respected (d : Db.t) : Prop :=
  Forall (fun p => forall l, Promotion.usage_limit p = Some l -> l <> 0 ->
                             Promotion.used_count p <= l) (Db.promotions d).

(** No two promotions share a code. *)
Definition codes_unique (d : Db.t) : Prop :=
  List.NoDup (List.map Promotion.code (Db.promotions d)).

(** Two states of an order with the same customer, the same amounts and
    the same order number. *)
Definition same_snapshot (o o' : Order.t) : Prop :=
  Order.user_id o' = Order.user_id o /\
  Order.customer_name o' = Order.customer_name o /\
  Order.customer_phone o' = Order.customer_phone o /\
  Order.customer_address o' = Order.customer_address o /\
  Order.subtotal o' = Order.subtotal o /\
  Order.delivery_charges o' = Order.delivery_charges o /\
  Order.discount o' = Order.discount o /\
  Order.total_amount o' = Order.total_amount o /\
  Order.payment_method o' = Order.payment_method o /\
  Order.coupon_code o' = Order.coupon_code o /\
  Order.created_at o' = Order.created_at o /\
  Order.order_number o' = Order.order_number o.

End Routes.

(* ===================================================================== *)
(** ** The design document's wording, and sample data                    *)
(* ===================================================================== *)

(** Where the document words a rule differently from the code, the rule
    as worded is written down here, to be compared with the code. *)
Module Stated.

(** Section 4.2: "true iff active flag set AND (no expiry OR now <=
    expiry) AND (no usage limit OR used_count < usage_limit)". *)
Definition is_valid (now : Z) (p : Promotion.t) : bool :=
  Promotion.is_active p
  && match Promotion.expires_at p with
     | None => true
     | Some e => now <=? e
     end
  && match Promotion.usage_limit p with
     | None => true
     | Some l => Promotion.used_count p <? l
     end.

(** Section 4.2, percentage kind: "subtotal x value/100, clamped to
    max_discount if set". *)
Definition percentage_discount (p : Promotion.t) (subtotal : Q) : Q :=
  match Promotion.max_discount p with
  | Some c => Qmin (subtotal * Promotion.discount_value p / 100) c
  | None => (subtotal * Promotion.discount_value p / 100)%Q
  end.

(** Section 4.3, the failure cases of [redeem] as worded: "fails with
    InsufficientPoints if points_requested > balance; fails with
    BelowMinimum if points_requested < 100".  The two failures are the
    two messages of [redeem_points]. *)
Definition insufficient_points : User.redeem_result :=
  User.Refused "Insufficient points".
Definition below_minimum : User.redeem_result :=
  User.Refused "Minimum redemption is 100 points".

(** Section 4.4, assignment: "a delivery actor may claim an unassigned
    order whose status is confirmed or preparing". *)
Definition claimable (o : Order.t) : bool :=
  negb (Py.truthy_int (Order.delivery_person_id o))
  && (String.eqb (Order.status o) "confirmed"
      || String.eqb (Order.status o) "preparing").

Definition redeem_failures (u : User.t) (n : Z) : Prop :=
  (n > User.loyalty_points u -> snd (User.redeem_points u n) = insufficient_points) /\
  (n < 100 -> snd (User.redeem_points u n) = below_minimum).

End Stated.

Module Sample.

(** A percentage coupon whose cap was entered as 0. *)
Definition zero_cap : Promotion.t :=
  Promotion.mk "TEN" "percentage" 10 0 (Some 0%Q) None 0 true None.

(** A coupon whose usage limit was entered as 0. *)
Definition zero_limit : Promotion.t :=
  Promotion.mk "NONE" "fixed" 50 0 None (Some 0) 0 true None.

(** The seeded coupons of [app.py]. *)
Definition welcome10 : Promotion.t :=
  Promotion.mk "WELCOME10" "percentage" 10 100 (Some 100%Q) None 0 true None.
Definition save50 : Promotion.t :=
  Promotion.mk "SAVE50" "fixed" 50 300 None None 0 true None.
Definition biryani20 : Promotion.t :=
  Promotion.mk "BIRYANI20" "percentage" 20 200 (Some 150%Q) (Some 100) 0 true None.

(** A bronze customer with 50 points, one with 250 points, and one
    whose cached label is stale. *)
Definition poor : User.t := User.mk "asha" "customer" 50 "bronze" true.
Definition saver : User.t := User.mk "ravi" "customer" 250 "bronze" true.
Definition stale : User.t := User.mk "meera" "customer" 2600 "silver" true.

(** A percentage coupon entered with a value above 100. *)
Definition mega150 : Promotion.t :=
  Promotion.mk "MEGA150" "percentage" 150 0 None None 0 true None.

(** An order on its way: placed by customer 1, carried by rider 2. *)
Definition on_the_way : Order.t :=
  Order.mk (Some 1) None None "Asha" "9876543210" "12 Park Street"
           250 0 0 250 "cash" "confirmed" None "out_for_delivery"
           1000 (Some 1000) None (Some 2) "BC000001".

(** A guest order nobody has confirmed or claimed yet. *)
Definition unconfirmed : Order.t :=
  Order.mk None (Some "Kiran") (Some "9123456780") "Kiran" "9123456780"
           "4 Lake Road" 180 15 0 195 "upi" "pending" None "pending"
           1100 None None None "BC000002".

(** A small shop: customer 1 with two plates of biryani (125 each) in
    the cart, customer 5 with one dal makhni (139), riders 2 and 4,
    admin 3, the two orders above and four coupons.  No settings row:
    the store is open. *)
Definition shop : Db.t :=
  Db.mk
    {[ 1 := User.mk "asha" "customer" 0 "bronze" true;
       2 := User.mk "vikram" "delivery" 0 "bronze" true;
       3 := User.mk "owner" "admin" 0 "bronze" true;
       4 := User.mk "imran" "delivery" 0 "bronze" true;
       5 := User.mk "kiran" "customer" 0 "bronze" true ]}
    {[ 1 := MenuItem.mk 1 "Chicken Biryani" 125 true;
       2 := MenuItem.mk 2 "Dal Makhni" 139 true ]}
    [CartItem.mk 1 1 2; CartItem.mk 5 2 1]
    {[ 1 := on_the_way; 2 := unconfirmed ]}
    2
    [OrderItem.mk 1 1 2 125 250]
    [welcome10; save50; biryani20; mega150]
    ∅.

Definition at_noon : clock := mk_clock 2000 1700.

Definition form_with (coupon : string) : Routes.checkout_form :=
  Routes.mk_form "Asha" "98765 43210" "12 Park Street" "cash" coupon.

(** Customer 5 pays by UPI and uses no coupon. *)
Definition upi_form : Routes.checkout_form :=
  Routes.mk_form "Kiran" "91234 56780" "4 Lake Road" "upi" "".

(** A percentage coupon whose value was entered as 1e17. *)
Definition astronomic : Promotion.t :=
  Promotion.mk "ASTRO" "percentage" 100000000000000000 0 None None 0 true None.

End Sample.

(* ===================================================================== *)
(** ** The two totals in binary floating point                           *)
(* ===================================================================== *)

(** The amounts of the source are IEEE 754 binary64 numbers, which Python
    rounds to nearest, ties to even.  The discount and the two totals
    that the coupon preview and the checkout compute are written here
    once more over binary64, operation for operation, to evaluate them
    where rounding shows.  The columns of a promotion that are not
    amounts are read from its [Promotion.t] row. *)
Module Float64.

Import PrimFloat.
Local Open Scope float_scope.

(** The [Float] columns of a promotion. *)
Record amounts := mk {
  discount_value : float;
  min_order_amount : float;
  max_discount : option float
}.

(** [bool(x)] for a [Float] column value that may be [None]: zero of
    either sign is false, everything else true. *)
Definition truthy_float (x : option float) : bool :=
  match x with
  | Some f => negb (f =? 0)
  | None => false
  end.

(** [min(a, b)]: the first argument unless the second is strictly
    smaller. *)
Definition min (a b : float) : float := if b <? a then b else a.

(** [Promotion.calculate_discount], models.py lines 291-302. *)
Definition calculate_discount (now : Z) (p : Promotion.t) (a : amounts)
    (subtotal : float) : float :=
  if negb (Promotion.is_valid now p) || (subtotal <? min_order_amount a) then 0
  else if String.eqb (Promotion.discount_type p) "percentage" then
    let discount := subtotal * (discount_value a / 100) in
    if truthy_float (max_discount a) then
      match max_discount a with
      | Some c => min discount c
      | None => discount
      end
    else discount
  else min (discount_value a) subtotal.

(** [calculate_delivery_charges], utils.py lines 139-148. *)
Definition calculate_delivery_charges (subtotal : float) : float :=
  if 200 <=? subtotal then 0
  else if 150 <=? subtotal then 15
  else if 100 <=? subtotal then 25
  else 25.


(** ['new_total': subtotal - discount], routes.py line 1233. *)
Definition new_total (now : Z) (p : Promotion.t) (a : amounts)
    (subtotal : float) : float :=
  subtotal - calculate_discount now p a subtotal.

(** [total = subtotal + delivery_charges - discount], routes.py line
    264. *)
Definition total_amount (now : Z) (p : Promotion.t) (a : amounts)
    (subtotal : float) : float :=
  subtotal + calculate_delivery_charges subtotal
  - calculate_discount now p a subtotal.

(** The amounts of [Sample.astronomic] and of [Sample.welcome10], and
    two subtotals. *)
Definition astronomic : amounts := mk 1e17 0 None.
Definition welcome10 : amounts := mk 10 100 (Some 100).

End Float64.

(* ===================================================================== *)
(** ** Properties                                                        *)
(* ===================================================================== *)

Local Open Scope Q_scope.

(** *** Comparisons on amounts *)

Lemma Qltb_true (a b : Q) : Py.Qltb a b = true <-> a < b.
Proof.
  unfold Py.Qltb. rewrite negb_true_iff, <- not_true_iff_false, Qle_bool_iff.
  split; [apply Qnot_le_lt | apply Qlt_not_le].
Qed.

Lemma Qltb_false (a b : Q) : Py.Qltb a b = false <-> b <= a.
Proof.
  unfold Py.Qltb. rewrite negb_false_iff. apply Qle_bool_iff.
Qed.

Lemma Qgeb_true (a b : Q) : Py.Qgeb a b = true <-> b <= a.
Proof. apply Qle_bool_iff. Qed.

Lemma Qgeb_false (a b : Q) : Py.Qgeb a b = false <-> a < b.
Proof.
  unfold Py.Qgeb. rewrite <- not_true_iff_false, Qle_bool_iff.
  split; [apply Qnot_le_lt | apply Qlt_not_le].
Qed.

Lemma py_min_le_r (a b : Q) : Py.min a b <= b.
Proof. apply Q.le_min_r. Qed.


(** *** Delivery charges *)

(** C2.  The delivery charge is 0 from 200 upwards, 15 on [150, 200) and
    25 below 150; in particular the charge below 100 is the charge of the
    band [100, 150), and the lower bounds 100, 150 and 200 are inclusive. *)
Theorem delivery_charge_tiers (s : Q) :
  (200 <= s -> Utils.calculate_delivery_charges s = 0) /\
  (150 <= s -> s < 200 -> Utils.calculate_delivery_charges s = 15) /\
  (s < 150 -> Utils.calculate_delivery_charges s = 25) /\
  (s < 100 -> Utils.calculate_delivery_charges s
              = Utils.calculate_delivery_charges 100).
Proof.
  unfold Utils.calculate_delivery_charges.
  destruct (Py.Qgeb s 200) eqn:H200;
    [apply Qgeb_true in H200 | apply Qgeb_false in H200];
  (destruct (Py.Qgeb s 150) eqn:H150;
    [apply Qgeb_true in H150 | apply Qgeb_false in H150]);
  (destruct (Py.Qgeb s 100) eqn:H100;
    [apply Qgeb_true in H100 | apply Qgeb_false in H100]);
  repeat split; intros; try reflexivity; exfalso; lra.
Qed.

(** The boundary values 99.99, 100, 149.99, 150, 199.99 and 200. *)
Lemma delivery_charge_tiers_witness :
  Utils.calculate_delivery_charges (9999 # 100) = 25 /\
  Utils.calculate_delivery_charges 100 = 25 /\
  Utils.calculate_delivery_charges (14999 # 100) = 25 /\
  Utils.calculate_delivery_charges 150 = 15 /\
  Utils.calculate_delivery_charges (19999 # 100) = 15 /\
  Utils.calculate_delivery_charges 200 = 0.
Proof.
  refine (conj _ (conj _ (conj _ (conj _ (conj _ _))))).
  - destruct (delivery_charge_tiers (9999 # 100)) as (_ & _ & H & _).
    apply H. reflexivity.
  - destruct (delivery_charge_tiers 100) as (_ & _ & H & _).
    apply H. reflexivity.
  - destruct (delivery_charge_tiers (14999 # 100)) as (_ & _ & H & _).
    apply H. reflexivity.
  - destruct (delivery_charge_tiers 150) as (_ & H & _).
    apply H; [discriminate | reflexivity].
  - destruct (delivery_charge_tiers (19999 # 100)) as (_ & H & _).
    apply H; [discriminate | reflexivity].
  - destruct (delivery_charge_tiers 200) as (H & _).
    apply H. discriminate.
Defined.

(** *** Promotions *)

Lemma is_usage_exceeded_true (p : Promotion.t) :
  Promotion.is_usage_exceeded p = true <->
  exists l, Promotion.usage_limit p = Some l /\ l <> 0%Z /\ (l <= Promotion.used_count p)%Z.
Proof.
  unfold Promotion.is_usage_exceeded, Py.truthy_int.
  destruct (Promotion.usage_limit p) as [l|].
  - destruct (Z.eqb_spec l 0%Z) as [->|Hl]; simpl.
    + split; [discriminate | intros (l & [= <-] & Hl & _); now destruct Hl].
    + rewrite Z.geb_le. split.
      * intros H. exists l. auto.
      * intros (l' & [= <-] & _ & H). exact H.
  - split; [discriminate | intros (l & [=] & _)].
Qed.

Lemma is_expired_true (now : Z) (p : Promotion.t) :
  Promotion.is_expired now p = true <->
  exists e, Promotion.expires_at p = Some e /\ (e < now)%Z.
Proof.
  unfold Promotion.is_expired. destruct (Promotion.expires_at p) as [e|].
  - rewrite Z.gtb_lt. split.
    + intros H. exists e. auto.
    + intros (e' & [= <-] & H). exact H.
  - split; [discriminate | intros (e & [=] & _)].
Qed.

(** C4, as the code has it.  A promotion is valid exactly when it is
    active, it has no expiry or the clock is not past the expiry, and its
    usage limit is unset or zero or the uses so far are below it.  In
    particular a promotion whose uses equal its non-zero usage limit is
    invalid whatever its active flag and expiry. *)
Theorem is_valid_iff (now : Z) (p : Promotion.t) :
  (Promotion.is_valid now p = true <->
     Promotion.is_active p = true /\
     (Promotion.expires_at p = None \/
      exists e, Promotion.expires_at p = Some e /\ (now <= e)%Z) /\
     (Promotion.usage_limit p = None \/ Promotion.usage_limit p = Some 0%Z \/
      exists l, Promotion.usage_limit p = Some l /\ (Promotion.used_count p < l)%Z))
  /\
  (forall l, Promotion.usage_limit p = Some l -> l <> 0%Z ->
             Promotion.used_count p = l -> Promotion.is_valid now p = false).
Proof.
  split.
  - unfold Promotion.is_valid.
    rewrite !andb_true_iff, !negb_true_iff, <- !not_true_iff_false,
      is_expired_true, is_usage_exceeded_true.
    split.
    + intros [[Ha He] Hu]. split; [exact Ha | split].
      * destruct (Promotion.expires_at p) as [e|]; [right | now left].
        exists e. split; [reflexivity|].
        destruct (Z_le_gt_dec now e) as [H|H]; [exact H|].
        exfalso. apply He. exists e. split; [reflexivity | lia].
      * destruct (Promotion.usage_limit p) as [l|]; [right | now left].
        destruct (Z.eq_dec l 0%Z) as [->|Hl]; [now left | right].
        exists l. split; [reflexivity|].
        destruct (Z_lt_le_dec (Promotion.used_count p) l) as [H|H]; [exact H|].
        exfalso. apply Hu. exists l. auto.
    + intros (Ha & He & Hu). repeat split; [exact Ha | |].
      * intros (e & Heq & Hlt).
        destruct He as [He | (e' & He & Hle)]; rewrite He in Heq;
          [discriminate | injection Heq as ->; lia].
      * intros (l & Heq & Hnz & Hle).
        destruct Hu as [Hu | [Hu | (l' & Hu & Hlt)]]; rewrite Hu in Heq;
          [discriminate | injection Heq as <-; now apply Hnz
          | injection Heq as ->; lia].
  - intros l Hl Hnz Hc. unfold Promotion.is_valid.
    assert (Promotion.is_usage_exceeded p = true) as ->.
    { apply is_usage_exceeded_true. exists l. repeat split; [exact Hl | exact Hnz | lia]. }
    now rewrite andb_false_r.
Qed.

(** BIRYANI20 after its hundredth use. *)
Lemma is_valid_iff_witness :
  Promotion.is_valid 0
    (Promotion.mk "BIRYANI20" "percentage" 20 200 (Some 150) (Some 100%Z) 100 true None)
  = false.
Proof.
  apply (proj2 (is_valid_iff 0 _) 100%Z); [reflexivity | discriminate | reflexivity].
Defined.

(** C4 as worded fails on a usage limit of 0: the code reads the limit as
    a truth value, so 0 counts as "no limit" and the promotion stays valid
    although its uses (0) equal its limit (0). *)
Lemma is_valid_as_stated_fails :
  Promotion.is_valid 0 Sample.zero_limit = true /\
  Stated.is_valid 0 Sample.zero_limit = false /\
  Promotion.usage_limit Sample.zero_limit
    = Some (Promotion.used_count Sample.zero_limit).
Proof. repeat split. Qed.

Lemma truthy_float_Some (c : Q) :
  Py.truthy_float (Some c) = negb (Qeq_bool c 0).
Proof. reflexivity. Qed.

(** C3, as the code has it.  [calculate_discount] returns 0 for a
    promotion that is not valid or a subtotal below the minimum order
    amount.  Otherwise a percentage promotion gives subtotal x value / 100,
    clamped to [max_discount] when a non-zero cap is set (a cap of 0 is
    read as no cap), and a fixed promotion gives min(value, subtotal),
    which never exceeds the subtotal. *)
Theorem calculate_discount_cases (now : Z) (p : Promotion.t) (s : Q) :
  (Promotion.is_valid now p = false \/ s < Promotion.min_order_amount p ->
   Promotion.calculate_discount now p s = 0) /\
  (Promotion.is_valid now p = true -> Promotion.min_order_amount p <= s ->
   Promotion.discount_type p = "percentage"%string ->
   Promotion.calculate_discount now p s ==
     match Promotion.max_discount p with
     | Some c => if Qeq_bool c 0 then s * Promotion.discount_value p / 100
                 else Qmin (s * Promotion.discount_value p / 100) c
     | None => s * Promotion.discount_value p / 100
     end) /\
  (Promotion.is_valid now p = true -> Promotion.min_order_amount p <= s ->
   Promotion.discount_type p = "fixed"%string ->
   Promotion.calculate_discount now p s = Qmin (Promotion.discount_value p) s /\
   Promotion.calculate_discount now p s <= s).
Proof.
  unfold Promotion.calculate_discount.
  assert (Hpct : s * (Promotion.discount_value p / 100)
                 == s * Promotion.discount_value p / 100) by (field; discriminate).
  refine (conj _ (conj _ _)).
  - intros [Hv | Hs].
    + now rewrite Hv.
    + apply Qltb_true in Hs. rewrite Hs. now rewrite orb_true_r.
  - intros Hv Hs Ht. apply Qltb_false in Hs. rewrite Hv, Hs, Ht. simpl.
    destruct (Promotion.max_discount p) as [c|]; [|exact Hpct].
    rewrite truthy_float_Some.
    destruct (Qeq_bool c 0); simpl; [exact Hpct|].
    unfold Py.min. now rewrite Hpct.
  - intros Hv Hs Ht. apply Qltb_false in Hs. rewrite Hv, Hs, Ht. simpl.
    split; [reflexivity | apply py_min_le_r].
Qed.

(** The scenarios of the document: SAVE50 on a subtotal of 180 (below its
    minimum), BIRYANI20 on 250 and SAVE50 on 320. *)
Lemma calculate_discount_cases_witness :
  Promotion.calculate_discount 0 Sample.save50 180 = 0 /\
  Promotion.calculate_discount 0 Sample.biryani20 250 == 50 /\
  Promotion.calculate_discount 0 Sample.save50 320 == 50.
Proof.
  refine (conj _ (conj _ _)).
  - destruct (calculate_discount_cases 0 Sample.save50 180) as (H & _).
    apply H. right. reflexivity.
  - destruct (calculate_discount_cases 0 Sample.biryani20 250) as (_ & H & _).
    rewrite H; [reflexivity | reflexivity | discriminate | reflexivity].
  - destruct (calculate_discount_cases 0 Sample.save50 320) as (_ & _ & H).
    destruct H as [H _]; [reflexivity | discriminate | reflexivity |].
    rewrite H. reflexivity.
Defined.

(** C3 as worded fails on a cap of 0: the cap is set, the worded rule
    clamps 10% of 200 to 0, the code reads the cap as a truth value and
    returns the unclamped 20. *)
Lemma discount_as_stated_fails :
  Promotion.is_valid 0 Sample.zero_cap = true /\
  Promotion.max_discount Sample.zero_cap = Some 0 /\
  Promotion.calculate_discount 0 Sample.zero_cap 200 == 20 /\
  Stated.percentage_discount Sample.zero_cap 200 == 0 /\
  ~ Promotion.calculate_discount 0 Sample.zero_cap 200
    == Stated.percentage_discount Sample.zero_cap 200.
Proof.
  refine (conj _ (conj _ (conj _ (conj _ _)))); try reflexivity.
  discriminate.
Qed.

(** *** Loyalty tiers and redemption *)

Local Open Scope Z_scope.

Lemma current_tier_bands (b : Z) :
  (b <= 999 -> User.current_tier b = User.bronze) /\
  (1000 <= b <= 2499 -> User.current_tier b = User.silver) /\
  (2500 <= b <= 4999 -> User.current_tier b = User.gold) /\
  (5000 <= b -> User.current_tier b = User.platinum).
Proof.
  unfold User.current_tier, User.tier_order, User.in_band. simpl.
  destruct (Z.leb_spec 0 b), (Z.leb_spec b 999), (Z.leb_spec 1000 b),
    (Z.leb_spec b 2499), (Z.leb_spec 2500 b), (Z.leb_spec b 4999),
    (Z.leb_spec 5000 b); simpl; repeat split; intros; try reflexivity; lia.
Qed.

(** C7.  The tier and conversion rate read from a balance are bronze/5 on
    0..999, silver/4 on 1000..2499, gold/3 on 2500..4999 and platinum/2
    from 5000 upwards, with inclusive lower bounds; every read recomputes
    the tier from the balance alone, returns that tier's entry, and leaves
    the stored label equal to the recomputed tier (overwriting it when it
    differed, changing nothing else). *)
Theorem tier_of_balance (u : User.t) :
  let b := User.loyalty_points u in
  let u' := fst (User.get_loyalty_tier_info u) in
  let info := snd (User.get_loyalty_tier_info u) in
  ((0 <= b <= 999 ->
      User.loyalty_tier u' = "bronze"%string /\ User.conversion_rate info = 5) /\
   (1000 <= b <= 2499 ->
      User.loyalty_tier u' = "silver"%string /\ User.conversion_rate info = 4) /\
   (2500 <= b <= 4999 ->
      User.loyalty_tier u' = "gold"%string /\ User.conversion_rate info = 3) /\
   (5000 <= b ->
      User.loyalty_tier u' = "platinum"%string /\ User.conversion_rate info = 2)) /\
  info = User.tiers (User.current_tier b) /\
  u' = User.set_loyalty_tier (User.tier_name (User.current_tier b)) u /\
  (User.loyalty_tier u = User.tier_name (User.current_tier b) -> u' = u).
Proof.
  intros b u' info.
  assert (Hu' : u' = User.set_loyalty_tier (User.tier_name (User.current_tier b)) u).
  { subst u' b. unfold User.get_loyalty_tier_info. simpl.
    destruct (String.eqb_spec (User.loyalty_tier u)
                (User.tier_name (User.current_tier (User.loyalty_points u)))) as [E|E];
      simpl; [|reflexivity].
    rewrite <- E. now destruct u. }
  assert (Hinfo : info = User.tiers (User.current_tier b)) by reflexivity.
  destruct (current_tier_bands b) as (Hb & Hs & Hg & Hp).
  refine (conj (conj _ (conj _ (conj _ _))) (conj Hinfo (conj Hu' _))).
  - intros H. rewrite Hu', Hinfo, Hb by lia. now split.
  - intros H. rewrite Hu', Hinfo, Hs by lia. now split.
  - intros H. rewrite Hu', Hinfo, Hg by lia. now split.
  - intros H. rewrite Hu', Hinfo, Hp by lia. now split.
  - intros E. rewrite Hu', <- E. now destruct u.
Qed.

(** The boundary balances 999, 1000, 2500 and 5000, and a stale label. *)
Lemma tier_of_balance_witness :
  User.conversion_rate
    (snd (User.get_loyalty_tier_info (User.mk "a" "customer" 999 "gold" true))) = 5 /\
  User.conversion_rate
    (snd (User.get_loyalty_tier_info (User.mk "a" "customer" 1000 "gold" true))) = 4 /\
  User.conversion_rate
    (snd (User.get_loyalty_tier_info (User.mk "a" "customer" 2500 "gold" true))) = 3 /\
  User.conversion_rate
    (snd (User.get_loyalty_tier_info (User.mk "a" "customer" 5000 "gold" true))) = 2 /\
  User.loyalty_tier (fst (User.get_loyalty_tier_info Sample.stale)) = "gold"%string.
Proof.
  refine (conj _ (conj _ (conj _ (conj _ _)))).
  - destruct (tier_of_balance (User.mk "a" "customer" 999 "gold" true))
      as ((H & _) & _). apply H. simpl. lia.
  - destruct (tier_of_balance (User.mk "a" "customer" 1000 "gold" true))
      as ((_ & H & _) & _). apply H. simpl. lia.
  - destruct (tier_of_balance (User.mk "a" "customer" 2500 "gold" true))
      as ((_ & _ & H & _) & _). apply H. simpl. lia.
  - destruct (tier_of_balance (User.mk "a" "customer" 5000 "gold" true))
      as ((_ & _ & _ & H) & _). apply H. simpl. lia.
  - destruct (tier_of_balance Sample.stale) as ((_ & _ & H & _) & _).
    apply H. simpl. lia.
Defined.

(** C6, as the code has it.  The minimum is checked first: a request
    below 100 points is refused as below the minimum whatever the balance;
    a request of at least 100 points above the balance is refused as
    insufficient; any other request deducts the points and returns
    floor(n / rate), the rate being that of the tier of the balance before
    the deduction. *)
Theorem redeem_points_cases (u : User.t) (n : Z) :
  let b := User.loyalty_points u in
  (n < 100 ->
     User.redeem_points u n = (u, User.Refused "Minimum redemption is 100 points")) /\
  (100 <= n -> b < n ->
     User.redeem_points u n = (u, User.Refused "Insufficient points")) /\
  (100 <= n -> n <= b ->
     User.loyalty_points (fst (User.redeem_points u n)) = b - n /\
     snd (User.redeem_points u n)
       = User.Redeemed (n / User.conversion_rate (User.tiers (User.current_tier b)))).
Proof.
  intros b. unfold User.redeem_points. fold b.
  destruct (Z.ltb_spec n 100) as [Hlt|Hge].
  - repeat split; intros; try reflexivity; lia.
  - destruct (Z.gtb_spec n b) as [Hgt|Hle].
    + repeat split; intros; try reflexivity; lia.
    + refine (conj _ (conj _ _)); intros; try lia.
      unfold User.get_loyalty_tier_info. fold b. simpl.
      destruct (negb _); split; reflexivity.
Qed.

(** The document's example: 100 of 250 points at bronze give 20 and leave
    150; 60 points are below the minimum; 300 of 250 are insufficient. *)
Lemma redeem_points_cases_witness :
  (User.loyalty_points (fst (User.redeem_points Sample.saver 100)) = 150 /\
   snd (User.redeem_points Sample.saver 100) = User.Redeemed 20) /\
  User.redeem_points Sample.saver 60
    = (Sample.saver, User.Refused "Minimum redemption is 100 points") /\
  User.redeem_points Sample.saver 300
    = (Sample.saver, User.Refused "Insufficient points").
Proof.
  refine (conj _ (conj _ _)).
  - destruct (redeem_points_cases Sample.saver 100) as (_ & _ & H).
    apply H; simpl; lia.
  - destruct (redeem_points_cases Sample.saver 60) as (H & _).
    apply H. lia.
  - destruct (redeem_points_cases Sample.saver 300) as (_ & H & _).
    apply H; simpl; lia.
Defined.

(** C6 as worded fails when both failure conditions hold: 60 points
    requested from a balance of 50 exceed the balance, yet the answer is
    the below-minimum refusal, not the insufficient-points one. *)
Lemma redeem_as_stated_fails :
  ~ Stated.redeem_failures Sample.poor 60.
Proof.
  intros [H _]. specialize (H ltac:(simpl; lia)). discriminate H.
Qed.

(** *** Checkout *)

Local Open Scope Q_scope.

(** What [place_order] leaves behind when it answers with an order id:
    the order is persisted with the amounts it was given, and the
    promotions are those of the session it started from. *)
Lemma place_order_created clk rp user_id nm ph addr pm cc cart sub dc disc tot s s' ep oid msg :
  Routes.place_order clk rp user_id nm ph addr pm cc cart sub dc disc tot s
    = (s', Routes.Redirect ep (Some oid) msg) ->
  exists o, Db.orders (Session.committed s') !! oid = Some o /\
    Order.subtotal o = sub /\ Order.delivery_charges o = dc /\
    Order.discount o = disc /\ Order.total_amount o = tot /\
    Order.user_id o = user_id /\
    Db.promotions (Session.committed s') = Db.promotions (Session.working s).
Proof.
  unfold Routes.place_order. cbv zeta.
  destruct (Db.order_number_taken _ _); [discriminate|].
  destruct user_id as [uid|]; [destruct (Py.truthy_int (Some uid))|];
    (destruct (String.eqb pm "upi"); intros [= <- <- <- <-];
     (eexists; split; [simpl; apply lookup_insert_eq|]);
     simpl; repeat split; reflexivity).
Qed.

(** When [place_order] answers without an order id it has rolled back:
    nothing it did is persisted. *)
Lemma place_order_failed clk rp user_id nm ph addr pm cc cart sub dc disc tot s s' ep msg :
  Routes.place_order clk rp user_id nm ph addr pm cc cart sub dc disc tot s
    = (s', Routes.Redirect ep None msg) ->
  Session.committed s' = Session.committed s.
Proof.
  unfold Routes.place_order. cbv zeta.
  destruct (Db.order_number_taken _ _).
  - now intros [= <- _ _].
  - destruct (String.eqb pm "upi"); discriminate.
Qed.

(** Every answer of [process_checkout] that carries an order id comes from
    a logged-in user with a non-empty cart, after the coupon stage, and
    the order it names is persisted with the amounts the route computed. *)
Lemma process_checkout_created clk rp su form d d' ep oid msg :
  Routes.process_checkout clk rp su form d = (d', Routes.Redirect ep (Some oid) msg) ->
  exists uid disc s1 o,
    let subtotal := Py.sum (List.map Utils.total (Utils.get_cart_items uid d)) in
    su = Some uid /\
    Routes.checkout_coupon clk (Py.strip (Routes.f_coupon_code form)) subtotal
      (Session.start d) = Some (disc, s1) /\
    Db.orders d' !! oid = Some o /\
    Order.subtotal o = subtotal /\
    Order.delivery_charges o = Utils.calculate_delivery_charges subtotal /\
    Order.discount o = disc /\
    Order.total_amount o
      = subtotal + Utils.calculate_delivery_charges subtotal - disc /\
    Order.user_id o = Some uid /\
    Db.promotions d' = Db.promotions (Session.working s1).
Proof.
  unfold Routes.process_checkout. cbv zeta.
  destruct (negb (Utils.is_store_open _)); [discriminate|].
  destruct (negb (_ && _ && _)); [discriminate|].
  destruct (negb (Utils.validate_phone _)); [discriminate|].
  destruct su as [uid|]; [|discriminate].
  destruct (Py.truthy_int (Some uid)); [|discriminate].
  change (Session.working (Session.start d)) with d.
  destruct (Utils.get_cart_items uid d) as [|row rows] eqn:Hcart; [discriminate|].
  destruct (Routes.checkout_coupon _ _ _ _) as [[disc s1]|] eqn:Hcoupon;
    [|discriminate].
  destruct (Routes.place_order _ _ _ _ _ _ _ _ _ _ _ _ _ _) as [s2 r] eqn:Hplace.
  intros [= <- ->].
  apply place_order_created in Hplace as (o & Ho & H1 & H2 & H3 & H4 & H5 & H6).
  exists uid, disc, s1, o. cbv zeta. rewrite Hcart.
  repeat split; solve [assumption | reflexivity].
Qed.

(** The part of C1 that holds for every order checkout creates: the
    stored total is the stored subtotal plus the stored delivery charge
    minus the stored discount, term for term. *)
Lemma checkout_total_equation clk rp su form d d' ep oid msg o :
  Routes.process_checkout clk rp su form d = (d', Routes.Redirect ep (Some oid) msg) ->
  Db.orders d' !! oid = Some o ->
  Order.total_amount o
    = Order.subtotal o + Order.delivery_charges o - Order.discount o.
Proof.
  intros H Ho.
  apply process_checkout_created in H
    as (uid & disc & s1 & o' & _ & _ & Ho' & H1 & H2 & H3 & H4 & _).
  rewrite Ho in Ho'. injection Ho' as <-.
  now rewrite H4, H1, H2, H3.
Qed.


Lemma delivery_charges_nonneg (s : Q) : 0 <= Utils.calculate_delivery_charges s.
Proof.
  unfold Utils.calculate_delivery_charges.
  destruct (Py.Qgeb s 200), (Py.Qgeb s 150), (Py.Qgeb s 100); discriminate.
Qed.

(** C1 fails on the code: a percentage coupon above 100.  Customer 1 checks
    out two plates (subtotal 250, free delivery) with MEGA150, a 150%
    coupon with no cap.  The order is created with discount 375, above
    the subtotal, and total -125, below zero; the stored total is still
    subtotal + delivery charge - discount. *)
Theorem checkout_percentage_above_100 :
  let r := Routes.process_checkout Sample.at_noon "000007" (Some 1%Z)
             (Sample.form_with "mega150") Sample.shop in
  snd r = Routes.Redirect "order_confirmation" (Some 3%Z)
            (Some ("Order placed successfully!", "success")%string) /\
  exists o, Db.orders (fst r) !! 3%Z = Some o /\
    Order.subtotal o == 250 /\ Order.delivery_charges o == 0 /\
    Order.discount o == 375 /\ Order.total_amount o == -125 /\
    Order.total_amount o
      = Order.subtotal o + Order.delivery_charges o - Order.discount o /\
    ~ Order.discount o <= Order.subtotal o /\
    Order.total_amount o < 0.
Proof.
  cbv zeta. split; [vm_compute; reflexivity|].
  eexists. split; [vm_compute; reflexivity|].
  cbn [Order.subtotal Order.delivery_charges Order.discount Order.total_amount].
  refine (conj _ (conj _ (conj _ (conj _ (conj _ (conj _ _))))));
    try reflexivity.
  intros H. now apply H.
Qed.

(** *** Checkout and the usage counter *)

Lemma find_update_first (c : string) (f : Promotion.t -> Promotion.t)
    (l : list Promotion.t) (p : Promotion.t) :
  (forall q, Promotion.code (f q) = Promotion.code q) ->
  List.find (fun q => String.eqb (Promotion.code q) c) l = Some p ->
  List.find (fun q => String.eqb (Promotion.code q) c) (Db.update_first c f l)
    = Some (f p).
Proof.
  intros Hf. induction l as [|q l IH]; simpl; [discriminate|].
  destruct (String.eqb (Promotion.code q) c) eqn:E.
  - intros [= ->]. simpl. now rewrite Hf, E.
  - intros H. simpl. rewrite E. now apply IH.
Qed.

(** The coupon stage touches the promotions only, and counts one use of
    the coupon it accepts. *)
Lemma checkout_coupon_effect clk cc sub d disc s1 :
  Routes.checkout_coupon clk cc sub (Session.start d) = Some (disc, s1) ->
  Session.committed s1 = Session.working s1 /\
  Db.orders (Session.working s1) = Db.orders d /\
  Db.order_items (Session.working s1) = Db.order_items d /\
  Db.cart_items (Session.working s1) = Db.cart_items d /\
  Db.users (Session.working s1) = Db.users d /\
  (Py.truthy_str cc = false -> disc = 0 /\ Db.promotions (Session.working s1) = Db.promotions d) /\
  (Py.truthy_str cc = true ->
   exists p, Db.find_promotion (Py.strip (Py.upper cc)) d = Some p /\
     Promotion.is_valid (ist_now clk) p = true /\
     Promotion.min_order_amount p <= sub /\
     disc = Promotion.calculate_discount (ist_now clk) p sub /\
     Db.find_promotion (Py.strip (Py.upper cc)) (Session.working s1)
       = Some (Promotion.use_promotion p)).
Proof.
  unfold Routes.checkout_coupon.
  destruct (Py.truthy_str cc).
  - change (Session.working (Session.start d)) with d.
    destruct (Db.find_promotion _ d) as [p|] eqn:Hfind; [|discriminate].
    destruct (Promotion.is_valid _ p) eqn:Hv; [|discriminate].
    destruct (Py.Qgeb sub _) eqn:Hmin; [|discriminate].
    simpl. intros [= <- <-]. simpl.
    repeat split; try reflexivity; try discriminate.
    intros _. exists p.
    refine (conj eq_refl (conj Hv (conj _ (conj eq_refl _)))).
    + now apply Qgeb_true.
    + unfold Db.find_promotion. simpl. now apply find_update_first.
  - intros [= <- <-]. simpl. repeat split; try reflexivity; discriminate.
Qed.

(** The part of C9 that holds: a checkout that answers without an order
    id leaves no order, no order item and no cart change behind. *)
Lemma checkout_failure_keeps_orders clk rp su form d d' ep msg :
  Routes.process_checkout clk rp su form d = (d', Routes.Redirect ep None msg) ->
  Db.orders d' = Db.orders d /\ Db.order_items d' = Db.order_items d /\
  Db.cart_items d' = Db.cart_items d /\ Db.users d' = Db.users d.
Proof.
  unfold Routes.process_checkout. cbv zeta.
  change (Session.committed (Session.start d)) with d.
  destruct (negb (Utils.is_store_open _)); [now intros [= <-]|].
  destruct (negb (_ && _ && _)); [now intros [= <-]|].
  destruct (negb (Utils.validate_phone _)); [now intros [= <-]|].
  destruct (match su with Some _ => _ | None => _ end) as [|row rows];
    [now intros [= <-]|].
  destruct (Routes.checkout_coupon _ _ _ _) as [[disc s1]|] eqn:Hcoupon;
    [|now intros [= <-]].
  destruct (Routes.place_order _ _ _ _ _ _ _ _ _ _ _ _ _ _) as [s2 r] eqn:Hplace.
  intros [= <- ->].
  apply place_order_failed in Hplace.
  apply checkout_coupon_effect in Hcoupon as (Hc & Ho & Hi & Hk & Hu & _).
  rewrite Hplace, Hc. auto.
Qed.

(** The other part of C9 that holds: a checkout that creates an order
    with a coupon counts exactly one use of that coupon, and one without a
    coupon leaves the promotions alone. *)
Lemma checkout_success_counts_once clk rp su form d d' ep oid msg :
  Routes.process_checkout clk rp su form d = (d', Routes.Redirect ep (Some oid) msg) ->
  let cc := Py.strip (Routes.f_coupon_code form) in
  (Py.truthy_str cc = false -> Db.promotions d' = Db.promotions d) /\
  (Py.truthy_str cc = true ->
   exists p, Db.find_promotion (Py.strip (Py.upper cc)) d = Some p /\
     Db.find_promotion (Py.strip (Py.upper cc)) d' = Some (Promotion.use_promotion p) /\
     Promotion.used_count (Promotion.use_promotion p) = (Promotion.used_count p + 1)%Z).
Proof.
  intros H cc.
  apply process_checkout_created in H
    as (uid & disc & s1 & o & _ & Hcoupon & _ & _ & _ & _ & _ & _ & Hp).
  apply checkout_coupon_effect in Hcoupon as (_ & _ & _ & _ & _ & Hno & Hyes).
  split.
  - intros E. rewrite Hp. now apply Hno.
  - intros E. destruct (Hyes E) as (p & Hfind & _ & _ & _ & Hfind').
    exists p. unfold Db.find_promotion in *. rewrite Hp.
    repeat split; assumption || reflexivity.
Qed.

(** C9 fails on the code: [use_promotion] commits before the [try] block
    that creates the order.  Customer 1 checks out with BIRYANI20 and the
    generated order number BC000001 is already taken: the insert raises,
    the route rolls back and reports the error, no order and no order item
    is added, yet the coupon's use is persisted (0 -> 1). *)
Theorem checkout_failure_keeps_coupon_use :
  let r := Routes.process_checkout Sample.at_noon "000001" (Some 1%Z)
             (Sample.form_with "biryani20") Sample.shop in
  snd r = Routes.Redirect "checkout" None
            (Some ("An error occurred while processing your order. Please try again.",
                   "error")%string) /\
  Db.orders (fst r) = Db.orders Sample.shop /\
  Db.order_items (fst r) = Db.order_items Sample.shop /\
  option_map Promotion.used_count (Db.find_promotion "BIRYANI20" Sample.shop)
    = Some 0%Z /\
  option_map Promotion.used_count (Db.find_promotion "BIRYANI20" (fst r))
    = Some 1%Z /\
  fst r <> Sample.shop.
Proof.
  cbv zeta.
  refine (conj _ (conj _ (conj _ (conj _ (conj _ _)))));
    try (vm_compute; reflexivity).
  intros E.
  apply (f_equal (fun d => option_map Promotion.used_count
                             (Db.find_promotion "BIRYANI20" d))) in E.
  vm_compute in E. discriminate E.
Qed.

(** *** Coupon codes are normalised the same way everywhere *)

Lemma upper_keeps_space (c : ascii) :
  Py.is_space (Py.upper_ascii c) = Py.is_space c.
Proof. destruct c as [[] [] [] [] [] [] [] []]; reflexivity. Qed.

Section StripMap.

Variable f : ascii -> ascii.
Hypothesis f_keeps_space : forall c, Py.is_space (f c) = Py.is_space c.

Lemma lstrip_map (s : string) :
  Py.lstrip (Py.map_str f s) = Py.map_str f (Py.lstrip s).
Proof.
  induction s as [|c r IH]; simpl; [reflexivity|].
  rewrite f_keeps_space. now destruct (Py.is_space c).
Qed.

Lemma rstrip_map (s : string) :
  Py.rstrip (Py.map_str f s) = Py.map_str f (Py.rstrip s).
Proof.
  induction s as [|c r IH]; simpl; [reflexivity|].
  rewrite IH. destruct (Py.rstrip r); simpl; [|reflexivity].
  rewrite f_keeps_space. now destruct (Py.is_space c).
Qed.

Lemma strip_map (s : string) :
  Py.strip (Py.map_str f s) = Py.map_str f (Py.strip s).
Proof. unfold Py.strip. now rewrite lstrip_map, rstrip_map. Qed.

End StripMap.

Lemma rstrip_idem (s : string) : Py.rstrip (Py.rstrip s) = Py.rstrip s.
Proof.
  induction s as [|c r IH]; simpl; [reflexivity|].
  destruct (Py.rstrip r) as [|a r'] eqn:E.
  - destruct (Py.is_space c) eqn:Hc; simpl; [reflexivity|]. now rewrite Hc.
  - change (Py.rstrip (String c (String a r')))
      with (match Py.rstrip (String a r') with
            | EmptyString =>
                if Py.is_space c then EmptyString else String c EmptyString
            | x => String c x
            end).
    now rewrite IH.
Qed.

Lemma lstrip_head (s : string) :
  Py.lstrip s = EmptyString \/
  exists c r, Py.lstrip s = String c r /\ Py.is_space c = false.
Proof.
  induction s as [|c r IH]; simpl; [now left|].
  destruct (Py.is_space c) eqn:Hc; [exact IH|].
  right. exists c, r. auto.
Qed.

Lemma strip_idem (s : string) : Py.strip (Py.strip s) = Py.strip s.
Proof.
  unfold Py.strip.
  assert (H : Py.lstrip (Py.rstrip (Py.lstrip s)) = Py.rstrip (Py.lstrip s)).
  { destruct (lstrip_head s) as [-> | (c & r & -> & Hc)]; [reflexivity|].
    simpl. destruct (Py.rstrip r); rewrite ?Hc; simpl; now rewrite Hc. }
  rewrite H. apply rstrip_idem.
Qed.

(** [process_checkout] strips the form field before it normalises the
    code; the lookup key is the one [api_validate_coupon] uses. *)
Lemma normalised_code (raw : string) :
  Py.strip (Py.upper (Py.strip raw)) = Py.strip (Py.upper raw).
Proof.
  unfold Py.upper.
  rewrite !(strip_map _ upper_keeps_space). now rewrite strip_idem.
Qed.



(** *** The coupon preview and the checkout total *)





(** *** Delivery assignment *)

(** What [assign_order] does with a delivery person's request for an
    existing order.  The request succeeds exactly when the order is
    unassigned, and the status is not read for that: the order is then
    persisted with the actor as its delivery person and with status
    preparing if it was confirmed, its status unchanged otherwise.  When
    the order already has a delivery person the database is left as it was
    and the answer is the ordinary redirect to the dashboard with a
    warning. *)
Lemma assign_order_cases (uid oid : Z) (d : Db.t) (user : User.t) (order : Order.t) :
  Db.users d !! uid = Some user ->
  User.is_delivery_person user = true ->
  Db.orders d !! oid = Some order ->
  (Py.truthy_int (Order.delivery_person_id order) = false ->
   exists order',
     Routes.assign_order (Some uid) oid d
       = (Db.set_orders (<[oid := order']> (Db.orders d)) d,
          Routes.Redirect "delivery_dashboard" None
            (Some ("Order #" ++ Order.order_number order ++ " assigned to you",
                   "success"))%string) /\
     Order.delivery_person_id order' = Some uid /\
     (Order.status order = "confirmed"%string ->
      order' = Order.set_status "preparing" (Order.set_delivery_person_id (Some uid) order)) /\
     (Order.status order <> "confirmed"%string ->
      order' = Order.set_delivery_person_id (Some uid) order)) /\
  (Py.truthy_int (Order.delivery_person_id order) = true ->
   Routes.assign_order (Some uid) oid d
     = (d, Routes.Redirect "delivery_dashboard" None
             (Some ("Order already assigned to another delivery person",
                    "warning"))%string)).
Proof.
  intros Hu Hrole Ho. unfold Routes.assign_order, Routes.get_current_user.
  rewrite Hu, Hrole, Ho. simpl negb. cbv iota.
  split; intros Ha; rewrite Ha; [|reflexivity].
  cbv zeta. change (Order.status (Order.set_delivery_person_id (Some uid) order))
              with (Order.status order).
  destruct (String.eqb_spec (Order.status order) "confirmed") as [E|E];
    eexists; (split; [reflexivity|]); (split; [reflexivity|]);
    split; intros E'; solve [reflexivity | contradiction].
Qed.

(** Rider 4 claims a confirmed order, and is turned away from the order
    rider 2 already holds. *)
Lemma assign_order_cases_witness :
  let d := Db.set_orders
             (<[2%Z := Order.set_status "confirmed" Sample.unconfirmed]>
                (Db.orders Sample.shop)) Sample.shop in
  (exists order',
     Db.orders (fst (Routes.assign_order (Some 4%Z) 2%Z d)) !! 2%Z = Some order' /\
     Order.delivery_person_id order' = Some 4%Z /\
     Order.status order' = "preparing"%string) /\
  Routes.assign_order (Some 4%Z) 1%Z d
    = (d, Routes.Redirect "delivery_dashboard" None
            (Some ("Order already assigned to another delivery person",
                   "warning"))%string).
Proof.
  intros d. split.
  - destruct (assign_order_cases 4%Z 2%Z d
                (User.mk "imran" "delivery" 0 "bronze" true)
                (Order.set_status "confirmed" Sample.unconfirmed)
                ltac:(vm_compute; reflexivity) eq_refl
                ltac:(vm_compute; reflexivity)) as [H _].
    destruct (H eq_refl) as (order' & Hr & Hd & Hc & _).
    exists order'. rewrite Hr. simpl fst.
    refine (conj _ (conj Hd _)).
    + apply lookup_insert_eq.
    + rewrite (Hc eq_refl). reflexivity.
  - destruct (assign_order_cases 4%Z 1%Z d
                (User.mk "imran" "delivery" 0 "bronze" true) Sample.on_the_way
                ltac:(vm_compute; reflexivity) eq_refl
                ltac:(vm_compute; reflexivity)) as [_ H].
    apply H. reflexivity.
Defined.

(** C8 fails on the code: [assign_order] tests that the order is
    unassigned and never reads its status, although the dashboard that
    links to it offers only unassigned orders that are confirmed or being
    prepared.  Order 2 is pending, is not claimable by the rule and is
    not on the dashboard's list, and rider 4's request for it succeeds
    all the same, leaving it assigned and still pending.  Customer 5's
    UPI order, which the admin cancelled before it was paid, is not on
    the list either and is claimed just the same; picking it up and
    completing it then leaves the cancelled order delivered, marked as
    paid, and the customer 16 points richer. *)
Theorem assign_order_ignores_status :
  let status d oid := option_map Order.status (Db.orders d !! oid) in
  let rider d oid := option_map Order.delivery_person_id (Db.orders d !! oid) in
  let paid d oid := option_map Order.payment_status (Db.orders d !! oid) in
  let points d := option_map User.loyalty_points (Db.users d !! 5%Z) in
  let listed d oid :=
    existsb (fun kv => (fst kv =? oid)%Z) (Routes.available_orders d) in
  let placed :=
    fst (Routes.process_checkout Sample.at_noon "000007" (Some 5%Z)
           Sample.upi_form Sample.shop) in
  let cancelled :=
    Routes.serve Sample.at_noon [Routes.AdminUpdate 3 3 "cancelled"] placed in
  let delivered :=
    Routes.serve Sample.at_noon
      [Routes.Assign 4 3; Routes.Pickup 4 3; Routes.Complete 4 3] cancelled in
  (Db.orders Sample.shop !! 2%Z = Some Sample.unconfirmed /\
   Stated.claimable Sample.unconfirmed = false /\
   listed Sample.shop 2%Z = false /\
   snd (Routes.assign_order (Some 4%Z) 2%Z Sample.shop)
     = Routes.Redirect "delivery_dashboard" None
         (Some ("Order #BC000002 assigned to you", "success")%string) /\
   rider (fst (Routes.assign_order (Some 4%Z) 2%Z Sample.shop)) 2%Z
     = Some (Some 4%Z) /\
   status (fst (Routes.assign_order (Some 4%Z) 2%Z Sample.shop)) 2%Z
     = Some "pending"%string) /\
  (status cancelled 3%Z = Some "cancelled"%string /\
   rider cancelled 3%Z = Some None /\
   paid cancelled 3%Z = Some "pending"%string /\
   points cancelled = Some 0%Z /\
   listed cancelled 3%Z = false /\
   snd (Routes.assign_order (Some 4%Z) 3%Z cancelled)
     = Routes.Redirect "delivery_dashboard" None
         (Some ("Order #BC000007 assigned to you", "success")%string) /\
   status delivered 3%Z = Some "delivered"%string /\
   rider delivered 3%Z = Some (Some 4%Z) /\
   paid delivered 3%Z = Some "confirmed"%string /\
   points delivered = Some 16%Z).
Proof.
  cbv zeta. split.
  - refine (conj _ (conj _ (conj _ (conj _ (conj _ _))))); vm_compute; reflexivity.
  - refine (conj _ (conj _ (conj _ (conj _ (conj _
             (conj _ (conj _ (conj _ (conj _ _)))))))));
      vm_compute; reflexivity.
Qed.

(** *** Loyalty points on delivery *)

Local Open Scope Z_scope.

(** The part of C5 that holds for one completion: the assigned rider's
    [complete_delivery] marks the order delivered and credits
    floor(total_amount / 10) points to the registered customer. *)
Lemma complete_delivery_credits clk uid oid d rider order cid customer :
  Db.users d !! uid = Some rider ->
  User.is_delivery_person rider = true ->
  Db.orders d !! oid = Some order ->
  Order.delivery_person_id order = Some uid ->
  Order.user_id order = Some cid -> cid <> 0 ->
  Db.users d !! cid = Some customer ->
  let d' := fst (Routes.complete_delivery clk (Some uid) oid d) in
  option_map Order.status (Db.orders d' !! oid) = Some "delivered"%string /\
  option_map User.loyalty_points (Db.users d' !! cid)
    = Some (User.loyalty_points customer + Qfloor (Order.total_amount order / 10)).
Proof.
  intros Hu Hrole Ho Ha Hc Hnz Hcust.
  unfold Routes.complete_delivery, Routes.get_current_user, Routes.assigned_to.
  rewrite Hu, Hrole, Ho, Ha, Z.eqb_refl. simpl.
  rewrite lookup_insert_eq. split; [reflexivity|].
  unfold Routes.credit_points. simpl. rewrite Hc. simpl.
  destruct (Z.eqb_spec cid 0) as [E|_]; [contradiction|]. simpl.
  rewrite Hcust, lookup_insert_eq. reflexivity.
Qed.

(** The part of C5 about guests: an order without a user credits nobody. *)
Lemma credit_points_guest (order : Order.t) (users : gmap Z User.t) :
  Order.user_id order = None -> Routes.credit_points order users = users.
Proof. unfold Routes.credit_points. now intros ->. Qed.

Lemma guests_only_insert (d : Db.t) (oid : Z) (o : Order.t) (us : gmap Z User.t) :
  Routes.guests_only d -> Order.user_id o = None ->
  Routes.guests_only (Db.set_users us (Db.set_orders (<[oid := o]> (Db.orders d)) d)).
Proof.
  intros Hd Ho k o'. simpl. rewrite lookup_insert.
  destruct (decide (oid = k)); [now intros [= <-] | apply Hd].
Qed.

Lemma handle_guests_only clk r d :
  Routes.guests_only d ->
  Routes.guests_only (Routes.handle clk r d) /\
  Db.users (Routes.handle clk r d) = Db.users d.
Proof.
  intros Hd.
  destruct r as [a oid|a oid|a oid|a oid st]; simpl;
    unfold Routes.assign_order, Routes.pickup_order, Routes.complete_delivery,
      Routes.update_order_status, Routes.get_current_user;
    (destruct (Db.users d !! a) as [user|]; [|now split]);
    try (destruct (negb (User.is_delivery_person user)); [now split|]);
    try (destruct (negb (User.is_admin user)); [now split|]);
    (destruct (Db.orders d !! oid) as [order|] eqn:Ho; [|now split]);
    pose proof (Hd _ _ Ho) as Hg.
  - destruct (Py.truthy_int _); [now split|]. simpl. split; [|reflexivity].
    apply (guests_only_insert d oid _ (Db.users d) Hd).
    now destruct (String.eqb _ _).
  - destruct (negb _); [now split|]. simpl. split; [|reflexivity].
    now apply (guests_only_insert d oid _ (Db.users d) Hd).
  - destruct (negb _); [now split|]. simpl.
    rewrite credit_points_guest by exact Hg. split; [|reflexivity].
    now apply (guests_only_insert d oid _ (Db.users d) Hd).
  - simpl. split; [|reflexivity].
    apply (guests_only_insert d oid _ (Db.users d) Hd).
    now destruct (String.eqb _ _).
Qed.

(** Guest orders never accrue points: no sequence of delivery and admin
    requests over guest orders changes any user. *)
Lemma serve_guests_only clk rs d :
  Routes.guests_only d -> Db.users (Routes.serve clk rs d) = Db.users d.
Proof.
  unfold Routes.serve. revert d.
  induction rs as [|r rs IH]; intros d Hd; simpl; [reflexivity|].
  destruct (handle_guests_only clk r d Hd) as [Hg Hu].
  now rewrite IH, Hu.
Qed.

(** C5 fails on the code, in both directions.  Order 1 (total 250,
    customer 1, rider 2) earns floor(250 / 10) = 25 points when rider 2
    completes it; completing it again credits the 25 points a second
    time; and when the admin sets it to delivered instead, the order is
    delivered and the customer has been credited nothing. *)
Theorem delivery_credit_not_exactly_once :
  let points d := option_map User.loyalty_points (Db.users d !! 1) in
  let status d := option_map Order.status (Db.orders d !! 1) in
  points Sample.shop = Some 0 /\
  points (Routes.serve Sample.at_noon [Routes.Complete 2 1] Sample.shop) = Some 25 /\
  points (Routes.serve Sample.at_noon
            [Routes.Complete 2 1; Routes.Complete 2 1] Sample.shop) = Some 50 /\
  status (Routes.serve Sample.at_noon
            [Routes.AdminUpdate 3 1 "delivered"] Sample.shop) = Some "delivered"%string /\
  points (Routes.serve Sample.at_noon
            [Routes.AdminUpdate 3 1 "delivered"] Sample.shop) = Some 0.
Proof.
  cbv zeta.
  refine (conj _ (conj _ (conj _ (conj _ _)))); vm_compute; reflexivity.
Qed.

(* ===================================================================== *)
(** ** Further properties of the code                                    *)
(* ===================================================================== *)

(** *** Coupon codes: case and surrounding blanks *)

Lemma upper_lower_ascii (c : ascii) :
  Py.upper_ascii (Py.lower_ascii c) = Py.upper_ascii c.
Proof. destruct c as [[] [] [] [] [] [] [] []]; reflexivity. Qed.

Lemma upper_upper_ascii (c : ascii) :
  Py.upper_ascii (Py.upper_ascii c) = Py.upper_ascii c.
Proof. destruct c as [[] [] [] [] [] [] [] []]; reflexivity. Qed.

(** On ASCII text the case maps compose as expected.  (Not so on every
    Python string: the capital sharp s lower-cases to a letter whose
    upper-case form is two letters.) *)
Lemma upper_lower (s : string) :
  Py.isascii s = true -> Py.upper (Py.lower s) = Py.upper s.
Proof.
  intros _. induction s as [|c r IH]; simpl; [reflexivity|].
  unfold Py.upper, Py.lower in *. simpl. now rewrite IH, upper_lower_ascii.
Qed.

Lemma upper_upper (s : string) :
  Py.isascii s = true -> Py.upper (Py.upper s) = Py.upper s.
Proof.
  intros _. induction s as [|c r IH]; simpl; [reflexivity|].
  unfold Py.upper in *. simpl. now rewrite IH, upper_upper_ascii.
Qed.

Lemma truthy_map_str (f : ascii -> ascii) (s : string) :
  Py.truthy_str (Py.map_str f s) = Py.truthy_str s.
Proof. now destruct s. Qed.

(** X1.  For a code written in ASCII characters the coupon lookup is blind
    to the case of the code and, in the JSON endpoint, to blanks around
    it: [api_validate_coupon] answers the same for the code, its
    lower-case and upper-case forms and its stripped form, and so does
    [apply_coupon] for the two case forms.  (Codes with other characters
    are left out: Python's case maps are not inverse to each other
    there.) *)
Theorem coupon_code_case_and_blanks clk raw s d :
  Py.isascii raw = true ->
  Routes.api_validate_coupon clk (Py.lower raw) s d
    = Routes.api_validate_coupon clk raw s d /\
  Routes.api_validate_coupon clk (Py.upper raw) s d
    = Routes.api_validate_coupon clk raw s d /\
  Routes.api_validate_coupon clk (Py.strip raw) s d
    = Routes.api_validate_coupon clk raw s d /\
  Utils.apply_coupon clk (Py.lower raw) s d = Utils.apply_coupon clk raw s d /\
  Utils.apply_coupon clk (Py.upper raw) s d = Utils.apply_coupon clk raw s d.
Proof.
  intros Hascii.
  unfold Routes.api_validate_coupon, Utils.apply_coupon.
  rewrite (upper_lower _ Hascii), (upper_upper _ Hascii), normalised_code.
  assert (Hl : Py.truthy_str (Py.lower raw) = Py.truthy_str raw)
    by apply truthy_map_str.
  assert (Hu : Py.truthy_str (Py.upper raw) = Py.truthy_str raw)
    by apply truthy_map_str.
  rewrite Hl, Hu. repeat split; reflexivity.
Qed.

(** A customer types " Welcome10 ": the endpoint answers as for the code
    in lower case, and accepts it. *)
Lemma coupon_code_case_and_blanks_witness :
  Py.isascii " Welcome10 " = true /\
  Routes.api_validate_coupon Sample.at_noon (Py.lower " Welcome10 ") 139 Sample.shop
    = Routes.api_validate_coupon Sample.at_noon " Welcome10 " 139 Sample.shop /\
  Routes.valid
    (Routes.api_validate_coupon Sample.at_noon " Welcome10 " 139 Sample.shop) = true.
Proof.
  refine (conj eq_refl (conj _ _)).
  - destruct (coupon_code_case_and_blanks Sample.at_noon " Welcome10 " 139
                Sample.shop eq_refl) as (H & _).
    exact H.
  - vm_compute. reflexivity.
Defined.

(** *** What a successful checkout leaves behind *)

Local Open Scope Q_scope.

(** The order [place_order] persists, field by field, and the tables
    around it. *)
Lemma place_order_success clk rp user_id nm ph addr pm cc cart sub dc disc tot s s' ep oid msg :
  Routes.place_order clk rp user_id nm ph addr pm cc cart sub dc disc tot s
    = (s', Routes.Redirect ep (Some oid) msg) ->
  let w := Session.working s in
  let d' := Session.committed s' in
  oid = (Db.order_seq w + 1)%Z /\
  Db.order_number_taken ("BC" ++ rp) w = false /\
  Db.users d' = Db.users w /\ Db.menu_items d' = Db.menu_items w /\
  Db.promotions d' = Db.promotions w /\ Db.settings d' = Db.settings w /\
  Db.order_seq d' = oid /\
  Db.order_items d' = (Db.order_items w ++ List.map (Routes.order_item_of oid) cart)%list /\
  Db.cart_items d' =
    match user_id with
    | Some uid => if Py.truthy_int user_id
                  then List.filter (fun c => negb (CartItem.user_id c =? uid)%Z)
                                   (Db.cart_items w)
                  else Db.cart_items w
    | None => Db.cart_items w
    end /\
  (forall k, k <> oid -> Db.orders d' !! k = Db.orders w !! k) /\
  exists o, Db.orders d' !! oid = Some o /\
    Order.status o = "pending"%string /\
    Order.delivery_person_id o = None /\ Order.delivery_time o = None /\
    Order.order_number o = ("BC" ++ rp)%string /\
    Order.created_at o = ist_now clk /\
    Order.payment_method o = pm /\
    Order.coupon_code o = (if Py.truthy_str cc then Some cc else None) /\
    (if String.eqb pm "upi"
     then Order.payment_status o = "pending"%string /\ Order.confirmed_at o = None /\
          ep = "upi_payment"%string
     else Order.payment_status o = "confirmed"%string /\
          Order.confirmed_at o = Some (utc_now clk) /\
          ep = "order_confirmation"%string).
Proof.
  unfold Routes.place_order. cbv zeta.
  destruct user_id as [uid|]; [destruct (Py.truthy_int (Some uid))|];
    cbn [negb Order.order_number Order.set_guest Order.generate_order_number];
    (destruct (Db.order_number_taken _ _) eqn:Htaken; [discriminate|]);
    (destruct (String.eqb pm "upi") eqn:Hpm; intros [= <- <- <- <-]; simpl;
     (split; [reflexivity|]); (split; [first [exact Htaken | reflexivity]|]);
     do 7 (split; [reflexivity|]);
     (split; [intros k Hk; rewrite ?lookup_insert_ne by congruence; reflexivity|]);
     eexists; (split; [apply lookup_insert_eq|]); simpl;
     repeat split; reflexivity).
Qed.

(** A checkout that answers with an order id passed every gate of the
    route and ended in [place_order]. *)
Lemma process_checkout_success clk rp su form d d' ep oid msg :
  Routes.process_checkout clk rp su form d = (d', Routes.Redirect ep (Some oid) msg) ->
  exists uid disc s1 s2,
    let cart := Utils.get_cart_items uid d in
    let subtotal := Py.sum (List.map Utils.total cart) in
    let dc := Utils.calculate_delivery_charges subtotal in
    su = Some uid /\ Py.truthy_int (Some uid) = true /\
    Utils.is_store_open d = true /\ cart <> [] /\
    Routes.checkout_coupon clk (Py.strip (Routes.f_coupon_code form)) subtotal
      (Session.start d) = Some (disc, s1) /\
    Routes.place_order clk rp (Some uid)
      (Py.strip (Routes.f_customer_name form))
      (Py.strip (Routes.f_customer_phone form))
      (Py.strip (Routes.f_customer_address form))
      (Routes.f_payment_method form) (Py.strip (Routes.f_coupon_code form))
      cart subtotal dc disc (subtotal + dc - disc) s1
      = (s2, Routes.Redirect ep (Some oid) msg) /\
    d' = Session.committed s2.
Proof.
  unfold Routes.process_checkout. cbv zeta.
  change (Session.working (Session.start d)) with d.
  destruct (Utils.is_store_open d); simpl negb; cbv iota; [|discriminate].
  destruct (negb (_ && _ && _)); [discriminate|].
  destruct (negb (Utils.validate_phone _)); [discriminate|].
  destruct su as [uid|]; [|discriminate].
  destruct (Py.truthy_int (Some uid)) eqn:Ht; [|discriminate].
  destruct (Utils.get_cart_items uid d) as [|row rows] eqn:Hcart; [discriminate|].
  destruct (Routes.checkout_coupon _ _ _ _) as [[disc s1]|] eqn:Hcoupon;
    [|discriminate].
  destruct (Routes.place_order _ _ _ _ _ _ _ _ _ _ _ _ _ _) as [s2 r] eqn:Hplace.
  intros [= <- ->].
  exists uid, disc, s1, s2. cbv zeta. rewrite Hcart.
  repeat split; try assumption; try reflexivity. discriminate.
Qed.

Lemma get_cart_items_of_session (uid : Z) (d : Db.t) :
  Py.truthy_int (Some uid) = true ->
  Utils.get_cart_items_of None (Some uid) d = Utils.get_cart_items uid d.
Proof.
  intros H. unfold Utils.get_cart_items_of.
  change (Py.truthy_int None) with false. cbv beta iota zeta delta [negb].
  now rewrite H.
Qed.

(** X2.  The checkout page shows what the order will cost: when
    [process_checkout] creates an order from a cart and a coupon field
    that is not made of blanks only, the page [checkout] renders for the
    same cart and coupon carries the order's subtotal, delivery charge,
    discount and total. *)
Theorem checkout_page_matches_order clk rp uid form d d' ep oid msg o :
  Routes.process_checkout clk rp (Some uid) form d
    = (d', Routes.Redirect ep (Some oid) msg) ->
  Db.orders d' !! oid = Some o ->
  Py.truthy_str (Py.strip (Routes.f_coupon_code form))
    = Py.truthy_str (Routes.f_coupon_code form) ->
  exists v,
    Routes.checkout clk (Some uid) (Some (Routes.f_coupon_code form)) d
      = Routes.Rendered "checkout.html" None v /\
    Routes.v_subtotal v = Order.subtotal o /\
    Routes.v_delivery_charges v = Order.delivery_charges o /\
    Routes.v_discount v = Order.discount o /\
    Routes.v_total v = Order.total_amount o.
Proof.
  intros Hco Ho Hblank.
  destruct (process_checkout_success _ _ _ _ _ _ _ _ _ Hco)
    as (uid' & disc & s1 & s2 & [= <-] & Ht & Hopen & Hcart & Hcoupon & _ & _).
  apply process_checkout_created in Hco
    as (uid' & disc' & s1' & o' & [= <-] & Hcoupon' & Ho' & H1 & H2 & H3 & H4 & _).
  rewrite Ho in Ho'. injection Ho' as <-.
  rewrite Hcoupon in Hcoupon'. injection Hcoupon' as <- <-.
  unfold Routes.checkout. rewrite get_cart_items_of_session by exact Ht.
  destruct (Utils.get_cart_items uid d) as [|row rows] eqn:Ec; [now destruct Hcart|].
  rewrite Hopen. simpl negb. cbv iota zeta.
  eexists. split; [reflexivity|].
  cbn [Routes.v_subtotal Routes.v_delivery_charges Routes.v_discount Routes.v_total].
  assert (Hd : (if Py.truthy_str (Routes.f_coupon_code form)
                then Utils.apply_coupon clk (Routes.f_coupon_code form)
                       (Py.sum (List.map Utils.total (row :: rows))) d
                else 0%Q) = disc).
  { apply checkout_coupon_effect in Hcoupon as (_ & _ & _ & _ & _ & Hno & Hyes).
    rewrite <- Hblank.
    destruct (Py.truthy_str (Py.strip (Routes.f_coupon_code form))) eqn:E.
    - destruct (Hyes eq_refl) as (p & Hfind & Hv & Hmin & -> & _).
      rewrite normalised_code in Hfind.
      unfold Utils.apply_coupon. rewrite <- Hblank, Hfind, Hv.
      apply Qltb_false in Hmin. rewrite Hmin. reflexivity.
    - symmetry. now apply Hno. }
  rewrite Hd, H1, H2, H3, H4. repeat split; reflexivity.
Qed.

(** Customer 5 opens the checkout page with WELCOME10 and then places the
    order. *)
Lemma checkout_page_matches_order_witness :
  exists v o,
    Routes.checkout Sample.at_noon (Some 5%Z) (Some "welcome10"%string) Sample.shop
      = Routes.Rendered "checkout.html" None v /\
    Db.orders (fst (Routes.process_checkout Sample.at_noon "000007" (Some 5%Z)
                      (Sample.form_with "welcome10") Sample.shop)) !! 3%Z = Some o /\
    Routes.v_total v = Order.total_amount o.
Proof.
  destruct (Db.orders (fst (Routes.process_checkout Sample.at_noon "000007" (Some 5%Z)
                      (Sample.form_with "welcome10") Sample.shop)) !! 3%Z)
    as [o|] eqn:Ho; [|vm_compute in Ho; discriminate Ho].
  destruct (checkout_page_matches_order Sample.at_noon "000007" 5%Z
              (Sample.form_with "welcome10") Sample.shop _ _ _ _ _
              ltac:(vm_compute; reflexivity) Ho eq_refl)
    as (v & Hv & _ & _ & _ & Htot).
  exists v, o. exact (conj Hv (conj eq_refl Htot)).
Defined.

(** The coupon stage rewrites the promotions table and nothing else, and
    leaves nothing uncommitted. *)
Lemma checkout_coupon_tables clk cc sub d disc s1 :
  Routes.checkout_coupon clk cc sub (Session.start d) = Some (disc, s1) ->
  Session.committed s1 = Session.working s1 /\
  exists ps, Session.working s1 = Db.set_promotions ps d.
Proof.
  unfold Routes.checkout_coupon.
  destruct (Py.truthy_str cc).
  - change (Session.working (Session.start d)) with d.
    destruct (Db.find_promotion _ d) as [p|]; [|discriminate].
    destruct (_ && _); [|discriminate].
    intros [= <- <-]. split; [reflexivity|]. eexists. reflexivity.
  - intros [= <- <-]. split; [reflexivity|].
    exists (Db.promotions d). now destruct d.
Qed.

Lemma flat_map_filter_keep {A B} (F : A -> list B) (P : A -> bool) (l : list A) :
  (forall a, P a = false -> F a = []) ->
  flat_map F (List.filter P l) = flat_map F l.
Proof.
  intros H. induction l as [|a l IH]; simpl; [reflexivity|].
  destruct (P a) eqn:E; simpl; rewrite IH; [reflexivity|].
  now rewrite (H a E).
Qed.

Lemma flat_map_filter_drop {A B} (F : A -> list B) (P : A -> bool) (l : list A) :
  (forall a, P a = true -> F a = []) ->
  flat_map F (List.filter P l) = [].
Proof.
  intros H. induction l as [|a l IH]; simpl; [reflexivity|].
  destruct (P a) eqn:E; simpl; [|exact IH].
  now rewrite (H a E), IH.
Qed.

(** A user's cart rows after the rows of user [uid] were deleted. *)
Lemma get_cart_items_after_delete (u uid : Z) (d d' : Db.t) :
  Db.menu_items d' = Db.menu_items d ->
  Db.cart_items d'
    = List.filter (fun c => negb (CartItem.user_id c =? uid)%Z) (Db.cart_items d) ->
  Utils.get_cart_items u d' = if (u =? uid)%Z then [] else Utils.get_cart_items u d.
Proof.
  intros Hm Hc. unfold Utils.get_cart_items. rewrite Hm, Hc.
  destruct (Z.eqb_spec u uid) as [->|Hne].
  - apply flat_map_filter_drop. intros c Hc'.
    apply negb_true_iff in Hc'. now rewrite Hc'.
  - apply flat_map_filter_keep. intros c Hc'.
    apply negb_false_iff, Z.eqb_eq in Hc'.
    destruct (Z.eqb_spec (CartItem.user_id c) u); [congruence | reflexivity].
Qed.

(** X3.  A successful checkout turns the cart into the order's items: the
    order gets the next order id, one item per cart row is appended to
    the order items, their prices add up to the order's subtotal (the
    total the cart showed), the customer's cart is emptied and nobody
    else's cart, no user and no menu item is touched. *)
Theorem checkout_snapshots_cart clk rp su form d d' ep oid msg :
  Routes.process_checkout clk rp su form d = (d', Routes.Redirect ep (Some oid) msg) ->
  exists uid o,
    let cart := Utils.get_cart_items uid d in
    su = Some uid /\ Db.orders d' !! oid = Some o /\
    oid = (Db.order_seq d + 1)%Z /\
    Db.order_items d' = (Db.order_items d ++ List.map (Routes.order_item_of oid) cart)%list /\
    Py.sum (List.map OrderItem.total_price (List.map (Routes.order_item_of oid) cart))
      = Order.subtotal o /\
    Order.subtotal o = Utils.get_cart_total None su d /\
    Utils.get_cart_items uid d' = [] /\
    (forall u, u <> uid -> Utils.get_cart_items u d' = Utils.get_cart_items u d) /\
    Db.users d' = Db.users d /\ Db.menu_items d' = Db.menu_items d.
Proof.
  intros Hco.
  destruct (process_checkout_success _ _ _ _ _ _ _ _ _ Hco)
    as (uid & disc & s1 & s2 & -> & Ht & _ & _ & Hcoupon & Hplace & ->).
  apply process_checkout_created in Hco
    as (uid' & disc' & s1' & o & [= <-] & _ & Ho & H1 & _).
  apply checkout_coupon_tables in Hcoupon as (_ & ps & Hw).
  apply place_order_success in Hplace
    as (Hoid & _ & Hu & Hm & _ & _ & _ & Hitems & Hcart & _).
  rewrite Ht, Hw in *. simpl in Hu, Hm, Hitems, Hcart, Hoid.
  exists uid, o. cbv zeta.
  refine (conj eq_refl (conj Ho (conj Hoid (conj Hitems
            (conj _ (conj _ (conj _ (conj _ (conj Hu Hm))))))))).
  - rewrite H1, List.map_map. reflexivity.
  - rewrite H1. unfold Utils.get_cart_total.
    now rewrite get_cart_items_of_session.
  - rewrite (get_cart_items_after_delete uid uid d _ Hm Hcart).
    now rewrite Z.eqb_refl.
  - intros u Hne. rewrite (get_cart_items_after_delete u uid d _ Hm Hcart).
    destruct (Z.eqb_spec u uid); [contradiction | reflexivity].
Qed.

(** Customer 1 checks out two plates of biryani. *)
Lemma checkout_snapshots_cart_witness :
  exists o,
    Db.orders (fst (Routes.process_checkout Sample.at_noon "000007" (Some 1%Z)
                      (Sample.form_with "") Sample.shop)) !! 3%Z = Some o /\
    Order.subtotal o = Utils.get_cart_total None (Some 1%Z) Sample.shop /\
    Utils.get_cart_items 5%Z
      (fst (Routes.process_checkout Sample.at_noon "000007" (Some 1%Z)
              (Sample.form_with "") Sample.shop))
    = Utils.get_cart_items 5%Z Sample.shop.
Proof.
  destruct (checkout_snapshots_cart Sample.at_noon "000007" (Some 1%Z)
              (Sample.form_with "") Sample.shop _ _ _ _
              ltac:(vm_compute; reflexivity))
    as (uid & o & [= <-] & Ho & _ & _ & _ & Hs & _ & Hother & _).
  exists o. refine (conj Ho (conj Hs _)). apply Hother. discriminate.
Defined.

Lemma order_number_taken_false (n : string) (d : Db.t) :
  Db.order_number_taken n d = false ->
  forall k o, Db.orders d !! k = Some o -> Order.order_number o <> n.
Proof.
  unfold Db.order_number_taken. intros H k o Hk E.
  apply not_true_iff_false in H. apply H.
  apply existsb_exists. exists (k, o). split.
  - apply list_elem_of_In, elem_of_map_to_list. exact Hk.
  - simpl. now apply String.eqb_eq.
Qed.

(** X4.  A new order starts its life pending and unassigned, under an order
    number no earlier order has.  Paying changes the payment status only:
    a cash order is created with its payment confirmed, a UPI order with
    its payment pending until [confirm_payment], and neither step moves
    the order out of the pending status. *)
Theorem new_order_is_pending clk clk' rp su form d d' ep oid msg :
  Routes.process_checkout clk rp su form d = (d', Routes.Redirect ep (Some oid) msg) ->
  exists o,
    Db.orders d' !! oid = Some o /\
    Order.status o = "pending"%string /\
    Order.delivery_person_id o = None /\
    Order.order_number o = ("BC" ++ rp)%string /\
    (forall k o0, Db.orders d !! k = Some o0 ->
                  Order.order_number o0 <> Order.order_number o) /\
    (Routes.f_payment_method form <> "upi"%string ->
     ep = "order_confirmation"%string /\
     Order.payment_status o = "confirmed"%string /\
     Order.confirmed_at o = Some (utc_now clk)) /\
    (Routes.f_payment_method form = "upi"%string ->
     ep = "upi_payment"%string /\
     Order.payment_status o = "pending"%string /\ Order.confirmed_at o = None /\
     exists o',
       Db.orders (fst (Routes.confirm_payment clk' oid d')) !! oid = Some o' /\
       Order.payment_status o' = "confirmed"%string /\
       Order.confirmed_at o' = Some (utc_now clk') /\
       Order.status o' = "pending"%string /\
       Order.total_amount o' = Order.total_amount o).
Proof.
  intros Hco.
  destruct (process_checkout_success _ _ _ _ _ _ _ _ _ Hco)
    as (uid & disc & s1 & s2 & -> & _ & _ & _ & Hcoupon & Hplace & ->).
  apply checkout_coupon_tables in Hcoupon as (_ & ps & Hw).
  apply place_order_success in Hplace
    as (_ & Hfresh & _ & _ & _ & _ & _ & _ & _ & _ & o & Ho & Hst & Hdp & _ & Hno & _ & Hpm & _ & Hpay).
  exists o. rewrite Hno.
  refine (conj Ho (conj Hst (conj Hdp (conj eq_refl (conj _ (conj _ _)))))).
  - intros k o0 Hk. apply (order_number_taken_false _ _ Hfresh k o0).
    rewrite Hw. exact Hk.
  - intros Hne. apply String.eqb_neq in Hne. rewrite Hne in Hpay.
    destruct Hpay as (H1 & H2 & H3). auto.
  - intros He. apply String.eqb_eq in He. rewrite He in Hpay.
    destruct Hpay as (H1 & H2 & H3).
    refine (conj H3 (conj H1 (conj H2 _))).
    unfold Routes.confirm_payment. rewrite Ho. simpl.
    eexists. split; [apply lookup_insert_eq|]. simpl. auto.
Qed.

(** Customer 1 orders with cash. *)
Lemma new_order_is_pending_witness :
  exists o,
    Db.orders (fst (Routes.process_checkout Sample.at_noon "000007" (Some 1%Z)
                      (Sample.form_with "") Sample.shop)) !! 3%Z = Some o /\
    Order.status o = "pending"%string /\
    Order.payment_status o = "confirmed"%string.
Proof.
  destruct (new_order_is_pending Sample.at_noon Sample.at_noon "000007" (Some 1%Z)
              (Sample.form_with "") Sample.shop _ _ _ _
              ltac:(vm_compute; reflexivity))
    as (o & Ho & Hs & _ & _ & _ & Hcash & _).
  exists o. refine (conj Ho (conj Hs _)). apply Hcash. discriminate.
Defined.

(** *** Coupons at checkout *)

Local Open Scope Z_scope.

Lemma place_order_promotions clk rp user_id nm ph addr pm cc cart sub dc disc tot s s' r :
  Session.committed s = Session.working s ->
  Routes.place_order clk rp user_id nm ph addr pm cc cart sub dc disc tot s = (s', r) ->
  Db.promotions (Session.committed s') = Db.promotions (Session.working s).
Proof.
  intros Hc. unfold Routes.place_order. cbv zeta.
  destruct (Db.order_number_taken _ _).
  - intros [= <- _]. simpl. now rewrite Hc.
  - destruct user_id as [uid|]; [destruct (Py.truthy_int (Some uid))|];
      (destruct (String.eqb pm "upi"); intros [= <- _]; reflexivity).
Qed.

(** The promotions table after any checkout: untouched, or with one use
    counted on a promotion that was valid. *)
Lemma process_checkout_promotions clk rp su form d :
  let d' := fst (Routes.process_checkout clk rp su form d) in
  Db.promotions d' = Db.promotions d \/
  exists c p, Db.find_promotion c d = Some p /\
    Promotion.is_valid (ist_now clk) p = true /\
    Db.promotions d' = Db.update_first c Promotion.use_promotion (Db.promotions d).
Proof.
  unfold Routes.process_checkout. cbv zeta.
  change (Session.committed (Session.start d)) with d.
  destruct (negb (Utils.is_store_open _)); [now left|].
  destruct (negb (_ && _ && _)); [now left|].
  destruct (negb (Utils.validate_phone _)); [now left|].
  destruct (match su with Some _ => _ | None => _ end) as [|row rows]; [now left|].
  destruct (Routes.checkout_coupon _ _ _ _) as [[disc s1]|] eqn:Hcoupon; [|now left].
  destruct (Routes.place_order _ _ _ _ _ _ _ _ _ _ _ _ _ _) as [s2 r] eqn:Hplace.
  simpl fst.
  destruct (checkout_coupon_tables _ _ _ _ _ _ Hcoupon) as (Hc & _).
  rewrite (place_order_promotions _ _ _ _ _ _ _ _ _ _ _ _ _ _ _ _ Hc Hplace).
  revert Hcoupon. unfold Routes.checkout_coupon.
  destruct (Py.truthy_str _).
  - change (Session.working (Session.start d)) with d.
    destruct (Db.find_promotion _ d) as [p|] eqn:Hfind; [|discriminate].
    destruct (Promotion.is_valid _ p) eqn:Hv; [|discriminate].
    destruct (Py.Qgeb _ _); [|discriminate].
    intros [= _ <-]. right. eexists _, p. eauto.
  - intros [= _ <-]. now left.
Qed.

Lemma Forall_update_first (P : Promotion.t -> Prop) c f l p :
  Forall P l ->
  List.find (fun q => String.eqb (Promotion.code q) c) l = Some p ->
  P (f p) ->
  Forall P (Db.update_first c f l).
Proof.
  intros Hl. induction Hl as [|q l Hq Hl IH]; simpl; [discriminate|].
  destruct (String.eqb (Promotion.code q) c).
  - intros [= ->] Hp. now constructor.
  - intros Hfind Hp. constructor; auto.
Qed.

(** X5.  Checkouts served one after the other never push a promotion past its
    usage limit: whatever a checkout answers, if no promotion had been
    used more often than its (non-zero) limit before, none has after. *)
Theorem checkout_respects_usage_limits clk rp su form d :
  Routes.limits_respected d ->
  Routes.limits_respected (fst (Routes.process_checkout clk rp su form d)).
Proof.
  unfold Routes.limits_respected. intros Hd.
  destruct (process_checkout_promotions clk rp su form d)
    as [-> | (c & p & Hfind & Hv & ->)]; [exact Hd|].
  apply (Forall_update_first _ c _ _ p Hd Hfind).
  intros l Hl Hnz. simpl in *.
  unfold Promotion.is_valid in Hv.
  apply andb_true_iff in Hv as [_ Hv]. apply negb_true_iff in Hv.
  destruct (Z_lt_le_dec (Promotion.used_count p) l) as [H|H]; [lia|].
  exfalso. apply not_true_iff_false in Hv. apply Hv.
  apply is_usage_exceeded_true. exists l. auto.
Qed.

(** BIRYANI20, limited to 100 uses, after a checkout of customer 1. *)
Lemma checkout_respects_usage_limits_witness :
  Routes.limits_respected
    (fst (Routes.process_checkout Sample.at_noon "000007" (Some 1)
            (Sample.form_with "biryani20") Sample.shop)).
Proof.
  apply checkout_respects_usage_limits.
  unfold Routes.limits_respected. simpl.
  repeat constructor; intros l [= <-] _; simpl; lia.
Defined.



(** *** The cart *)

Lemma cart_row_match (uid item : Z) (c : CartItem.t) :
  (CartItem.user_id c =? uid) && (CartItem.menu_item_id c =? item) = true <->
  Routes.cart_key c = (uid, item).
Proof.
  unfold Routes.cart_key. rewrite andb_true_iff, !Z.eqb_eq.
  split; [intros [-> ->]; reflexivity | intros [= -> ->]; auto].
Qed.

Lemma update_cart_row_In (uid item : Z) f (l : list CartItem.t) (k : Z * Z) :
  (forall c c', f c = Some c' -> Routes.cart_key c' = Routes.cart_key c) ->
  In k (List.map Routes.cart_key (Db.update_cart_row uid item f l)) ->
  In k (List.map Routes.cart_key l).
Proof.
  intros Hf. induction l as [|c r IH]; simpl; [auto|].
  destruct (_ && _).
  - destruct (f c) as [c'|] eqn:E; simpl.
    + rewrite (Hf _ _ E). auto.
    + auto.
  - simpl. intros [H|H]; auto.
Qed.

Lemma update_cart_row_NoDup (uid item : Z) f (l : list CartItem.t) :
  (forall c c', f c = Some c' -> Routes.cart_key c' = Routes.cart_key c) ->
  List.NoDup (List.map Routes.cart_key l) ->
  List.NoDup (List.map Routes.cart_key (Db.update_cart_row uid item f l)).
Proof.
  intros Hf. induction l as [|c r IH]; simpl; [auto|].
  intros H. apply List.NoDup_cons_iff in H as [Hc Hr].
  destruct (_ && _).
  - destruct (f c) as [c'|] eqn:E; simpl; [|exact Hr].
    apply List.NoDup_cons_iff. now rewrite (Hf _ _ E).
  - simpl. apply List.NoDup_cons_iff. split; [|auto].
    intros Hin. apply Hc. eapply update_cart_row_In; eauto.
Qed.

Lemma update_cart_row_Forall (P : CartItem.t -> Prop) (uid item : Z) f
    (l : list CartItem.t) :
  (forall c c', P c -> f c = Some c' -> P c') ->
  List.Forall P l -> List.Forall P (Db.update_cart_row uid item f l).
Proof.
  intros Hf Hl. induction Hl as [|c r Hc Hr IH]; simpl; [constructor|].
  destruct (_ && _).
  - destruct (f c) as [c'|] eqn:E; [constructor; eauto | exact Hr].
  - constructor; auto.
Qed.

Lemma find_cart_item_None (uid item : Z) (d : Db.t) :
  Db.find_cart_item uid item d = None ->
  ~ In (uid, item) (List.map Routes.cart_key (Db.cart_items d)).
Proof.
  unfold Db.find_cart_item. intros H Hin.
  apply List.in_map_iff in Hin as (c & Hk & Hc).
  apply (List.find_none _ _ H) in Hc.
  apply cart_row_match in Hk. simpl in Hc. congruence.
Qed.

Lemma filter_NoDup_map {A B} (g : A -> B) (P : A -> bool) (l : list A) :
  List.NoDup (List.map g l) -> List.NoDup (List.map g (List.filter P l)).
Proof.
  induction l as [|a l IH]; simpl; [auto|].
  intros H. apply List.NoDup_cons_iff in H as [Ha Hl].
  destruct (P a); simpl; [|auto].
  apply List.NoDup_cons_iff. split; [|auto].
  intros Hin. apply Ha. apply List.in_map_iff in Hin as (x & Hx & Hin).
  apply List.in_map_iff. exists x. split; [exact Hx|].
  now apply List.filter_In in Hin.
Qed.

Lemma cart_ok_filter (P : CartItem.t -> bool) (d : Db.t) :
  Routes.cart_ok d ->
  Routes.cart_ok (Db.set_cart_items (List.filter P (Db.cart_items d)) d).
Proof.
  intros [Hq Hk]. split; simpl.
  - apply List.Forall_forall. intros c Hc. apply List.filter_In in Hc as [Hc _].
    revert c Hc. now apply List.Forall_forall.
  - now apply filter_NoDup_map.
Qed.

Lemma add_to_cart_ok su item q d :
  Routes.cart_ok d -> Routes.cart_ok (fst (Routes.add_to_cart su item q d)).
Proof.
  intros Hd. unfold Routes.add_to_cart.
  destruct su as [uid|]; [|exact Hd].
  destruct (negb (Utils.is_store_open d)); [exact Hd|].
  destruct (Z.ltb_spec q 1) as [?|Hlo]; [exact Hd|].
  destruct (Z.gtb_spec q 10) as [?|Hhi]; [exact Hd|]. simpl.
  destruct (Db.menu_items d !! item) as [m|]; [|exact Hd].
  destruct (negb (MenuItem.in_stock m)); [exact Hd|]. simpl.
  destruct Hd as [Hq Hk].
  destruct (Db.find_cart_item uid item d) eqn:Hfind; split; simpl.
  - apply update_cart_row_Forall; [|exact Hq].
    intros c c' Hc [= <-]. simpl.
    destruct (Z.gtb_spec (CartItem.quantity c + q) 10); lia.
  - apply update_cart_row_NoDup; [|exact Hk]. now intros c c' [= <-].
  - apply List.Forall_app. split; [exact Hq|]. repeat constructor; simpl; lia.
  - rewrite List.map_app. simpl. apply List.NoDup_app; [exact Hk | | ].
    + repeat constructor. simpl. tauto.
    + intros k Hin [<-|[]]. now apply (find_cart_item_None _ _ _ Hfind).
Qed.

Lemma update_cart_ok su item q d :
  Routes.cart_ok d -> Routes.cart_ok (fst (Routes.update_cart su item q d)).
Proof.
  intros Hd. unfold Routes.update_cart.
  destruct su as [uid|]; [|exact Hd].
  destruct (Db.find_cart_item uid item d); [|exact Hd].
  destruct Hd as [Hq Hk].
  destruct (Z.leb_spec q 0); split; simpl.
  - apply update_cart_row_Forall; [discriminate | exact Hq].
  - apply update_cart_row_NoDup; [discriminate | exact Hk].
  - apply update_cart_row_Forall; [|exact Hq].
    intros c c' _ [= <-]. simpl. lia.
  - apply update_cart_row_NoDup; [|exact Hk]. now intros c c' [= <-].
Qed.

Lemma clear_cart_ok su d :
  Routes.cart_ok d -> Routes.cart_ok (fst (Routes.clear_cart su d)).
Proof.
  intros Hd. destruct su as [uid|]; [|exact Hd].
  simpl. now apply cart_ok_filter.
Qed.

Lemma place_order_cart clk rp user_id nm ph addr pm cc cart sub dc disc tot s s' r :
  Session.committed s = Session.working s ->
  Routes.place_order clk rp user_id nm ph addr pm cc cart sub dc disc tot s = (s', r) ->
  Db.cart_items (Session.committed s') = Db.cart_items (Session.working s) \/
  exists uid, Db.cart_items (Session.committed s')
              = List.filter (fun c => negb (CartItem.user_id c =? uid))
                            (Db.cart_items (Session.working s)).
Proof.
  intros Hc. unfold Routes.place_order. cbv zeta.
  destruct (Db.order_number_taken _ _).
  - intros [= <- _]. left. simpl. now rewrite Hc.
  - destruct user_id as [uid|]; [destruct (Py.truthy_int (Some uid))|];
      (destruct (String.eqb pm "upi"); intros [= <- _]; simpl; eauto).
Qed.

Lemma process_checkout_cart_ok clk rp su form d :
  Routes.cart_ok d -> Routes.cart_ok (fst (Routes.process_checkout clk rp su form d)).
Proof.
  intros Hd. unfold Routes.process_checkout. cbv zeta.
  change (Session.committed (Session.start d)) with d.
  destruct (negb (Utils.is_store_open _)); [exact Hd|].
  destruct (negb (_ && _ && _)); [exact Hd|].
  destruct (negb (Utils.validate_phone _)); [exact Hd|].
  destruct (match su with Some _ => _ | None => _ end) as [|row rows]; [exact Hd|].
  destruct (Routes.checkout_coupon _ _ _ _) as [[disc s1]|] eqn:Hcoupon; [|exact Hd].
  destruct (Routes.place_order _ _ _ _ _ _ _ _ _ _ _ _ _ _) as [s2 r] eqn:Hplace.
  simpl fst.
  destruct (checkout_coupon_tables _ _ _ _ _ _ Hcoupon) as (Hc & ps & Hw).
  destruct (place_order_cart _ _ _ _ _ _ _ _ _ _ _ _ _ _ _ _ Hc Hplace)
    as [E | (uid & E)]; rewrite Hw in E; simpl in E;
    unfold Routes.cart_ok; rewrite E.
  - exact Hd.
  - apply (cart_ok_filter _ d Hd).
Qed.

(** X7.  The cart stays well formed: from a cart in which every quantity lies
    in 1..10 and no user has two rows for one menu item, no sequence of
    add, update and clear requests and no checkout leads to a cart that
    breaks either rule. *)
Theorem cart_stays_well_formed (d : Db.t) :
  Routes.cart_ok d ->
  (forall rs, Routes.cart_ok (Routes.serve_cart rs d)) /\
  (forall clk rp su form,
     Routes.cart_ok (fst (Routes.process_checkout clk rp su form d))).
Proof.
  intros Hd. split; [|intros; now apply process_checkout_cart_ok].
  intros rs. revert d Hd. unfold Routes.serve_cart.
  induction rs as [|r rs IH]; intros d Hd; simpl; [exact Hd|].
  apply IH. destruct r; unfold Routes.handle_cart;
    [apply add_to_cart_ok | apply update_cart_ok | apply clear_cart_ok]; exact Hd.
Qed.

(** Customer 1 adds nine more plates, then asks for 25 dal makhni. *)
Lemma cart_stays_well_formed_witness :
  Routes.cart_ok
    (Routes.serve_cart [Routes.AddToCart 1 1 9; Routes.AddToCart 1 2 3;
                        Routes.UpdateCart 1 2 25] Sample.shop).
Proof.
  apply cart_stays_well_formed.
  split; simpl.
  - repeat constructor; simpl; lia.
  - repeat constructor; simpl; [intros [H|[]]; discriminate H | tauto].
Defined.

Lemma find_update_cart_row_same (uid item : Z) f (l : list CartItem.t) c c' :
  List.find (fun x => (CartItem.user_id x =? uid) && (CartItem.menu_item_id x =? item)) l
    = Some c ->
  f c = Some c' -> Routes.cart_key c' = Routes.cart_key c ->
  List.find (fun x => (CartItem.user_id x =? uid) && (CartItem.menu_item_id x =? item))
            (Db.update_cart_row uid item f l) = Some c'.
Proof.
  intros Hfind Hf Hk. induction l as [|x r IH]; simpl in *; [discriminate|].
  destruct (_ && _) eqn:E.
  - injection Hfind as ->. rewrite Hf. simpl.
    apply cart_row_match in E. rewrite <- Hk in E.
    apply cart_row_match in E. now rewrite E.
  - simpl. rewrite E. auto.
Qed.

Lemma find_update_cart_row_other (uid item u i : Z) f (l : list CartItem.t) :
  (u, i) <> (uid, item) ->
  (forall c c', f c = Some c' -> Routes.cart_key c' = Routes.cart_key c) ->
  List.find (fun x => (CartItem.user_id x =? u) && (CartItem.menu_item_id x =? i))
            (Db.update_cart_row uid item f l)
  = List.find (fun x => (CartItem.user_id x =? u) && (CartItem.menu_item_id x =? i)) l.
Proof.
  intros Hne Hf. induction l as [|x r IH]; simpl; [reflexivity|].
  destruct ((CartItem.user_id x =? uid) && (CartItem.menu_item_id x =? item)) eqn:E.
  - apply cart_row_match in E.
    assert (Hx : (CartItem.user_id x =? u) && (CartItem.menu_item_id x =? i) = false).
    { apply not_true_iff_false. intros H. apply cart_row_match in H. congruence. }
    rewrite Hx. destruct (f x) as [c'|] eqn:Efx; [|reflexivity].
    simpl.
    assert (Hc' : (CartItem.user_id c' =? u) && (CartItem.menu_item_id c' =? i) = false).
    { apply not_true_iff_false. intros H. apply cart_row_match in H.
      rewrite (Hf _ _ Efx) in H. congruence. }
    now rewrite Hc'.
  - simpl. now rewrite IH.
Qed.

Lemma find_update_cart_row_deleted (uid item : Z) (l : list CartItem.t) :
  List.NoDup (List.map Routes.cart_key l) ->
  List.find (fun x => (CartItem.user_id x =? uid) && (CartItem.menu_item_id x =? item))
            (Db.update_cart_row uid item (fun _ => None) l) = None.
Proof.
  induction l as [|x r IH]; simpl; [reflexivity|].
  intros H. apply List.NoDup_cons_iff in H as [Hx Hr].
  destruct (_ && _) eqn:E.
  - apply cart_row_match in E.
    destruct (List.find _ r) as [y|] eqn:Hy; [|reflexivity].
    exfalso. apply Hx. apply List.find_some in Hy as [Hin Hm].
    apply cart_row_match in Hm. apply List.in_map_iff. exists y.
    split; [congruence | exact Hin].
  - simpl. rewrite E. auto.
Qed.

Lemma find_app_one {A} (P : A -> bool) (l : list A) (a : A) :
  List.find P (l ++ [a])
  = match List.find P l with
    | Some x => Some x
    | None => if P a then Some a else None
    end.
Proof.
  induction l as [|x r IH]; simpl; [reflexivity|].
  destruct (P x); [reflexivity | exact IH].
Qed.

(** X8.  Adding to the cart merges and caps: when the store is open, the
    quantity is in 1..10 and the item is in stock, the user's quantity of
    that item becomes min(old + quantity, 10), with old = 0 for an item
    not yet in the cart, and no other cart entry changes. *)
Theorem add_to_cart_merges_and_caps (uid item q : Z) (d : Db.t) (m : MenuItem.t) :
  Utils.is_store_open d = true -> 1 <= q <= 10 ->
  Db.menu_items d !! item = Some m -> MenuItem.in_stock m = true ->
  let d' := fst (Routes.add_to_cart (Some uid) item q d) in
  Routes.cart_quantity uid item d' = Z.min (Routes.cart_quantity uid item d + q) 10 /\
  (forall u i, (u, i) <> (uid, item) ->
     Routes.cart_quantity u i d' = Routes.cart_quantity u i d) /\
  snd (Routes.add_to_cart (Some uid) item q d)
    = Routes.Redirect "menu" None
        (Some (MenuItem.name m ++ " added to cart!", "success")%string).
Proof.
  intros Hopen Hq Hm Hstock d'. subst d'.
  unfold Routes.add_to_cart. rewrite Hopen, Hm, Hstock. simpl negb. cbv iota.
  destruct (Z.ltb_spec q 1) as [?|_]; [lia|].
  destruct (Z.gtb_spec q 10) as [?|_]; [lia|]. simpl orb. cbv iota.
  unfold Routes.cart_quantity, Db.find_cart_item.
  destruct (List.find _ (Db.cart_items d)) as [c|] eqn:Hfind; simpl.
  - refine (conj _ (conj _ eq_refl)).
    + erewrite find_update_cart_row_same; [|exact Hfind|reflexivity|reflexivity].
      simpl. destruct (Z.gtb_spec (CartItem.quantity c + q) 10); lia.
    + intros u i Hne.
      rewrite find_update_cart_row_other; [reflexivity | exact Hne|].
      now intros x x' [= <-].
  - refine (conj _ (conj _ eq_refl)).
    + rewrite find_app_one, Hfind. simpl. rewrite !Z.eqb_refl. simpl. lia.
    + intros u i Hne. rewrite find_app_one. simpl.
      destruct (List.find (fun c => (CartItem.user_id c =? u) && _) (Db.cart_items d));
        [reflexivity|].
      destruct ((uid =? u) && (item =? i)) eqn:E; [|reflexivity].
      apply andb_true_iff in E as [E1 E2]. apply Z.eqb_eq in E1, E2. congruence.
Qed.

(** Customer 1, with two plates in the cart, adds nine more. *)
Lemma add_to_cart_merges_and_caps_witness :
  Routes.cart_quantity 1 1 (fst (Routes.add_to_cart (Some 1) 1 9 Sample.shop)) = 10.
Proof.
  destruct (add_to_cart_merges_and_caps 1 1 9 Sample.shop
              (MenuItem.mk 1 "Chicken Biryani" 125 true)
              eq_refl ltac:(lia) ltac:(vm_compute; reflexivity) eq_refl) as (H & _).
  rewrite H. reflexivity.
Defined.

(** X9.  Updating a cart entry sets, caps or removes it: in a well-formed
    cart, a positive quantity replaces the entry's quantity by
    min(quantity, 10), a quantity of 0 or less removes the entry, other
    entries stay as they are, and a request for an item that is not in
    the cart changes nothing. *)
Theorem update_cart_sets_or_removes (uid item q : Z) (d : Db.t) :
  Routes.cart_ok d ->
  let d' := fst (Routes.update_cart (Some uid) item q d) in
  (Db.find_cart_item uid item d = None -> d' = d) /\
  (Db.find_cart_item uid item d <> None ->
   (0 < q -> Routes.cart_quantity uid item d' = Z.min q 10) /\
   (q <= 0 -> Db.find_cart_item uid item d' = None)) /\
  (forall u i, (u, i) <> (uid, item) ->
     Db.find_cart_item u i d' = Db.find_cart_item u i d).
Proof.
  intros [_ Hk] d'. subst d'. unfold Routes.update_cart.
  destruct (Db.find_cart_item uid item d) as [c|] eqn:Hfind.
  - refine (conj _ (conj _ _)); [discriminate | intros _ | ].
    + unfold Db.find_cart_item in Hfind. split; intros Hq.
      * destruct (Z.leb_spec q 0); [lia|].
        unfold Routes.cart_quantity, Db.find_cart_item. simpl.
        erewrite find_update_cart_row_same; [|exact Hfind|reflexivity|reflexivity].
        reflexivity.
      * destruct (Z.leb_spec q 0); [|lia].
        unfold Db.find_cart_item. simpl.
        now apply find_update_cart_row_deleted.
    + intros u i Hne. unfold Db.find_cart_item.
      destruct (q <=? 0); simpl;
        (rewrite find_update_cart_row_other; [reflexivity | exact Hne|]);
        [discriminate | now intros x x' [= <-]].
  - refine (conj _ (conj _ _)); [reflexivity | congruence | reflexivity].
Qed.

(** Customer 5 asks for 25 dal makhni and gets ten; customer 1 sets the
    biryani to 0 and loses the entry. *)
Lemma update_cart_sets_or_removes_witness :
  Routes.cart_quantity 5 2 (fst (Routes.update_cart (Some 5) 2 25 Sample.shop)) = 10 /\
  Db.find_cart_item 1 1 (fst (Routes.update_cart (Some 1) 1 0 Sample.shop)) = None.
Proof.
  assert (Hok : Routes.cart_ok Sample.shop).
  { split; simpl.
    - repeat constructor; simpl; lia.
    - repeat constructor; simpl; [intros [H|[]]; discriminate H | tauto]. }
  split.
  - destruct (update_cart_sets_or_removes 5 2 25 Sample.shop Hok) as (_ & H & _).
    destruct H as [H _]; [discriminate|]. rewrite H by lia. reflexivity.
  - destruct (update_cart_sets_or_removes 1 1 0 Sample.shop Hok) as (_ & H & _).
    destruct H as [_ H]; [discriminate|]. apply H. lia.
Defined.

(** *** The store switch *)

Lemma is_store_open_set (v : string) (d : Db.t) :
  Utils.is_store_open (StoreSettings.set_setting "store_open" v d)
  = Py.truthy_str v && String.eqb (Py.lower v) "true".
Proof.
  unfold Utils.is_store_open, StoreSettings.set_setting. simpl.
  now rewrite lookup_insert_eq.
Qed.

(** X10.  The admin's switch flips the store: after [toggle_store] by an admin
    an open store is closed and a closed one open, so two toggles restore
    the state, and users, menu, carts, orders and promotions are left
    alone.  A request by anyone else changes nothing. *)
Theorem toggle_store_flips (su : option Z) (d : Db.t) :
  let d' := fst (Routes.toggle_store su d) in
  ((exists u, Routes.get_current_user su d = Some u /\ User.is_admin u = true) ->
   Utils.is_store_open d' = negb (Utils.is_store_open d) /\
   Utils.is_store_open (fst (Routes.toggle_store su d')) = Utils.is_store_open d /\
   Db.users d' = Db.users d /\ Db.menu_items d' = Db.menu_items d /\
   Db.cart_items d' = Db.cart_items d /\ Db.orders d' = Db.orders d /\
   Db.promotions d' = Db.promotions d) /\
  ((forall u, Routes.get_current_user su d = Some u -> User.is_admin u = false) ->
   d' = d).
Proof.
  cbv zeta. split.
  - intros (u & Hu & Ha).
    assert (Hstep : forall e, Db.users e = Db.users d ->
              fst (Routes.toggle_store su e)
              = StoreSettings.set_setting "store_open"
                  (if Utils.is_store_open e then "false" else "true") e).
    { intros e He. unfold Routes.toggle_store, Routes.get_current_user in *.
      destruct su as [uid|]; [|discriminate].
      rewrite He, Hu, Ha. reflexivity. }
    rewrite (Hstep d eq_refl).
    assert (H1 : Utils.is_store_open
                   (StoreSettings.set_setting "store_open"
                      (if Utils.is_store_open d then "false" else "true") d)
                 = negb (Utils.is_store_open d)).
    { rewrite is_store_open_set. now destruct (Utils.is_store_open d). }
    split; [exact H1|]. split; [|repeat split; reflexivity].
    rewrite Hstep by reflexivity. rewrite is_store_open_set, H1.
    now destruct (Utils.is_store_open d).
  - intros Hno. unfold Routes.toggle_store.
    destruct su as [uid|]; [|reflexivity].
    destruct (Routes.get_current_user (Some uid) d) as [u|] eqn:Hu; [|reflexivity].
    now rewrite (Hno u eq_refl).
Qed.

(** The owner (user 3) closes the shop; a customer cannot. *)
Lemma toggle_store_flips_witness :
  Utils.is_store_open (fst (Routes.toggle_store (Some 3) Sample.shop)) = false /\
  fst (Routes.toggle_store (Some 1) Sample.shop) = Sample.shop.
Proof.
  split.
  - destruct (toggle_store_flips (Some 3) Sample.shop) as [H _].
    destruct H as [H _]; [|exact H].
    eexists. split; [vm_compute; reflexivity | reflexivity].
  - destruct (toggle_store_flips (Some 1) Sample.shop) as [_ H].
    apply H. intros u Hu. vm_compute in Hu. injection Hu as <-. reflexivity.
Defined.

(** X11.  A closed store takes nothing in: while [is_store_open] is false,
    [add_to_cart] and [process_checkout] leave the database exactly as it
    is and [checkout] renders no page. *)
Theorem closed_store_takes_no_orders (d : Db.t) :
  Utils.is_store_open d = false ->
  (forall su item q, fst (Routes.add_to_cart su item q d) = d) /\
  (forall clk rp su form,
     Routes.process_checkout clk rp su form d
     = (d, Routes.Redirect "cart" None
             (Some ("Sorry, we are currently closed", "error")%string))) /\
  (forall clk su coupon, exists r, Routes.checkout clk su coupon d = Routes.Answered r).
Proof.
  intros Hc. refine (conj _ (conj _ _)).
  - intros su item q. unfold Routes.add_to_cart.
    destruct su; [|reflexivity]. now rewrite Hc.
  - intros. unfold Routes.process_checkout. cbv zeta.
    change (Session.working (Session.start d)) with d. now rewrite Hc.
  - intros. unfold Routes.checkout. cbv zeta.
    destruct (match su with Some _ => _ | None => _ end); [eauto|].
    rewrite Hc. eauto.
Qed.

(** After the owner has closed the shop, customer 1 cannot check out. *)
Lemma closed_store_takes_no_orders_witness :
  let closed := fst (Routes.toggle_store (Some 3) Sample.shop) in
  fst (Routes.process_checkout Sample.at_noon "000007" (Some 1)
         (Sample.form_with "") closed) = closed.
Proof.
  intros closed.
  destruct (closed_store_takes_no_orders closed ltac:(vm_compute; reflexivity))
    as (_ & H & _).
  now rewrite H.
Defined.

(** *** The order lifecycle *)

Lemma same_snapshot_refl (o : Order.t) : Routes.same_snapshot o o.
Proof. repeat split. Qed.

Lemma same_snapshot_trans (a b c : Order.t) :
  Routes.same_snapshot a b -> Routes.same_snapshot b c -> Routes.same_snapshot a c.
Proof.
  unfold Routes.same_snapshot.
  intros (A1 & A2 & A3 & A4 & A5 & A6 & A7 & A8 & A9 & A10 & A11 & A12)
         (B1 & B2 & B3 & B4 & B5 & B6 & B7 & B8 & B9 & B10 & B11 & B12).
  repeat split; congruence.
Qed.

(** Writing back an order that differs from the stored one in lifecycle
    fields only keeps every order's snapshot and the set of order ids. *)
Lemma orders_insert_snapshot (d : Db.t) (k : Z) (old new : Order.t)
    (us : gmap Z User.t) :
  Db.orders d !! k = Some old -> Routes.same_snapshot old new ->
  let d' := Db.set_users us (Db.set_orders (<[k := new]> (Db.orders d)) d) in
  (forall oid o, Db.orders d !! oid = Some o ->
     exists o', Db.orders d' !! oid = Some o' /\ Routes.same_snapshot o o') /\
  (forall oid, Db.orders d !! oid = None -> Db.orders d' !! oid = None).
Proof.
  intros Hold Hsnap. simpl. split.
  - intros oid o Ho. destruct (decide (k = oid)) as [->|Hne].
    + rewrite lookup_insert_eq. exists new. split; [reflexivity|]. congruence.
    + rewrite lookup_insert_ne by exact Hne. exists o.
      split; [exact Ho | apply same_snapshot_refl].
  - intros oid Ho. destruct (decide (k = oid)) as [->|Hne]; [congruence|].
    now rewrite lookup_insert_ne.
Qed.

Lemma unchanged_snapshot (d : Db.t) :
  (forall oid o, Db.orders d !! oid = Some o ->
     exists o', Db.orders d !! oid = Some o' /\ Routes.same_snapshot o o') /\
  (forall oid, Db.orders d !! oid = None -> Db.orders d !! oid = None).
Proof.
  split; [|auto]. intros oid o Ho. exists o. split; [exact Ho | apply same_snapshot_refl].
Qed.

Lemma handle_snapshot clk r d :
  (forall oid o, Db.orders d !! oid = Some o ->
     exists o', Db.orders (Routes.handle clk r d) !! oid = Some o' /\
                Routes.same_snapshot o o') /\
  (forall oid, Db.orders d !! oid = None ->
               Db.orders (Routes.handle clk r d) !! oid = None).
Proof.
  destruct r as [a k|a k|a k|a k st]; simpl;
    unfold Routes.assign_order, Routes.pickup_order, Routes.complete_delivery,
      Routes.update_order_status, Routes.get_current_user;
    (destruct (Db.users d !! a) as [user|]; [|apply unchanged_snapshot]);
    try (destruct (negb (User.is_delivery_person user)); [apply unchanged_snapshot|]);
    try (destruct (negb (User.is_admin user)); [apply unchanged_snapshot|]);
    (destruct (Db.orders d !! k) as [order|] eqn:Ho; [|apply unchanged_snapshot]).
  - destruct (Py.truthy_int _); [apply unchanged_snapshot|]. simpl fst.
    apply (orders_insert_snapshot d k order _ (Db.users d) Ho).
    destruct (String.eqb _ _); repeat split.
  - destruct (negb _); [apply unchanged_snapshot|]. simpl fst.
    apply (orders_insert_snapshot d k order _ (Db.users d) Ho). repeat split.
  - destruct (negb _); [apply unchanged_snapshot|]. simpl fst.
    apply (orders_insert_snapshot d k order _ _ Ho). repeat split.
  - simpl fst.
    apply (orders_insert_snapshot d k order _ (Db.users d) Ho).
    destruct (String.eqb _ _); repeat split.
Qed.

(** X12.  An order's snapshot is frozen: no sequence of assignment, pickup,
    completion and admin status requests, and no payment confirmation,
    changes the customer, the contact data, the subtotal, delivery
    charge, discount and total, the payment method, the coupon, the
    creation time or the order number of any order, removes an order or
    adds one. *)
Theorem order_snapshot_is_frozen clk (d : Db.t) :
  (forall rs oid o, Db.orders d !! oid = Some o ->
     exists o', Db.orders (Routes.serve clk rs d) !! oid = Some o' /\
                Routes.same_snapshot o o') /\
  (forall rs oid, Db.orders d !! oid = None ->
                  Db.orders (Routes.serve clk rs d) !! oid = None) /\
  (forall k oid o, Db.orders d !! oid = Some o ->
     exists o', Db.orders (fst (Routes.confirm_payment clk k d)) !! oid = Some o' /\
                Routes.same_snapshot o o') /\
  (forall k oid, Db.orders d !! oid = None ->
                 Db.orders (fst (Routes.confirm_payment clk k d)) !! oid = None).
Proof.
  assert (Hpay : forall k,
            (forall oid o, Db.orders d !! oid = Some o ->
               exists o', Db.orders (fst (Routes.confirm_payment clk k d)) !! oid
                            = Some o' /\ Routes.same_snapshot o o') /\
            (forall oid, Db.orders d !! oid = None ->
               Db.orders (fst (Routes.confirm_payment clk k d)) !! oid = None)).
  { intros k. unfold Routes.confirm_payment.
    destruct (Db.orders d !! k) as [order|] eqn:Hk; [|apply unchanged_snapshot].
    change (fst (?a, _)) with a.
    apply (orders_insert_snapshot d k order _ (Db.users d) Hk). repeat split. }
  refine (conj _ (conj _ (conj _ _)));
    [clear Hpay | clear Hpay
    | intros k; apply (proj1 (Hpay k)) | intros k; apply (proj2 (Hpay k))].
  - intros rs. revert d. unfold Routes.serve.
    induction rs as [|r rs IH]; intros d oid o Ho; simpl.
    + exists o. split; [exact Ho | apply same_snapshot_refl].
    + destruct (proj1 (handle_snapshot clk r d) oid o Ho) as (o1 & Ho1 & S1).
      destruct (IH _ oid o1 Ho1) as (o2 & Ho2 & S2).
      exists o2. split; [exact Ho2 | eapply same_snapshot_trans; eauto].
  - intros rs. revert d. unfold Routes.serve.
    induction rs as [|r rs IH]; intros d oid Ho; simpl; [exact Ho|].
    apply IH. now apply (proj2 (handle_snapshot clk r d)).
Qed.

(** Order 1 is delivered and then cancelled by the admin: it still costs
    250 and still belongs to customer 1. *)
Lemma order_snapshot_is_frozen_witness :
  exists o',
    Db.orders (Routes.serve Sample.at_noon
                 [Routes.Complete 2 1; Routes.AdminUpdate 3 1 "cancelled"]
                 Sample.shop) !! 1 = Some o' /\
    Order.total_amount o' = 250%Q /\ Order.user_id o' = Some 1.
Proof.
  destruct (order_snapshot_is_frozen Sample.at_noon Sample.shop) as (H & _).
  destruct (H [Routes.Complete 2 1; Routes.AdminUpdate 3 1 "cancelled"] 1
              Sample.on_the_way ltac:(vm_compute; reflexivity))
    as (o' & Ho' & Hu & _ & _ & _ & _ & _ & _ & Ht & _).
  exists o'. refine (conj Ho' (conj _ _)).
  - rewrite Ht. reflexivity.
  - rewrite Hu. reflexivity.
Defined.

(** X13.  The lifecycle routes check who is asking: a request by a user who
    is not a delivery person (or does not exist) cannot assign, pick up
    or complete an order, a request by a user who is not an admin cannot
    set a status, and a delivery person cannot pick up or complete an
    order that is not assigned to them.  Each such request leaves the
    database exactly as it is. *)
Theorem lifecycle_checks_the_actor clk (d : Db.t) :
  (forall a oid,
     (forall u, Db.users d !! a = Some u -> User.is_delivery_person u = false) ->
     Routes.handle clk (Routes.Assign a oid) d = d /\
     Routes.handle clk (Routes.Pickup a oid) d = d /\
     Routes.handle clk (Routes.Complete a oid) d = d) /\
  (forall a oid st,
     (forall u, Db.users d !! a = Some u -> User.is_admin u = false) ->
     Routes.handle clk (Routes.AdminUpdate a oid st) d = d) /\
  (forall a oid o,
     Db.orders d !! oid = Some o -> Order.delivery_person_id o <> Some a ->
     Routes.handle clk (Routes.Pickup a oid) d = d /\
     Routes.handle clk (Routes.Complete a oid) d = d).
Proof.
  refine (conj _ (conj _ _)).
  - intros a oid Hno. simpl.
    unfold Routes.assign_order, Routes.pickup_order, Routes.complete_delivery,
      Routes.get_current_user.
    destruct (Db.users d !! a) as [u|]; [|repeat split].
    rewrite (Hno u eq_refl). repeat split.
  - intros a oid st Hno. simpl.
    unfold Routes.update_order_status, Routes.get_current_user.
    destruct (Db.users d !! a) as [u|]; [|reflexivity].
    now rewrite (Hno u eq_refl).
  - intros a oid o Ho Hne. simpl.
    unfold Routes.pickup_order, Routes.complete_delivery, Routes.get_current_user.
    destruct (Db.users d !! a) as [u|]; [|split; reflexivity].
    destruct (negb (User.is_delivery_person u)); [split; reflexivity|].
    rewrite Ho.
    assert (Hna : Routes.assigned_to a o = false).
    { unfold Routes.assigned_to. destruct (Order.delivery_person_id o) as [k|];
        [|reflexivity].
      apply Z.eqb_neq. congruence. }
    rewrite Hna. split; reflexivity.
Qed.

(** Customer 1 cannot deliver order 1, rider 4 cannot complete rider 2's
    order, and rider 2 cannot set a status. *)
Lemma lifecycle_checks_the_actor_witness :
  Routes.handle Sample.at_noon (Routes.Complete 1 1) Sample.shop = Sample.shop /\
  Routes.handle Sample.at_noon (Routes.Complete 4 1) Sample.shop = Sample.shop /\
  Routes.handle Sample.at_noon (Routes.AdminUpdate 2 1 "delivered") Sample.shop
    = Sample.shop.
Proof.
  destruct (lifecycle_checks_the_actor Sample.at_noon Sample.shop) as (H1 & H2 & H3).
  refine (conj _ (conj _ _)).
  - apply (H1 1 1). intros u Hu. vm_compute in Hu. injection Hu as <-. reflexivity.
  - apply (H3 4 1 Sample.on_the_way); [vm_compute; reflexivity | discriminate].
  - apply H2. intros u Hu. vm_compute in Hu. injection Hu as <-. reflexivity.
Defined.

Lemma assign_step rider oid d ru o :
  Db.users d !! rider = Some ru -> User.is_delivery_person ru = true ->
  Db.orders d !! oid = Some o -> Py.truthy_int (Order.delivery_person_id o) = false ->
  fst (Routes.assign_order (Some rider) oid d)
  = Db.set_orders
      (<[oid := if String.eqb (Order.status o) "confirmed"
                then Order.set_status "preparing"
                       (Order.set_delivery_person_id (Some rider) o)
                else Order.set_delivery_person_id (Some rider) o]> (Db.orders d)) d.
Proof.
  intros Hru Hrole Ho Hdp. unfold Routes.assign_order, Routes.get_current_user.
  rewrite Hru, Hrole, Ho, Hdp. reflexivity.
Qed.

Lemma pickup_step rider oid d ru o :
  Db.users d !! rider = Some ru -> User.is_delivery_person ru = true ->
  Db.orders d !! oid = Some o -> Order.delivery_person_id o = Some rider ->
  fst (Routes.pickup_order (Some rider) oid d)
  = Db.set_orders (<[oid := Order.set_status "out_for_delivery" o]> (Db.orders d)) d.
Proof.
  intros Hru Hrole Ho Hdp. unfold Routes.pickup_order, Routes.get_current_user,
    Routes.assigned_to.
  rewrite Hru, Hrole, Ho, Hdp, Z.eqb_refl. reflexivity.
Qed.

Lemma complete_step clk rider oid d ru o :
  Db.users d !! rider = Some ru -> User.is_delivery_person ru = true ->
  Db.orders d !! oid = Some o -> Order.delivery_person_id o = Some rider ->
  let o' := Order.set_payment_status "confirmed"
              (Order.set_delivery_time (Some (ist_now clk))
                 (Order.set_status "delivered" o)) in
  fst (Routes.complete_delivery clk (Some rider) oid d)
  = Db.set_users (Routes.credit_points o' (Db.users d))
      (Db.set_orders (<[oid := o']> (Db.orders d)) d).
Proof.
  intros Hru Hrole Ho Hdp. unfold Routes.complete_delivery, Routes.get_current_user,
    Routes.assigned_to.
  rewrite Hru, Hrole, Ho, Hdp, Z.eqb_refl. reflexivity.
Qed.

(** X14.  A delivery from start to end: when a delivery person claims a
    confirmed, unassigned order of a registered customer, picks it up and
    completes it, the order ends delivered, paid and assigned to that
    person, with the delivery time stamped and its snapshot unchanged,
    and the customer has floor(total / 10) points more; nobody else's
    points change. *)
Theorem delivery_from_claim_to_completion clk rider oid d ru o cid cu :
  Db.users d !! rider = Some ru -> User.is_delivery_person ru = true ->
  Db.orders d !! oid = Some o ->
  Order.status o = "confirmed"%string -> Order.delivery_person_id o = None ->
  Order.user_id o = Some cid -> cid <> 0 -> Db.users d !! cid = Some cu ->
  let d' := Routes.serve clk [Routes.Assign rider oid; Routes.Pickup rider oid;
                              Routes.Complete rider oid] d in
  (exists o', Db.orders d' !! oid = Some o' /\
     Order.status o' = "delivered"%string /\
     Order.payment_status o' = "confirmed"%string /\
     Order.delivery_time o' = Some (ist_now clk) /\
     Order.delivery_person_id o' = Some rider /\
     Routes.same_snapshot o o') /\
  Db.users d' !! cid
    = Some (User.set_loyalty_points
              (User.loyalty_points cu + Qfloor (Order.total_amount o / 10)) cu) /\
  (forall u, u <> cid -> Db.users d' !! u = Db.users d !! u).
Proof.
  intros Hru Hrole Ho Hst Hdp Hcid Hnz Hcu. cbv zeta.
  change (Routes.serve clk [Routes.Assign rider oid; Routes.Pickup rider oid;
                            Routes.Complete rider oid] d)
    with (fst (Routes.complete_delivery clk (Some rider) oid
           (fst (Routes.pickup_order (Some rider) oid
              (fst (Routes.assign_order (Some rider) oid d)))))).
  rewrite (assign_step rider oid d ru o Hru Hrole Ho) by now rewrite Hdp.
  rewrite Hst. simpl String.eqb. cbv iota.
  set (o1 := Order.set_status "preparing" (Order.set_delivery_person_id (Some rider) o)).
  set (d1 := Db.set_orders (<[oid := o1]> (Db.orders d)) d).
  assert (Ho1 : Db.orders d1 !! oid = Some o1) by apply lookup_insert_eq.
  rewrite (pickup_step rider oid d1 ru o1 Hru Hrole Ho1 eq_refl).
  set (o2 := Order.set_status "out_for_delivery" o1).
  set (d2 := Db.set_orders (<[oid := o2]> (Db.orders d1)) d1).
  assert (Ho2 : Db.orders d2 !! oid = Some o2) by apply lookup_insert_eq.
  rewrite (complete_step clk rider oid d2 ru o2 Hru Hrole Ho2 eq_refl).
  cbv zeta. simpl Db.orders. simpl Db.users.
  refine (conj _ _).
  - eexists. split; [apply lookup_insert_eq|]. simpl. repeat split.
  - unfold Routes.credit_points. simpl Order.user_id. rewrite Hcid.
    change (Py.truthy_int (Some cid)) with (negb (cid =? 0)).
    destruct (Z.eqb_spec cid 0) as [E|_]; [contradiction|]. simpl negb. cbv iota.
    rewrite Hcu. split.
    + rewrite lookup_insert_eq. reflexivity.
    + intros u Hne. now rewrite lookup_insert_ne by congruence.
Qed.

(** After the admin confirmed the guest order for customer 1, rider 4
    delivers it. *)
Lemma delivery_from_claim_to_completion_witness :
  let o := Order.mk (Some 1) None None "Asha" "9876543210" "12 Park Street"
             180 15 0 195 "cash" "confirmed" None "confirmed"
             1100 None None None "BC000009" in
  let d := Db.set_orders (<[9 := o]> (Db.orders Sample.shop)) Sample.shop in
  option_map User.loyalty_points
    (Db.users (Routes.serve Sample.at_noon
                 [Routes.Assign 4 9; Routes.Pickup 4 9; Routes.Complete 4 9] d) !! 1)
  = Some 19.
Proof.
  intros o d.
  destruct (delivery_from_claim_to_completion Sample.at_noon 4 9 d
              (User.mk "imran" "delivery" 0 "bronze" true) o 1
              (User.mk "asha" "customer" 0 "bronze" true)
              ltac:(vm_compute; reflexivity) eq_refl ltac:(vm_compute; reflexivity)
              eq_refl eq_refl eq_refl ltac:(lia) ltac:(vm_compute; reflexivity))
    as (_ & H & _).
  rewrite H. reflexivity.
Defined.

(** *** The delivery dashboard *)

Lemma In_insert_by before (x y : Z * Order.t) (l : list (Z * Order.t)) :
  In y (Routes.insert_by before x l) <-> y = x \/ In y l.
Proof.
  induction l as [|z r IH]; simpl; [intuition|].
  destruct (before (snd x) (snd z)); simpl; [intuition|].
  rewrite IH. intuition.
Qed.

Lemma In_order_by before (y : Z * Order.t) (l : list (Z * Order.t)) :
  In y (Routes.order_by before l) <-> In y l.
Proof.
  unfold Routes.order_by. induction l as [|z r IH]; simpl; [reflexivity|].
  rewrite In_insert_by, IH. intuition.
Qed.

Lemma In_available_orders (oid : Z) (o : Order.t) (d : Db.t) :
  In (oid, o) (Routes.available_orders d) <->
  Db.orders d !! oid = Some o /\
  (Order.status o = "confirmed"%string \/ Order.status o = "preparing"%string) /\
  Order.delivery_person_id o = None.
Proof.
  unfold Routes.available_orders.
  rewrite In_order_by, List.filter_In, <- list_elem_of_In, elem_of_map_to_list.
  simpl. rewrite andb_true_iff, orb_true_iff, !String.eqb_eq.
  destruct (Order.delivery_person_id o); intuition congruence.
Qed.

Lemma In_assigned_orders (uid oid : Z) (o : Order.t) (d : Db.t) :
  In (oid, o) (Routes.assigned_orders uid d) <->
  Db.orders d !! oid = Some o /\ Order.delivery_person_id o = Some uid.
Proof.
  unfold Routes.assigned_orders.
  rewrite In_order_by, List.filter_In, <- list_elem_of_In, elem_of_map_to_list.
  simpl. destruct (Order.delivery_person_id o) as [k|].
  - rewrite Z.eqb_eq. intuition congruence.
  - intuition congruence.
Qed.

(** X15.  What the dashboard offers can be taken: every order listed as
    available is confirmed or being prepared and unassigned; when a
    delivery person claims one, the claim succeeds, the order is being
    prepared, it moves to that person's list of assigned orders and
    leaves the list of available orders, and the other available orders
    stay on offer. *)
Theorem available_orders_can_be_claimed rider oid d ru o :
  Db.users d !! rider = Some ru -> User.is_delivery_person ru = true ->
  In (oid, o) (Routes.available_orders d) ->
  let d' := fst (Routes.assign_order (Some rider) oid d) in
  exists o',
    Db.orders d' !! oid = Some o' /\
    Order.status o' = "preparing"%string /\
    Order.delivery_person_id o' = Some rider /\
    In (oid, o') (Routes.assigned_orders rider d') /\
    (forall x, ~ In (oid, x) (Routes.available_orders d')) /\
    (forall k x, k <> oid ->
       (In (k, x) (Routes.available_orders d') <-> In (k, x) (Routes.available_orders d))).
Proof.
  intros Hru Hrole Hin. cbv zeta.
  apply In_available_orders in Hin as (Ho & Hst & Hdp).
  rewrite (assign_step rider oid d ru o Hru Hrole Ho) by now rewrite Hdp.
  set (o' := if String.eqb (Order.status o) "confirmed"
             then Order.set_status "preparing"
                    (Order.set_delivery_person_id (Some rider) o)
             else Order.set_delivery_person_id (Some rider) o).
  assert (Hst' : Order.status o' = "preparing"%string).
  { subst o'. destruct (String.eqb_spec (Order.status o) "confirmed") as [E|E];
      [reflexivity|]. simpl. destruct Hst; [contradiction | assumption]. }
  assert (Hdp' : Order.delivery_person_id o' = Some rider).
  { subst o'. now destruct (String.eqb _ _). }
  assert (Hlook : Db.orders (Db.set_orders (<[oid := o']> (Db.orders d)) d) !! oid
                  = Some o') by apply lookup_insert_eq.
  exists o'. refine (conj Hlook (conj Hst' (conj Hdp' (conj _ (conj _ _))))).
  - apply In_assigned_orders. auto.
  - intros x Hx. apply In_available_orders in Hx as (Hx & _ & Hnone).
    rewrite Hlook in Hx. injection Hx as <-. congruence.
  - intros k x Hne. rewrite !In_available_orders. simpl.
    now rewrite lookup_insert_ne by congruence.
Qed.

(** Once the admin has confirmed order 2, rider 4 finds it on the
    dashboard and takes it. *)
Lemma available_orders_can_be_claimed_witness :
  let d := fst (Routes.update_order_status Sample.at_noon (Some 3) 2 "confirmed"
                  Sample.shop) in
  exists o', Db.orders (fst (Routes.assign_order (Some 4) 2 d)) !! 2 = Some o' /\
             Order.status o' = "preparing"%string.
Proof.
  intros d.
  destruct (available_orders_can_be_claimed 4 2 d
              (User.mk "imran" "delivery" 0 "bronze" true)
              (Order.set_status "confirmed" Sample.unconfirmed)
              ltac:(vm_compute; reflexivity) eq_refl
              ltac:(vm_compute; left; reflexivity))
    as (o' & Ho & Hs & _).
  exists o'. exact (conj Ho Hs).
Defined.

(** *** Loyalty *)

Lemma current_tier_cases (b : Z) :
  (b <= 999 /\ User.current_tier b = User.bronze) \/
  (1000 <= b <= 2499 /\ User.current_tier b = User.silver) \/
  (2500 <= b <= 4999 /\ User.current_tier b = User.gold) \/
  (5000 <= b /\ User.current_tier b = User.platinum).
Proof.
  destruct (current_tier_bands b) as (Hb & Hs & Hg & Hp).
  destruct (Z_le_gt_dec b 999); [left; auto|].
  destruct (Z_le_gt_dec b 2499); [right; left; split; [lia | apply Hs; lia]|].
  destruct (Z_le_gt_dec b 4999); [right; right; left; split; [lia | apply Hg; lia]|].
  right; right; right. split; [lia | apply Hp; lia].
Qed.

(** X16.  More points never make the tier worse: with a larger balance the
    tier's lower bound is no lower and its conversion rate (points per
    rupee) no higher; and the entry returned for a non-negative balance
    is the band that holds the balance. *)
Theorem tier_never_worsens (b1 b2 : Z) :
  (b1 <= b2 ->
   User.conversion_rate (User.tiers (User.current_tier b2))
     <= User.conversion_rate (User.tiers (User.current_tier b1)) /\
   User.min_points (User.tiers (User.current_tier b1))
     <= User.min_points (User.tiers (User.current_tier b2))) /\
  (0 <= b1 -> User.in_band b1 (User.tiers (User.current_tier b1)) = true).
Proof.
  split.
  - intros Hle.
    destruct (current_tier_cases b1) as [[H1 ->]|[[H1 ->]|[[H1 ->]|[H1 ->]]]];
    destruct (current_tier_cases b2) as [[H2 ->]|[[H2 ->]|[[H2 ->]|[H2 ->]]]];
    simpl; lia.
  - intros Hb.
    destruct (current_tier_cases b1) as [[H1 ->]|[[H1 ->]|[[H1 ->]|[H1 ->]]]];
      unfold User.in_band; simpl; lia.
Qed.

(** 999 points against 1000, and the band of 2500. *)
Lemma tier_never_worsens_witness :
  User.conversion_rate (User.tiers (User.current_tier 1000))
    <= User.conversion_rate (User.tiers (User.current_tier 999)) /\
  User.in_band 2500 (User.tiers (User.current_tier 2500)) = true.
Proof.
  split.
  - apply (tier_never_worsens 999 1000). lia.
  - apply (tier_never_worsens 2500 0). lia.
Defined.

Lemma tier_rate_bounds (b : Z) :
  2 <= User.conversion_rate (User.tiers (User.current_tier b)) <= 5.
Proof. destruct (User.current_tier b); simpl; lia. Qed.

(** X17.  Redeeming is safe for the balance: from a non-negative balance the
    balance after [redeem_points] is never negative and never larger; a
    refusal changes nothing; a redemption of n points takes exactly n
    points and grants between n/5 and n/2 rupees, at least 20; and
    redeeming the whole balance (of 100 points or more) grants exactly
    [get_redeemable_amount] and leaves 0 points. *)
Theorem redeem_is_safe (u : User.t) (n : Z) :
  0 <= User.loyalty_points u ->
  let b := User.loyalty_points u in
  0 <= User.loyalty_points (fst (User.redeem_points u n)) <= b /\
  (forall msg, snd (User.redeem_points u n) = User.Refused msg ->
               fst (User.redeem_points u n) = u) /\
  (forall amt, snd (User.redeem_points u n) = User.Redeemed amt ->
     User.loyalty_points (fst (User.redeem_points u n)) = b - n /\
     n / 5 <= amt <= n / 2 /\ 20 <= amt) /\
  (100 <= b ->
   snd (User.redeem_points u b) = User.Redeemed (snd (User.get_redeemable_amount u)) /\
   User.loyalty_points (fst (User.redeem_points u b)) = 0).
Proof.
  intros Hb b. fold b in Hb.
  pose proof (tier_rate_bounds b) as Hrate.
  refine (conj _ (conj _ (conj _ _))).
  - unfold User.redeem_points. fold b.
    destruct (Z.ltb_spec n 100); [simpl; lia|].
    destruct (Z.gtb_spec n b); [simpl; lia|].
    unfold User.get_loyalty_tier_info. fold b. simpl.
    destruct (negb _); simpl; lia.
  - intros msg. unfold User.redeem_points. fold b.
    destruct (n <? 100); [reflexivity|].
    destruct (n >? b); [reflexivity|]. discriminate.
  - intros amt. unfold User.redeem_points. fold b.
    destruct (Z.ltb_spec n 100); [discriminate|].
    destruct (Z.gtb_spec n b); [discriminate|].
    unfold User.get_loyalty_tier_info. fold b. simpl. intros [= <-].
    set (rate := User.conversion_rate (User.tiers (User.current_tier b))) in *.
    assert (H5 : n / 5 <= n / rate) by (apply Z.div_le_compat_l; lia).
    assert (H2 : n / rate <= n / 2) by (apply Z.div_le_compat_l; lia).
    assert (H20 : 20 <= n / 5) by (apply Z.div_le_lower_bound; lia).
    destruct (negb _); simpl; lia.
  - intros H100. unfold User.redeem_points, User.get_redeemable_amount. fold b.
    destruct (Z.ltb_spec b 100); [lia|].
    destruct (Z.gtb_spec b b); [lia|].
    unfold User.get_loyalty_tier_info. fold b. simpl.
    destruct (negb _); simpl; split; try reflexivity; lia.
Qed.

(** Ravi (250 points, bronze) redeems everything. *)
Lemma redeem_is_safe_witness :
  snd (User.redeem_points Sample.saver 250) = User.Redeemed 50 /\
  User.loyalty_points (fst (User.redeem_points Sample.saver 250)) = 0.
Proof.
  destruct (redeem_is_safe Sample.saver 250 ltac:(simpl; lia)) as (_ & _ & _ & H).
  destruct (H ltac:(simpl; lia)) as [H1 H2].
  split; [etransitivity; [exact H1 | reflexivity] | exact H2].
Defined.

(** X18.  The loyalty page tells how far the next tier is: for a logged-in
    user it shows the entry of the tier the balance lies in and
    [next_tier_points], which is never negative; below platinum it is
    positive, that many more points reach exactly the next tier (a
    better rate) and one point fewer does not; from 5000 points on it is
    0.  The page changes nothing in the database. *)
Theorem loyalty_page_next_tier (uid : Z) (d : Db.t) (u : User.t) :
  Db.users d !! uid = Some u ->
  let b := User.loyalty_points u in
  exists v,
    Routes.loyalty_dashboard (Some uid) d
      = Routes.Rendered "loyalty_dashboard.html" None v /\
    Routes.v_tier_info v = User.tiers (User.current_tier b) /\
    Routes.v_redeemable_amount v = snd (User.get_redeemable_amount u) /\
    0 <= Routes.v_next_tier_points v /\
    (b < 5000 ->
     0 < Routes.v_next_tier_points v /\
     User.conversion_rate (User.tiers (User.current_tier (b + Routes.v_next_tier_points v)))
       < User.conversion_rate (User.tiers (User.current_tier b)) /\
     User.current_tier (b + Routes.v_next_tier_points v - 1) = User.current_tier b) /\
    (5000 <= b -> Routes.v_next_tier_points v = 0).
Proof.
  intros Hu b. unfold Routes.loyalty_dashboard, Routes.get_current_user.
  rewrite Hu.
  assert (Hlabel : User.loyalty_tier (fst (User.get_loyalty_tier_info u))
                   = User.tier_name (User.current_tier b)).
  { unfold User.get_loyalty_tier_info. fold b. simpl.
    destruct (String.eqb_spec (User.loyalty_tier u)
                (User.tier_name (User.current_tier b))); simpl; auto. }
  assert (Hpts : User.loyalty_points (fst (User.get_loyalty_tier_info u)) = b).
  { unfold User.get_loyalty_tier_info. simpl. now destruct (negb _). }
  assert (Hidem : User.get_loyalty_tier_info (fst (User.get_loyalty_tier_info u))
                  = (fst (User.get_loyalty_tier_info u), User.tiers (User.current_tier b))).
  { unfold User.get_loyalty_tier_info at 1. rewrite Hpts, Hlabel.
    now rewrite String.eqb_refl. }
  destruct (User.get_loyalty_tier_info u) as [u1 info] eqn:E1. simpl in *.
  assert (Hinfo : info = User.tiers (User.current_tier b)).
  { unfold User.get_loyalty_tier_info in E1. now injection E1 as _ <-. }
  assert (Hred : User.get_redeemable_amount u1
                 = (u1, snd (User.get_redeemable_amount u))).
  { unfold User.get_redeemable_amount. rewrite Hpts. fold b.
    destruct (b <? 100); [reflexivity|].
    rewrite Hidem, E1. simpl. now rewrite Hpts, Hinfo. }
  rewrite Hred. eexists. split; [reflexivity|]. simpl. rewrite Hlabel, Hpts, Hinfo.
  split; [reflexivity|]. split; [reflexivity|]. split; [lia|].
  destruct (current_tier_cases b) as [[H1 E]|[[H1 E]|[[H1 E]|[H1 E]]]];
    rewrite E; simpl; (split; [intros Hlt | intros Hge; lia]).
  - rewrite Z.max_r by lia. replace (b + (1000 - b)) with 1000 by lia.
    replace (1000 - 1) with 999 by lia.
    repeat split; solve [reflexivity | lia].
  - rewrite Z.max_r by lia. replace (b + (2500 - b)) with 2500 by lia.
    replace (2500 - 1) with 2499 by lia.
    repeat split; solve [reflexivity | lia].
  - rewrite Z.max_r by lia. replace (b + (5000 - b)) with 5000 by lia.
    replace (5000 - 1) with 4999 by lia.
    repeat split; solve [reflexivity | lia].
  - lia.
Qed.

(** Meera has 2600 points: 2400 more make her platinum. *)
Lemma loyalty_page_next_tier_witness :
  exists v,
    Routes.loyalty_dashboard (Some 7)
      (Db.set_users (<[7 := Sample.stale]> (Db.users Sample.shop)) Sample.shop)
      = Routes.Rendered "loyalty_dashboard.html" None v /\
    0 <= Routes.v_next_tier_points v.
Proof.
  assert (Hu : Db.users (Db.set_users (<[7 := Sample.stale]> (Db.users Sample.shop))
                           Sample.shop) !! 7 = Some Sample.stale)
    by (vm_compute; reflexivity).
  destruct (loyalty_page_next_tier 7 _ Sample.stale Hu) as (v & Hv & _ & _ & Hn & _).
  exists v. exact (conj Hv Hn).
Defined.

(** X19.  The redemption route touches one balance: whatever it is sent,
    [redeem_loyalty_points] leaves orders, carts, menu and promotions as
    they are and changes no user but the one logged in; it reports a
    redemption only for at least 100 points within the balance, and then
    the persisted balance is lower by exactly those points; a malformed
    amount, a refusal and a missing login persist nothing. *)
Theorem redeem_route_touches_one_balance (su : option Z) (n : Routes.parsed Z) (d : Db.t) :
  let d' := fst (Routes.redeem_loyalty_points su n d) in
  let answer := snd (Routes.redeem_loyalty_points su n d) in
  Db.orders d' = Db.orders d /\ Db.cart_items d' = Db.cart_items d /\
  Db.menu_items d' = Db.menu_items d /\ Db.promotions d' = Db.promotions d /\
  (forall k, su <> Some k -> Db.users d' !! k = Db.users d !! k) /\
  (forall p amt, answer = Routes.RedeemDone p amt ->
     exists uid u, su = Some uid /\ n = Routes.Parsed p /\
       Db.users d !! uid = Some u /\ 100 <= p <= User.loyalty_points u /\
       option_map User.loyalty_points (Db.users d' !! uid)
         = Some (User.loyalty_points u - p)) /\
  ((forall p amt, answer <> Routes.RedeemDone p amt) -> d' = d).
Proof.
  cbv zeta. unfold Routes.redeem_loyalty_points, Routes.get_current_user.
  destruct su as [uid|]; [|repeat split; intros; simpl in *; congruence].
  destruct (Db.users d !! uid) as [u|] eqn:Hu;
    [|repeat split; intros; simpl in *; congruence].
  destruct n as [p|]; [|repeat split; intros; simpl in *; congruence].
  unfold User.redeem_points.
  destruct (Z.ltb_spec p 100) as [Hlo|Hlo];
    [repeat split; intros; simpl in *; congruence|].
  destruct (Z.gtb_spec p (User.loyalty_points u)) as [Hhi|Hhi];
    [repeat split; intros; simpl in *; congruence|].
  destruct (User.get_loyalty_tier_info u) as [u1 info] eqn:E. simpl.
  assert (Hpts : User.loyalty_points u1 = User.loyalty_points u).
  { unfold User.get_loyalty_tier_info in E. injection E as <- _.
    now destruct (negb _). }
  refine (conj eq_refl (conj eq_refl (conj eq_refl (conj eq_refl (conj _ (conj _ _)))))).
  - intros k Hk. rewrite lookup_insert_ne by congruence. reflexivity.
  - intros p' amt [= <- <-]. exists uid, u.
    rewrite lookup_insert_eq. simpl. rewrite Hpts.
    repeat split; solve [reflexivity | assumption | lia].
  - intros Hno. exfalso. eapply Hno. reflexivity.
Qed.

(** Ravi, stored as user 8 with 250 points, redeems 100. *)
Lemma redeem_route_touches_one_balance_witness :
  let d := Db.set_users (<[8 := Sample.saver]> (Db.users Sample.shop)) Sample.shop in
  option_map User.loyalty_points
    (Db.users (fst (Routes.redeem_loyalty_points (Some 8) (Routes.Parsed 100) d)) !! 8)
  = Some 150.
Proof.
  intros d.
  destruct (redeem_route_touches_one_balance (Some 8) (Routes.Parsed 100) d)
    as (_ & _ & _ & _ & _ & H & _).
  destruct (H 100 20 ltac:(vm_compute; reflexivity))
    as (uid & u & [= <-] & _ & Hu & _ & Hp).
  rewrite Hp. vm_compute in Hu. injection Hu as <-. reflexivity.
Defined.

(** *** Administration *)

Lemma find_promotion_None_codes (c : string) (d : Db.t) :
  Db.find_promotion c d = None -> ~ In c (List.map Promotion.code (Db.promotions d)).
Proof.
  unfold Db.find_promotion. intros H Hin.
  apply List.in_map_iff in Hin as (p & Hc & Hp).
  apply (List.find_none _ _ H) in Hp. simpl in Hp.
  apply String.eqb_neq in Hp. contradiction.
Qed.

(** X20.  New promotions keep the codes unique and can be found again:
    [add_promotion] never produces two promotions with one code and never
    changes an existing promotion; when it adds one, the new promotion is
    unused and active, its code is the stripped upper-case form of the
    field, a lookup with the field as typed finds it, and so does, when
    the field is written in ASCII characters, a lookup with the field in
    lower case. *)
Theorem add_promotion_keeps_codes_unique su form d :
  Routes.codes_unique d ->
  let d' := fst (Routes.add_promotion su form d) in
  Routes.codes_unique d' /\
  (d' = d \/
   exists f new,
     form = Some f /\
     Routes.build_promotion (Py.strip (Py.upper (Routes.pf_code f))) f = Some new /\
     Db.promotions d' = (Db.promotions d ++ [new])%list /\
     Promotion.code new = Py.strip (Py.upper (Routes.pf_code f)) /\
     Promotion.used_count new = 0 /\ Promotion.is_active new = true /\
     Db.find_promotion (Py.strip (Py.upper (Routes.pf_code f))) d' = Some new /\
     (Py.isascii (Routes.pf_code f) = true ->
      Db.find_promotion (Py.strip (Py.upper (Py.lower (Routes.pf_code f)))) d'
        = Some new)).
Proof.
  intros Hd. cbv zeta. unfold Routes.add_promotion.
  destruct su as [uid|]; [|split; [exact Hd | now left]].
  destruct (Routes.get_current_user (Some uid) d) as [u|]; [|split; [exact Hd | now left]].
  destruct (negb (User.is_admin u)); [split; [exact Hd | now left]|].
  destruct form as [f|]; [|split; [exact Hd | now left]].
  destruct (Db.find_promotion _ d) eqn:Hfind; [split; [exact Hd | now left]|].
  destruct (Routes.build_promotion _ f) as [new|] eqn:Hnew;
    [|split; [exact Hd | now left]].
  simpl fst.
  assert (Hcode : Promotion.code new = Py.strip (Py.upper (Routes.pf_code f))).
  { unfold Routes.build_promotion in Hnew.
    destruct (Routes.pf_expires_at f), (Routes.pf_discount_type f),
      (Routes.pf_discount_value f), (Routes.pf_min_order_amount f),
      (Routes.pf_max_discount f), (Routes.pf_usage_limit f); try discriminate.
    now injection Hnew as <-. }
  assert (Hfresh : Promotion.used_count new = 0 /\ Promotion.is_active new = true).
  { unfold Routes.build_promotion in Hnew.
    destruct (Routes.pf_expires_at f), (Routes.pf_discount_type f),
      (Routes.pf_discount_value f), (Routes.pf_min_order_amount f),
      (Routes.pf_max_discount f), (Routes.pf_usage_limit f); try discriminate.
    now injection Hnew as <-. }
  assert (Hlook : Db.find_promotion (Py.strip (Py.upper (Routes.pf_code f)))
                    (Db.set_promotions (Db.promotions d ++ [new])%list d) = Some new).
  { unfold Db.find_promotion in *. simpl. rewrite find_app_one, Hfind, Hcode.
    now rewrite String.eqb_refl. }
  split.
  - unfold Routes.codes_unique. simpl. rewrite List.map_app. simpl.
    apply List.NoDup_app; [exact Hd | repeat constructor; simpl; tauto |].
    intros c Hin [<-|[]]. rewrite Hcode in Hin.
    now apply (find_promotion_None_codes _ _ Hfind).
  - right. exists f, new. destruct Hfresh.
    repeat split; try (assumption || reflexivity).
    intros Hascii. now rewrite (upper_lower _ Hascii).
Qed.

(** The owner adds " festive15 ". *)
Lemma add_promotion_keeps_codes_unique_witness :
  Routes.codes_unique
    (fst (Routes.add_promotion (Some 3)
            (Some (Routes.mk_promotion_form " festive15 " (Some "percentage"%string)
                     (Routes.Parsed 15%Q) (Routes.Parsed 0%Q)
                     (Routes.Parsed None) (Routes.Parsed None) (Routes.Parsed None)))
            Sample.shop)).
Proof.
  apply add_promotion_keeps_codes_unique.
  unfold Routes.codes_unique. simpl.
  repeat constructor; simpl; intuition discriminate.
Defined.

(** X21.  An admin cannot lock themselves out: [toggle_user_status] aimed at
    the acting admin changes nothing; aimed at another user it flips that
    user's active flag, leaves every other user (the admin included) as
    they were, and a second toggle restores the user. *)
Theorem admin_cannot_lock_themselves_out (uid target : Z) (d : Db.t) (admin : User.t) :
  Db.users d !! uid = Some admin -> User.is_admin admin = true ->
  let d' := fst (Routes.toggle_user_status (Some uid) target d) in
  Db.users d' !! uid = Some admin /\
  (target = uid -> d' = d) /\
  (forall k, k <> target -> Db.users d' !! k = Db.users d !! k) /\
  (forall u, target <> uid -> Db.users d !! target = Some u ->
     Db.users d' !! target = Some (User.set_is_active (negb (User.is_active u)) u) /\
     Db.users (fst (Routes.toggle_user_status (Some uid) target d')) !! target = Some u).
Proof.
  intros Hu Ha.
  assert (Hstep : forall e, Db.users e !! uid = Some admin -> target <> uid ->
            forall u, Db.users e !! target = Some u ->
            fst (Routes.toggle_user_status (Some uid) target e)
            = Db.set_users (<[target := User.set_is_active (negb (User.is_active u)) u]>
                              (Db.users e)) e).
  { intros e He Hne u Ht. unfold Routes.toggle_user_status, Routes.get_current_user.
    rewrite He, Ha, Ht. apply Z.eqb_neq in Hne. now rewrite Hne. }
  cbv zeta. refine (conj _ (conj _ (conj _ _))).
  - destruct (Z.eq_dec target uid) as [->|Hne].
    + unfold Routes.toggle_user_status, Routes.get_current_user.
      now rewrite Hu, Ha, Z.eqb_refl.
    + destruct (Db.users d !! target) as [u|] eqn:Ht.
      * rewrite (Hstep d Hu Hne u Ht). simpl. now rewrite lookup_insert_ne.
      * unfold Routes.toggle_user_status, Routes.get_current_user.
        now rewrite Hu, Ha, Ht.
  - intros ->. unfold Routes.toggle_user_status, Routes.get_current_user.
    now rewrite Hu, Ha, Z.eqb_refl.
  - intros k Hk. destruct (Z.eq_dec target uid) as [->|Hne].
    + unfold Routes.toggle_user_status, Routes.get_current_user.
      now rewrite Hu, Ha, Z.eqb_refl.
    + destruct (Db.users d !! target) as [u|] eqn:Ht.
      * rewrite (Hstep d Hu Hne u Ht). simpl. now rewrite lookup_insert_ne.
      * unfold Routes.toggle_user_status, Routes.get_current_user.
        now rewrite Hu, Ha, Ht.
  - intros u Hne Ht. rewrite (Hstep d Hu Hne u Ht).
    set (u' := User.set_is_active (negb (User.is_active u)) u).
    set (d1 := Db.set_users (<[target := u']> (Db.users d)) d).
    assert (H1 : Db.users d1 !! target = Some u') by apply lookup_insert_eq.
    assert (H2 : Db.users d1 !! uid = Some admin).
    { subst d1. simpl. now rewrite lookup_insert_ne. }
    split; [exact H1|]. rewrite (Hstep d1 H2 Hne u' H1). simpl.
    rewrite lookup_insert_eq. f_equal.
    destruct u as [un ro lp lt ia]. unfold u', User.set_is_active. simpl.
    now rewrite negb_involutive.
Qed.

(** The owner (user 3) tries to deactivate themselves, then rider 2. *)
Lemma admin_cannot_lock_themselves_out_witness :
  fst (Routes.toggle_user_status (Some 3) 3 Sample.shop) = Sample.shop /\
  option_map User.is_active
    (Db.users (fst (Routes.toggle_user_status (Some 3) 2 Sample.shop)) !! 2)
  = Some false.
Proof.
  destruct (admin_cannot_lock_themselves_out 3 3 Sample.shop
              (User.mk "owner" "admin" 0 "bronze" true)
              ltac:(vm_compute; reflexivity) eq_refl) as (_ & H1 & _).
  destruct (admin_cannot_lock_themselves_out 3 2 Sample.shop
              (User.mk "owner" "admin" 0 "bronze" true)
              ltac:(vm_compute; reflexivity) eq_refl) as (_ & _ & _ & H2).
  split; [apply H1; reflexivity|].
  destruct (H2 (User.mk "vikram" "delivery" 0 "bronze" true)
              ltac:(lia) ltac:(vm_compute; reflexivity)) as [H _].
  rewrite H. reflexivity.
Defined.

(** X22.  Delisting stops new additions only: after an admin has toggled an
    in-stock item, [add_to_cart] refuses that item for everyone and
    changes nothing, while the carts are untouched and every cart still
    shows the same rows (the item included), and a second toggle lists
    the item again as it was. *)
Theorem delisted_item_cannot_be_added (uid item : Z) (d : Db.t) (admin : User.t)
    (m : MenuItem.t) :
  Db.users d !! uid = Some admin -> User.is_admin admin = true ->
  Db.menu_items d !! item = Some m -> MenuItem.in_stock m = true ->
  let d' := fst (Routes.toggle_menu_item_stock (Some uid) item d) in
  (forall su q, fst (Routes.add_to_cart su item q d') = d') /\
  Db.cart_items d' = Db.cart_items d /\
  (forall u, Utils.get_cart_items u d' = Utils.get_cart_items u d) /\
  Db.menu_items (fst (Routes.toggle_menu_item_stock (Some uid) item d')) !! item
    = Some m.
Proof.
  intros Hu Ha Hm Hs.
  assert (Hstep : forall e x, Db.users e = Db.users d -> Db.menu_items e !! item = Some x ->
            fst (Routes.toggle_menu_item_stock (Some uid) item e)
            = Db.set_menu_items
                (<[item := MenuItem.set_in_stock (negb (MenuItem.in_stock x)) x]>
                   (Db.menu_items e)) e).
  { intros e x He Hx. unfold Routes.toggle_menu_item_stock, Routes.get_current_user.
    now rewrite He, Hu, Ha, Hx. }
  cbv zeta. rewrite (Hstep d m eq_refl Hm), Hs. simpl negb.
  set (m' := MenuItem.set_in_stock false m).
  set (d1 := Db.set_menu_items (<[item := m']> (Db.menu_items d)) d).
  assert (H1 : Db.menu_items d1 !! item = Some m') by apply lookup_insert_eq.
  refine (conj _ (conj eq_refl (conj _ _))).
  - intros su q. unfold Routes.add_to_cart.
    destruct su; [|reflexivity].
    destruct (negb (Utils.is_store_open d1)); [reflexivity|].
    destruct (_ || _); [reflexivity|]. now rewrite H1.
  - intros u. unfold Utils.get_cart_items. simpl.
    apply List.flat_map_ext. intros c.
    destruct (CartItem.user_id c =? u); [|reflexivity].
    destruct (decide (item = CartItem.menu_item_id c)) as [<-|Hne].
    + rewrite lookup_insert_eq, Hm. reflexivity.
    + now rewrite lookup_insert_ne.
  - rewrite (Hstep d1 m' eq_refl H1). simpl. rewrite lookup_insert_eq. f_equal.
    destruct m as [i n p s]. simpl in *. now subst s.
Qed.

(** The owner delists the biryani: customer 5 cannot add it, customer 1
    keeps the two plates. *)
Lemma delisted_item_cannot_be_added_witness :
  let d' := fst (Routes.toggle_menu_item_stock (Some 3) 1 Sample.shop) in
  fst (Routes.add_to_cart (Some 5) 1 1 d') = d' /\
  Utils.get_cart_items 1 d' = Utils.get_cart_items 1 Sample.shop.
Proof.
  destruct (delisted_item_cannot_be_added 3 1 Sample.shop
              (User.mk "owner" "admin" 0 "bronze" true)
              (MenuItem.mk 1 "Chicken Biryani" 125 true)
              ltac:(vm_compute; reflexivity) eq_refl
              ltac:(vm_compute; reflexivity) eq_refl) as (H1 & _ & H2 & _).
  split; [apply H1 | apply H2].
Defined.

(** *** Phone numbers and progress *)

Lemma digits_only_app (a b : string) :
  Py.digits_only (a ++ b) = (Py.digits_only a ++ Py.digits_only b)%string.
Proof.
  induction a as [|c r IH]; simpl; [reflexivity|].
  destruct (Py.is_digit c); simpl; now rewrite IH.
Qed.

Lemma digits_only_take (n : nat) (s : string) :
  Py.digits_only (Py.take n (Py.digits_only s)) = Py.take n (Py.digits_only s).
Proof.
  revert n. induction s as [|c r IH]; intros n; simpl; [now destruct n|].
  destruct (Py.is_digit c) eqn:E; [|apply IH].
  destruct n as [|k]; simpl; [reflexivity|]. now rewrite E, IH.
Qed.

Lemma digits_only_drop (n : nat) (s : string) :
  exists s', Py.drop n (Py.digits_only s) = Py.digits_only s'.
Proof.
  revert n. induction s as [|c r IH]; intros n; simpl.
  - exists EmptyString. now destruct n.
  - destruct (Py.is_digit c) eqn:E; [|apply IH].
    destruct n as [|k]; simpl; [|apply IH].
    exists (String c r). simpl. now rewrite E.
Qed.

Lemma take_drop (n : nat) (s : string) : (Py.take n s ++ Py.drop n s)%string = s.
Proof.
  revert s. induction n as [|k IH]; intros [|c r]; simpl; try reflexivity.
  change (String c (Py.take k r ++ Py.drop k r)%string = String c r).
  now rewrite IH.
Qed.

Lemma drop_drop (n m : nat) (s : string) :
  Py.drop m (Py.drop n s) = Py.drop (n + m) s.
Proof.
  revert s. induction n as [|k IH]; intros s; simpl; [reflexivity|].
  destruct s as [|c r]; [now destruct m | apply IH].
Qed.

(** X23.  Formatting a phone number for display keeps its digits: the digits
    of [format_phone_display phone] are the digits of [phone], in order,
    so the formatted number passes [validate_phone] exactly when the
    number itself does. *)
Theorem format_phone_keeps_digits (phone : string) :
  Py.digits_only (Utils.format_phone_display phone) = Py.digits_only phone /\
  Utils.validate_phone (Utils.format_phone_display phone) = Utils.validate_phone phone.
Proof.
  assert (Hd : Py.digits_only (Utils.format_phone_display phone) = Py.digits_only phone).
  { unfold Utils.format_phone_display.
    destruct phone as [|c r]; [reflexivity|]. simpl negb. cbv iota zeta.
    set (cleaned := Py.digits_only (String c r)).
    destruct (String.length cleaned =? 10)%nat; [|reflexivity].
    rewrite !digits_only_app. simpl Py.digits_only at 1 3 5.
    destruct (digits_only_drop 3 (String c r)) as (s3 & H3).
    destruct (digits_only_drop 6 (String c r)) as (s6 & H6).
    fold cleaned in H3, H6.
    assert (E1 : Py.digits_only (Py.take 3 cleaned) = Py.take 3 cleaned)
      by apply digits_only_take.
    assert (E2 : Py.digits_only (Py.take 3 (Py.drop 3 cleaned))
                 = Py.take 3 (Py.drop 3 cleaned))
      by (rewrite H3; apply digits_only_take).
    assert (E3 : Py.digits_only (Py.drop 6 cleaned) = Py.drop 6 cleaned).
    { rewrite H6. destruct (digits_only_drop 0 s6) as (x & Hx). simpl in Hx.
      clear -s6. induction s6 as [|a t IH]; simpl; [reflexivity|].
      destruct (Py.is_digit a) eqn:E; simpl; [now rewrite E, IH | exact IH]. }
    rewrite E1, E2, E3.
    change (Py.take 3 cleaned
            ++ (Py.take 3 (Py.drop 3 cleaned) ++ Py.drop (3 + 3) cleaned) = cleaned)%string.
    rewrite <- drop_drop. now rewrite take_drop, take_drop. }
  split; [exact Hd|].
  unfold Utils.validate_phone. rewrite Hd.
  destruct phone as [|c r]; [reflexivity|].
  assert (Ht : Py.truthy_str (Utils.format_phone_display (String c r)) = true).
  { unfold Utils.format_phone_display. simpl negb. cbv iota zeta.
    now destruct (_ =? _)%nat. }
  now rewrite Ht.
Qed.

(** X24.  The progress bar follows the lifecycle: for every status text the
    percentage lies between 0 and 100; it is 100 exactly for a delivered
    order and above 0 exactly for the five statuses from pending to
    delivered (a cancelled order and any unknown status show 0); and it
    grows strictly from pending through confirmed, preparing and out for
    delivery to delivered. *)
Theorem progress_follows_lifecycle (status : string) :
  let p := Utils.get_order_progress_percentage in
  0 <= p status <= 100 /\
  (p status = 100 <-> status = "delivered"%string) /\
  (0 < p status <->
   status = "pending"%string \/ status = "confirmed"%string \/
   status = "preparing"%string \/ status = "out_for_delivery"%string \/
   status = "delivered"%string) /\
  p "pending"%string < p "confirmed"%string /\
  p "confirmed"%string < p "preparing"%string /\
  p "preparing"%string < p "out_for_delivery"%string /\
  p "out_for_delivery"%string < p "delivered"%string.
Proof.
  cbv zeta. unfold Utils.get_order_progress_percentage, Utils.status_progress.
  cbn [Utils.dict_get].
  rewrite !(String.eqb_sym _ status).
  destruct (String.eqb_spec status "pending") as [->|H1];
    [repeat split; intros; try lia; try discriminate; auto|].
  destruct (String.eqb_spec status "confirmed") as [->|H2];
    [repeat split; intros; try lia; try discriminate; auto|].
  destruct (String.eqb_spec status "preparing") as [->|H3];
    [repeat split; intros; try lia; try discriminate; auto|].
  destruct (String.eqb_spec status "out_for_delivery") as [->|H4];
    [repeat split; intros; try lia; try discriminate; auto 6|].
  destruct (String.eqb_spec status "delivered") as [->|H5];
    [repeat split; intros; try lia; try discriminate; auto 6|].
  destruct (String.eqb_spec status "cancelled") as [->|H6];
    repeat split; intros; try lia; try discriminate; try contradiction;
    try reflexivity; intuition.
Qed.

(** *** Settings, clearing the cart, and the coupon preview *)

(** X25.  A setting reads back as written, and only the settings change:
    after [set_setting key value], [get_setting key] answers that value
    whatever the default and every other key reads as before; an earlier
    value of the key is overwritten (the last write wins); users, menu
    items, carts, orders, the order ids handed out, order items and
    promotions are all unchanged; and [is_store_open] reads the new
    value when the key is ['store_open'] (open exactly when the value
    lower-cased is ['true']) and keeps its answer for every other key. *)
Theorem setting_reads_back (key value : string) (dflt : option string) (d : Db.t) :
  let d' := StoreSettings.set_setting key value d in
  StoreSettings.get_setting key dflt d' = Some value /\
  (forall k, k <> key ->
     StoreSettings.get_setting k dflt d' = StoreSettings.get_setting k dflt d) /\
  (forall earlier,
     StoreSettings.set_setting key value (StoreSettings.set_setting key earlier d) = d') /\
  Db.users d' = Db.users d /\ Db.menu_items d' = Db.menu_items d /\
  Db.cart_items d' = Db.cart_items d /\ Db.orders d' = Db.orders d /\
  Db.order_seq d' = Db.order_seq d /\ Db.order_items d' = Db.order_items d /\
  Db.promotions d' = Db.promotions d /\
  (key = "store_open"%string ->
   Utils.is_store_open d' = String.eqb (Py.lower value) "true") /\
  (key <> "store_open"%string -> Utils.is_store_open d' = Utils.is_store_open d).
Proof.
  cbv zeta. refine (conj _ (conj _ (conj _ _))).
  - unfold StoreSettings.get_setting, StoreSettings.set_setting. simpl.
    now rewrite lookup_insert_eq.
  - intros k Hk. unfold StoreSettings.get_setting, StoreSettings.set_setting.
    simpl. now rewrite lookup_insert_ne.
  - intros earlier. unfold StoreSettings.set_setting, Db.set_settings. simpl.
    now rewrite insert_insert_eq.
  - do 7 (split; [reflexivity|]). split.
    + intros ->. rewrite is_store_open_set. now destruct value.
    + intros Hk. unfold Utils.is_store_open, StoreSettings.set_setting. simpl.
      now rewrite lookup_insert_ne.
Qed.

(** The value 'TRUE' opens the store, a delivery note leaves it alone. *)
Lemma setting_reads_back_witness :
  Utils.is_store_open (StoreSettings.set_setting "store_open" "TRUE" Sample.shop) = true /\
  Utils.is_store_open (StoreSettings.set_setting "banner" "closed" Sample.shop)
    = Utils.is_store_open Sample.shop.
Proof.
  split.
  - destruct (setting_reads_back "store_open" "TRUE" None Sample.shop)
      as (_ & _ & _ & _ & _ & _ & _ & _ & _ & _ & H & _).
    rewrite (H eq_refl). reflexivity.
  - destruct (setting_reads_back "banner" "closed" None Sample.shop)
      as (_ & _ & _ & _ & _ & _ & _ & _ & _ & _ & _ & H).
    apply H. discriminate.
Defined.

(** X26.  Clearing the cart empties one cart: after [clear_cart] the logged-in
    user's cart shows no rows and counts 0, every other user's cart
    shows what it showed before, and without a login nothing changes. *)
Theorem clear_cart_empties_own_cart (su : option Z) (d : Db.t) :
  let d' := fst (Routes.clear_cart su d) in
  (forall uid, su = Some uid ->
     Utils.get_cart_items uid d' = [] /\
     (Py.truthy_int su = true -> Utils.get_cart_count None su d' = 0) /\
     (forall u, u <> uid -> Utils.get_cart_items u d' = Utils.get_cart_items u d)) /\
  (su = None -> d' = d).
Proof.
  cbv zeta. split; [|now intros ->].
  intros uid ->. simpl fst.
  change (Session.committed _) with (Db.delete_cart uid d).
  assert (Hown : Utils.get_cart_items uid (Db.delete_cart uid d) = []).
  { rewrite (get_cart_items_after_delete uid uid d (Db.delete_cart uid d) eq_refl eq_refl).
    now rewrite Z.eqb_refl. }
  refine (conj Hown (conj _ _)).
  - intros Ht. unfold Utils.get_cart_count.
    rewrite get_cart_items_of_session by exact Ht. now rewrite Hown.
  - intros u Hne.
    rewrite (get_cart_items_after_delete u uid d (Db.delete_cart uid d) eq_refl eq_refl).
    destruct (Z.eqb_spec u uid); [contradiction | reflexivity].
Qed.

(** Customer 1 clears the cart; customer 5 keeps the dal makhni. *)
Lemma clear_cart_empties_own_cart_witness :
  Utils.get_cart_items 1 (fst (Routes.clear_cart (Some 1) Sample.shop)) = [] /\
  Utils.get_cart_items 5 (fst (Routes.clear_cart (Some 1) Sample.shop))
    = Utils.get_cart_items 5 Sample.shop.
Proof.
  destruct (clear_cart_empties_own_cart (Some 1) Sample.shop) as [H _].
  destruct (H 1 eq_refl) as (H1 & _ & H2).
  split; [exact H1 | apply H2; discriminate].
Defined.

Local Open Scope Q_scope.


